(** * PsyGuard: the scoring and aggregation layer, embedded and verified

    The development follows the Python sources file by file:
    - [model.py]        ([ManipulationDetector]: chunking, aggregation,
                         severity tiers, the sentence heat map),
    - [llm_analyzer.py] (the explanation generator and its section parser),
    - [multimodal.py]   (the CLIP capability gate),
    - [report_gen.py]   (the story of flowables handed to ReportLab),
    - [app.py]          (the three POST handlers).

    Conventions of the embedding.
    - A Python [str] is a [string]; its characters are the code points
      below 256 (Latin-1).  The whitespace and line-break classes are the
      ones [str.isspace] and [str.splitlines] use on those code points.
      (The three typographic signs in the literals of [report_gen.py] lie
      above 255 and stand as their UTF-8 bytes.)
    - A Python [float] is read in two ways.  [Num], [Model] and the
      modules after it take it for the rational it stands for ([Q]), with
      exact sums, products, comparisons and [round]: this is the reading
      of the properties that no rounding of the processor can change (who
      is called and when, which keys a dict has, that a percentage lies
      in its range).  [B64] and [Model64] take it for the binary64 number
      it is, every operation rounding as the processor does: this is the
      reading of the properties in which the last bit decides (the value
      of a score, the tier at a boundary, the order of two means).
    - A [dict] whose iteration order the code relies on is an association
      list in insertion order (module [Dict]).
    - The pretrained models, the LLM endpoint, the HTTP client and the clock
      are external: they are the fields of a record [Externals], and every
      call to one of them is recorded in the state threaded by the monad
      [M], which also carries Python exceptions. *)

From Stdlib Require Import List Arith Lia Bool ZArith QArith Qround Qminmax Qabs Lqa.
From Stdlib Require Import Ascii String DecimalString Sorted Permutation.
From Stdlib Require Floats.
Import ListNotations.

Set Implicit Arguments.

Close Scope Q_scope.
Local Open Scope string_scope.
Local Open Scope list_scope.
Local Open Scope nat_scope.

(* ================================================================== *)
(** * Python strings *)
(* ================================================================== *)

Module Py.

(** [ch.isspace()] for a code point below 256: TAB..CR, FS..US, SPACE,
    NEL (0x85) and NBSP (0xA0). *)
Definition isspace (c : ascii) : bool :=
  let n := nat_of_ascii c in
  ((9 <=? n) && (n <=? 13)) || ((28 <=? n) && (n <=? 32))
  || (n =? 133) || (n =? 160).

(** Line boundaries of [str.splitlines] below 256: LF, VT, FF, CR, FS, GS,
    RS and NEL.  (US, 0x1F, is white space but not a line boundary.) *)
Definition islinebreak (c : ascii) : bool :=
  let n := nat_of_ascii c in
  ((10 <=? n) && (n <=? 13)) || ((28 <=? n) && (n <=? 30)) || (n =? 133).

Definition chars := list ascii.

Definition of_chars : chars -> string := string_of_list_ascii.
Definition to_chars : string -> chars := list_ascii_of_string.

(** ** Operations on character lists *)

Fixpoint lstrip_chars (s : chars) : chars :=
  match s with
  | c :: s' => if isspace c then lstrip_chars s' else s
  | [] => []
  end.

Definition rstrip_chars (s : chars) : chars := rev (lstrip_chars (rev s)).

Definition strip_chars (s : chars) : chars := rstrip_chars (lstrip_chars s).

(** [s.split()]: the maximal runs of characters that are not white space. *)
Fixpoint split_chars (s : chars) : list chars :=
  match s with
  | [] => []
  | c :: s' =>
      if isspace c then split_chars s'
      else match s' with
           | [] => [[c]]
           | d :: _ =>
               if isspace d then [c] :: split_chars s'
               else match split_chars s' with
                    | w :: ws => (c :: w) :: ws
                    | [] => [[c]]
                    end
           end
  end.

(** [sep.join(l)] *)
Fixpoint join_chars (sep : chars) (l : list chars) : chars :=
  match l with
  | [] => []
  | [w] => w
  | w :: ws => w ++ sep ++ join_chars sep ws
  end.

Fixpoint startswith_chars (s p : chars) : bool :=
  match p, s with
  | [], _ => true
  | _ :: _, [] => false
  | a :: p', b :: s' => Ascii.eqb a b && startswith_chars s' p'
  end.

(** [s.splitlines()]: [cur] is the current line, reversed; [after_cr] says
    that the previous character was a CR, so that a LF now belongs to the
    same boundary. *)
Fixpoint splitlines_chars (after_cr : bool) (cur : chars) (s : chars)
  : list chars :=
  match s with
  | [] => match cur with [] => [] | _ => [rev cur] end
  | c :: s' =>
      if after_cr && (nat_of_ascii c =? 10)
      then splitlines_chars false cur s'
      else if islinebreak c
           then rev cur :: splitlines_chars (nat_of_ascii c =? 13) [] s'
           else splitlines_chars false (c :: cur) s'
  end.

(** [ch.upper()] for a code point below 256.  The sharp s (0xDF) becomes
    two letters.  The micro sign (0xB5) and y with diaeresis (0xFF) have
    upper-case forms above 255; they are left as they are, which no
    comparison with an ASCII string can tell apart. *)
Definition upper_char (c : ascii) : chars :=
  let n := nat_of_ascii c in
  if ((97 <=? n) && (n <=? 122))
     || ((224 <=? n) && (n <=? 254) && negb (n =? 247))
  then [ascii_of_nat (n - 32)]
  else if n =? 223 then ["S"%char; "S"%char]
  else [c].

Definition upper_chars (s : chars) : chars := flat_map upper_char s.

(** ** The same operations on [string] *)

Definition len (s : string) : nat := String.length s.
Definition strip (s : string) : string := of_chars (strip_chars (to_chars s)).
Definition split (s : string) : list string :=
  map of_chars (split_chars (to_chars s)).
Definition join (sep : string) (l : list string) : string :=
  of_chars (join_chars (to_chars sep) (map to_chars l)).
Definition startswith (s p : string) : bool :=
  startswith_chars (to_chars s) (to_chars p).
Definition splitlines (s : string) : list string :=
  map of_chars (splitlines_chars false [] (to_chars s)).
Definition upper (s : string) : string := of_chars (upper_chars (to_chars s)).

(** [s[:n]] *)
Definition prefix (n : nat) (s : string) : string :=
  of_chars (firstn n (to_chars s)).

(** Truth value of a string: non-empty. *)
Definition truthy (s : string) : bool :=
  match s with EmptyString => false | _ => true end.

(** [l[i:j]] for [0 <= i <= j]. *)
Definition slice {A} (l : list A) (i j : nat) : list A :=
  firstn (j - i) (skipn i l).

(** [range(0, stop, step)] for [step > 0]. *)
Definition range0 (stop step : nat) : list nat :=
  map (fun k => k * step) (seq 0 ((stop + step - 1) / step)).

End Py.

(* ================================================================== *)
(** * Numbers: Python floats as exact rationals *)
(* ================================================================== *)

Module Num.
Local Open Scope Q_scope.

(** Round to the nearest integer, ties to the even one. *)
Definition round_half_even (q : Q) : Z :=
  let f := Qfloor q in
  match Qcompare (q - inject_Z f) (1 # 2) with
  | Lt => f
  | Gt => (f + 1)%Z
  | Eq => if Z.even f then f else (f + 1)%Z
  end.

Definition pow10 (n : nat) : Q := inject_Z (10 ^ Z.of_nat n).

(** [round(x, ndigits)] *)
Definition round (x : Q) (ndigits : nat) : Q :=
  inject_Z (round_half_even (x * pow10 ndigits)) / pow10 ndigits.

Definition sum (l : list Q) : Q := fold_right Qplus 0 l.

(** [np.mean(l)].  On the empty list NumPy gives nan; the quotient by zero
    is 0 here, and no caller below passes an empty list. *)
Definition mean (l : list Q) : Q := sum l / inject_Z (Z.of_nat (List.length l)).

(** [a < b], [a >= b], [a > b] as booleans *)
Definition ltb (a b : Q) : bool := negb (Qle_bool b a).
Definition geb (a b : Q) : bool := Qle_bool b a.
Definition gtb (a b : Q) : bool := ltb b a.

(** [min(a, b)]: [b] when [b < a], else [a]. *)
Definition min (a b : Q) : Q := if ltb b a then b else a.

Definition str_nat (n : N) : string :=
  DecimalString.NilZero.string_of_uint (N.to_uint n).

(** [f"{x:.1f}"].  It is also [repr(x)] for a float that [round(_, 1)]
    returned, which is the only kind of float the program prints bare. *)
Definition str_1f (x : Q) : string :=
  let n := round_half_even (x * 10) in
  let a := Z.to_N (Z.abs n) in
  ((if ltb x 0 then "-" else EmptyString)
   ++ str_nat (a / 10) ++ "." ++ str_nat (a mod 10))%string.

End Num.

(* ================================================================== *)
(** * Dictionaries in insertion order *)
(* ================================================================== *)

Module Dict.
Section Dict.
Variable V : Type.

Definition t := list (string * V).

Fixpoint get (d : t) (k : string) : option V :=
  match d with
  | [] => None
  | (k', v) :: d' => if String.eqb k k' then Some v else get d' k
  end.

(** [d.get(k, default)] *)
Definition get_default (d : t) (k : string) (default : V) : V :=
  match get d k with Some v => v | None => default end.

(** [d[k] = v]: an existing key keeps its place. *)
Fixpoint set (d : t) (k : string) (v : V) : t :=
  match d with
  | [] => [(k, v)]
  | (k', v') :: d' =>
      if String.eqb k k' then (k', v) :: d' else (k', v') :: set d' k v
  end.

(** [dict(pairs)], also the dict comprehension over [pairs] *)
Definition of_pairs (pairs : list (string * V)) : t :=
  fold_left (fun d p => set d (fst p) (snd p)) pairs [].

Definition items (d : t) : list (string * V) := d.
Definition keys (d : t) : list string := map fst d.
Definition values (d : t) : list V := map snd d.

End Dict.
End Dict.

(* ================================================================== *)
(** * Effects: external calls, module state and exceptions *)
(* ================================================================== *)

Inductive exn : Type :=
| HTTPException (status_code : nat) (detail : string)
| Error (message : string).

(** [str(exc)] *)
Definition str_exn (e : exn) : string :=
  match e with
  | HTTPException c d => (Num.str_nat (N.of_nat c) ++ ": " ++ d)%string
  | Error m => m
  end.

Inductive outcome (A : Type) : Type :=
| Return (a : A)
| Raise (e : exn).
Arguments Return {A} a.
Arguments Raise {A} e.

(** Result of the zero-shot pipeline: the labels and their scores. *)
Record ClfResult : Type := { labels : list string; scores : list Q }.

Definition Image := string.

(** A call that leaves the process. *)
Inductive call : Type :=
| Classify (sequence : string) (multi_label : bool)
| MessagesCreate (prompt : string)
| HttpGet (url : string)
| ClipInference (texts : list string).

(** What the program does not define itself. *)
Record Externals : Type := {
  (** [self.classifier(sequence, candidate_labels=..., multi_label=...)] *)
  classifier : string -> list string -> bool -> outcome ClfResult;
  (** the environment variable ANTHROPIC_API_KEY, empty when unset *)
  ANTHROPIC_API_KEY : string;
  (** [client.messages.create(...)]: the texts of [response.content] *)
  messages_create : string -> outcome (list string);
  (** [requests.get], [raise_for_status] and [Image.open] *)
  http_get_image : string -> outcome Image;
  (** whether both [from_pretrained] calls of [_load_clip] succeeded *)
  clip_loads : bool;
  (** processor, model and softmax: the first row of probabilities *)
  clip_probs : list string -> Image -> outcome (list Q);
  (** what [time.time()] reads, as a function of the calls made so far *)
  clock : list call -> Q;
  (** [datetime.datetime.now().strftime('%B %d, %Y at %H:%M')] *)
  now_strftime : string
}.

(** The module-level variable [_client] of [llm_analyzer] (the key the
    client was built with) and the calls made so far. *)
Record state : Type := { _client : option string; trace : list call }.

Definition M (A : Type) : Type := state -> outcome A * state.

Definition ret {A} (a : A) : M A := fun st => (Return a, st).

Definition raise {A} (e : exn) : M A := fun st => (Raise e, st).

Definition bind {A B} (m : M A) (k : A -> M B) : M B :=
  fun st =>
    match m st with
    | (Return a, st') => k a st'
    | (Raise e, st') => (Raise e, st')
    end.

(** [try: body / except Exception as exc: handler exc] *)
Definition try_except {A} (body : M A) (handler : exn -> M A) : M A :=
  fun st =>
    match body st with
    | (Return a, st') => (Return a, st')
    | (Raise e, st') => handler e st'
    end.

Definition external {A} (c : call) (o : outcome A) : M A :=
  fun st => (o, {| _client := _client st; trace := trace st ++ [c] |}).

(** The state after the further calls [cs]. *)
Definition after (st : state) (cs : list call) : state :=
  {| _client := _client st; trace := trace st ++ cs |}.

Declare Scope monad_scope.
Delimit Scope monad_scope with monad.
Notation "x <- m ;; k" := (bind m (fun x => k))
  (at level 61, m at next level, right associativity) : monad_scope.
Local Open Scope monad_scope.

(** [for x in l: results.append(f x)] *)
Fixpoint for_each {A B} (l : list A) (f : A -> M B) : M (list B) :=
  match l with
  | [] => ret []
  | x :: l' => y <- f x ;; ys <- for_each l' f ;; ret (y :: ys)
  end.

(** [l[i]], with its [IndexError] *)
Definition index {A} (l : list A) (i : nat) : M A :=
  match nth_error l i with
  | Some a => ret a
  | None => raise (Error "list index out of range")
  end.

(* ================================================================== *)
(** * model.py *)
(* ================================================================== *)

Module Model.

Definition TACTIC_LABELS : list string :=
  [ "Fear & Urgency";
    "False Social Proof";
    "Identity Attack";
    "Emotional Hijacking";
    "Scarcity Illusion";
    "Gaslighting" ].

Definition TACTIC_DESCRIPTIONS : Dict.t string :=
  [ ("Fear & Urgency",      "Creates panic or time pressure to bypass rational thinking");
    ("False Social Proof",  "Uses fake or exaggerated popularity to influence behavior");
    ("Identity Attack",     "Targets personal identity to shame or manipulate");
    ("Emotional Hijacking", "Overloads emotions to override logical decision-making");
    ("Scarcity Illusion",   "Fabricates limited availability to trigger impulsive action");
    ("Gaslighting",         "Contradicts reality to make the reader doubt their perception") ].

Definition TACTIC_COLORS : Dict.t string :=
  [ ("Fear & Urgency",      "#ff4d6a");
    ("False Social Proof",  "#ffb547");
    ("Identity Attack",     "#a78bfa");
    ("Emotional Hijacking", "#f472b6");
    ("Scarcity Illusion",   "#38bdf8");
    ("Gaslighting",         "#fb923c") ].

(** The dict [analyze_text] returns. *)
Record Analysis : Type := {
  overall_score       : Q;
  severity            : string;
  severity_color      : string;
  tactic_scores       : Dict.t Q;
  tactic_colors       : Dict.t string;
  top_tactics         : list string;
  tactic_descriptions : Dict.t string;
  chunks_analyzed     : nat;
  word_count          : nat
}.

(** An item of the list [highlight_sentences] returns. *)
Record Highlight : Type := {
  text   : string;
  score  : Q;
  tactic : option string
}.

(** [sorted(l, key=key, reverse=True)]: descending keys, and items with
    equal keys in the order they had in [l].  [insert_desc x l] puts [x],
    which stood before all of [l], in front of the first item whose key is
    not greater than its own. *)
Section Sorted.
Variable A : Type.
Variable key : A -> Q.

Fixpoint insert_desc (x : A) (l : list A) : list A :=
  match l with
  | [] => [x]
  | y :: l' => if Num.gtb (key y) (key x) then y :: insert_desc x l' else x :: l
  end.

Definition sorted_desc (l : list A) : list A := fold_right insert_desc [] l.
End Sorted.

(** [re.split(r'(?<=[.!?])\s+', s)]: [s] is cut at each maximal run of
    white space that directly follows one of [.], [!], [?].  [gap] says
    that such a run is being skipped, [prev_punct] that the previous
    character was one of the three, [cur] is the current piece,
    reversed. *)
Definition is_sentence_end (c : ascii) : bool :=
  Ascii.eqb c "."%char || Ascii.eqb c "!"%char || Ascii.eqb c "?"%char.

Fixpoint split_sentences_chars (gap prev_punct : bool) (cur s : Py.chars)
  : list Py.chars :=
  match s with
  | [] => [rev cur]
  | c :: s' =>
      if Py.isspace c then
        if gap then split_sentences_chars true false cur s'
        else if prev_punct then rev cur :: split_sentences_chars true false [] s'
        else split_sentences_chars false false (c :: cur) s'
      else split_sentences_chars false (is_sentence_end c) (c :: cur) s'
  end.

Definition split_sentences (s : string) : list string :=
  map Py.of_chars (split_sentences_chars false false [] (Py.to_chars s)).

(** ** Helpers *)

Definition _chunk_text (text : string) (size : nat) : list string :=
  let words := Py.split text in
  let chunks :=
    map (fun i => Py.join " " (Py.slice words i (i + size)))
        (Py.range0 (List.length words) size) in
  match filter (fun c => Py.truthy (Py.strip c)) chunks with
  | [] => [text]
  | cs => cs
  end.

Definition _empty_result : Analysis :=
  {| overall_score       := 0%Q;
     severity            := "LOW";
     severity_color      := "#22c55e";
     tactic_scores       := Dict.of_pairs (map (fun k => (k, 0%Q)) TACTIC_LABELS);
     tactic_colors       := TACTIC_COLORS;
     top_tactics         := [];
     tactic_descriptions := TACTIC_DESCRIPTIONS;
     chunks_analyzed     := 0;
     word_count          := 0 |}.

(** ** Main analysis: what [analyze_text] computes after its loop, one
    definition for each local variable, as a function of [all_scores]. *)

(** [tactic_scores]: the mean of each label over the classified chunks *)
Definition tactic_means (all_scores : list (Dict.t Q)) : Dict.t Q :=
  Dict.of_pairs
    (map (fun label =>
            (label,
             Num.mean (map (fun s => Dict.get_default s label 0%Q) all_scores)))
         TACTIC_LABELS).

Definition raw (all_scores : list (Dict.t Q)) : Q :=
  Num.mean (Dict.values (tactic_means all_scores)).

(** Scale 0-100 with sensitivity boost *)
Definition overall (all_scores : list (Dict.t Q)) : Q :=
  Num.min 100%Q (raw all_scores * 180)%Q.

Definition sorted_tactics (all_scores : list (Dict.t Q)) : list (string * Q) :=
  sorted_desc snd (Dict.items (tactic_means all_scores)).

(** [top_tactics], before it is cut to three *)
Definition top_tactics_all (all_scores : list (Dict.t Q)) : list string :=
  map fst (filter (fun ts => Num.gtb (snd ts) (25 # 100)%Q)
                  (sorted_tactics all_scores)).

(** [severity, sev_color] *)
Definition severity_of (overall : Q) : string * string :=
  if Num.geb overall 70%Q then ("HIGH", "#ef4444")
  else if Num.geb overall 40%Q then ("MODERATE", "#f59e0b")
  else ("LOW", "#22c55e").

(** The dict returned at the end. *)
Definition result_of (text : string) (chunks : list string)
    (all_scores : list (Dict.t Q)) : Analysis :=
  {| overall_score       := Num.round (overall all_scores) 1;
     severity            := fst (severity_of (overall all_scores));
     severity_color      := snd (severity_of (overall all_scores));
     tactic_scores       :=
       Dict.of_pairs
         (map (fun kv => (fst kv, Num.round (snd kv * 100)%Q 1))
              (Dict.items (tactic_means all_scores)));
     tactic_colors       := TACTIC_COLORS;
     top_tactics         := firstn 3 (top_tactics_all all_scores);
     tactic_descriptions := TACTIC_DESCRIPTIONS;
     chunks_analyzed     := List.length (firstn 5 chunks);
     word_count          := List.length (Py.split text) |}.

(** [dict(zip(result["labels"], result["scores"]))] *)
Definition scores_dict (result : ClfResult) : Dict.t Q :=
  Dict.of_pairs (combine (labels result) (scores result)).

Section Detector.
Variable ext : Externals.

Definition classify (sequence : string) (multi_label : bool) : M ClfResult :=
  external (Classify sequence multi_label)
           (classifier ext sequence TACTIC_LABELS multi_label).

Definition analyze_text (text : string) : M Analysis :=
  if negb (Py.truthy text) || (Py.len (Py.strip text) <? 10)
  then ret _empty_result
  else
    let chunks := _chunk_text text 400 in
    all_scores <-
      for_each (firstn 5 chunks) (fun chunk =>    (* cap at 5 chunks *)
        result <- classify chunk true ;;
        ret (scores_dict result)) ;;
    ret (result_of text chunks all_scores).

(** ** Sentence heat map *)

(** The body of the loop, for the sentence [sent]. *)
Definition highlight_item (sent : string) : M Highlight :=
  if List.length (Py.split sent) <? 4
  then ret {| text := sent; score := 0%Q; tactic := None |}
  else
    try_except
      (res <- classify sent false ;;
       top_score <- index (scores res) 0 ;;
       top_label <- index (labels res) 0 ;;
       let scaled := Num.min 1%Q (top_score * (18 # 10))%Q in
       ret {| text   := sent;
              score  := Num.round scaled 3;
              tactic := if Num.gtb top_score (3 # 10)%Q
                        then Some top_label else None |})
      (fun _ => ret {| text := sent; score := 0%Q; tactic := None |}).

Definition highlight_sentences (text : string) : M (list Highlight) :=
  let sentences := split_sentences (Py.strip text) in
  for_each (firstn 20 sentences) highlight_item.

End Detector.
End Model.

(* ================================================================== *)
(** * llm_analyzer.py *)
(* ================================================================== *)

Module LlmAnalyzer.

(** The dict [generate_explanation] returns. *)
Record Explanation : Type := {
  success          : bool;
  full_explanation : string;
  sections         : Dict.t string
}.

Definition nl : string := String "010"%char EmptyString.
Definition dquote : string := String "034"%char EmptyString.

Definition headings : list string :=
  [ "SUMMARY"; "KEY TACTICS"; "PSYCHOLOGICAL MECHANISM";
    "WHAT TO WATCH OUT FOR"; "VERDICT" ].

(** [next((h for h in headings if stripped.upper().startswith(h)), None)] *)
Definition match_heading (stripped : string) : option string :=
  find (fun h => Py.startswith (Py.upper stripped) h) headings.

(** The loop state of [_parse_sections]. *)
Record parser : Type := {
  p_sections : Dict.t string;
  p_current  : option string;
  p_buf      : list string
}.

(** [sections[current] = " ".join(buf).strip()] when [current] is set *)
Definition flush (p : parser) : Dict.t string :=
  match p_current p with
  | Some current =>
      Dict.set (p_sections p) current (Py.strip (Py.join " " (p_buf p)))
  | None => p_sections p
  end.

(** One iteration of the loop over the lines. *)
Definition parse_line (p : parser) (line : string) : parser :=
  let stripped := Py.strip line in
  match match_heading stripped with
  | Some matched =>
      {| p_sections := flush p; p_current := Some matched; p_buf := [] |}
  | None =>
      match p_current p with
      | Some _ =>
          if Py.truthy stripped
          then {| p_sections := p_sections p;
                  p_current  := p_current p;
                  p_buf      := p_buf p ++ [stripped] |}
          else p
      | None => p
      end
  end.

Definition parse_lines (lines : list string) : Dict.t string :=
  flush (fold_left parse_line lines
           {| p_sections := []; p_current := None; p_buf := [] |}).

Definition _parse_sections (text : string) : Dict.t string :=
  parse_lines (Py.splitlines text).

Definition prompt_of (score tactic_summary text : string) : string :=
  Py.join nl
    [ "You are a media-literacy expert specialising in psychological manipulation.";
      EmptyString;
      ("The automated transformer scored this text " ++ score ++ "/100 for manipulation.")%string;
      ("Top tactics detected: " ++ tactic_summary)%string;
      EmptyString;
      "TEXT:";
      (dquote ++ dquote ++ dquote ++ Py.prefix 1500 text ++ dquote ++ dquote ++ dquote)%string;
      EmptyString;
      "Write a structured analysis with exactly these 5 headings (use them verbatim):";
      "SUMMARY";
      "KEY TACTICS";
      "PSYCHOLOGICAL MECHANISM";
      "WHAT TO WATCH OUT FOR";
      "VERDICT";
      EmptyString;
      "Rules:";
      "- Cite actual phrases from the text as evidence.";
      "- Be direct and specific.";
      "- Total response under 420 words.";
      EmptyString ].

(** [score], [tactic_summary] and [prompt] of [generate_explanation] *)
Definition build_prompt (text : string) (analysis : Model.Analysis) : string :=
  let score := Num.str_1f (Model.overall_score analysis) in
  let tactic_summary :=
    let joined := Py.join ", " (Model.top_tactics analysis) in
    if Py.truthy joined then joined else "none" in
  prompt_of score tactic_summary text.

Section Generator.
Variable ext : Externals.

(** The client is the key it was built with; building it only stores the
    key and does not fail. *)
Definition _get_client : M (option string) :=
  fun st =>
    match _client st with
    | None =>
        let api_key := ANTHROPIC_API_KEY ext in
        if negb (Py.truthy api_key) then (Return None, st)
        else (Return (Some api_key),
              {| _client := Some api_key; trace := trace st |})
    | Some c => (Return (Some c), st)
    end.

Definition generate_explanation (text : string) (analysis : Model.Analysis)
  : M Explanation :=
  client <- _get_client ;;
  match client with
  | None =>
      ret {| success := false;
             full_explanation :=
               "Set ANTHROPIC_API_KEY environment variable to enable LLM analysis.";
             sections := [] |}
  | Some _ =>
      let prompt := build_prompt text analysis in
      try_except
        (content <- external (MessagesCreate prompt) (messages_create ext prompt) ;;
         explanation <- index content 0 ;;
         ret {| success := true;
                full_explanation := explanation;
                sections := _parse_sections explanation |})
        (fun exc =>
           ret {| success := false;
                  full_explanation := ("LLM error: " ++ str_exn exc)%string;
                  sections := [] |})
  end.

End Generator.
End LlmAnalyzer.

(* ================================================================== *)
(** * multimodal.py *)
(* ================================================================== *)

Module Multimodal.

(** The dicts the two analyzers return. *)
Inductive Result : Type :=
| Unavailable (error : option string)
| CaptionMatch (match_probability mismatch_score : Q) (verdict : string)
| Clickbait (clickbait_score : Q) (label_scores : Dict.t Q).

Definition available (r : Result) : bool :=
  match r with Unavailable _ => false | _ => true end.

Definition clickbait_labels : list string :=
  [ "shocking or sensational image designed to provoke outrage";
    "exaggerated facial expression of shock or disbelief";
    "misleading or deceptive visual thumbnail";
    "normal neutral informative image" ].

Section Clip.
Variable ext : Externals.

(** Set once by [_load_clip] when the module is imported. *)
Definition _available : bool := clip_loads ext.

Definition _fetch_image (url : string) : M Image :=
  external (HttpGet url) (http_get_image ext url).

Definition clip (texts : list string) (image : Image) : M (list Q) :=
  external (ClipInference texts) (clip_probs ext texts image).

Definition analyze_image_caption (image_url caption : string) : M Result :=
  if negb _available || negb (Py.truthy image_url)
  then ret (Unavailable None)
  else
    try_except
      (image <- _fetch_image image_url ;;
       let texts := [caption; ("image completely unrelated to: " ++ caption)%string] in
       probs <- clip texts image ;;
       p0 <- index probs 0 ;;
       let match_pct := Num.round (p0 * 100)%Q 1 in
       p1 <- index probs 1 ;;
       let mismatch_pct := Num.round (p1 * 100)%Q 1 in
       let verdict :=
         if Num.gtb mismatch_pct 60%Q then "HIGH MISMATCH"
         else if Num.gtb mismatch_pct 35%Q then "MODERATE"
         else "ALIGNED" in
       ret (CaptionMatch match_pct mismatch_pct verdict))
      (fun exc => ret (Unavailable (Some (str_exn exc)))).

Definition analyze_clickbait (image_url : string) : M Result :=
  if negb _available || negb (Py.truthy image_url)
  then ret (Unavailable None)
  else
    try_except
      (image <- _fetch_image image_url ;;
       probs <- clip clickbait_labels image ;;
       let clickbait_score := Num.round (Num.sum (firstn 3 probs) * 100)%Q 1 in
       ret (Clickbait clickbait_score
              (Dict.of_pairs
                 (map (fun lp => (fst lp, Num.round (snd lp * 100)%Q 1))
                      (combine clickbait_labels probs)))))
      (fun exc => ret (Unavailable (Some (str_exn exc)))).

End Clip.
End Multimodal.

(* ================================================================== *)
(** * report_gen.py *)
(* ================================================================== *)

Module ReportGen.

(** Colour palette *)
Definition C_DARK    : string := "#0f1628".
Definition C_ACCENT  : string := "#4f7cff".
Definition C_RED     : string := "#ef4444".
Definition C_AMBER   : string := "#f59e0b".
Definition C_GREEN   : string := "#22c55e".
Definition C_SURFACE : string := "#f8fafc".
Definition C_GRAY    : string := "#64748b".
Definition C_BORDER  : string := "#e2e8f0".

(** A paragraph style: its name and text colour.  Sizes, fonts and
    paddings are constants of the layout and are left out. *)
Record ParagraphStyle : Type := { sty_name : string; textColor : string }.

Definition _sty (name color : string) : ParagraphStyle :=
  {| sty_name := name; textColor := color |}.

(** A table cell is a plain string or a paragraph. *)
Inductive cell : Type :=
| Str (s : string)
| Para (text : string) (style : ParagraphStyle).

(** The flowables of the story handed to [doc.build]. *)
Inductive flowable : Type :=
| Paragraph (text : string) (style : ParagraphStyle)
| Spacer
| HRFlowable
| Table (data : list (list cell)).

(** The risk label of one row of the tactic table. *)
Definition risk (val : Q) : string :=
  if Num.geb val 60%Q then "HIGH"
  else if Num.geb val 35%Q then "MODERATE"
  else "LOW".

Definition tactic_row (kv : string * Q) : list cell :=
  [Str (fst kv); Str (Num.str_1f (snd kv) ++ "/100")%string; Str (risk (snd kv))].

(** [trow]: the header row, then a row for each item of [tactic_scores]. *)
Definition tactic_table (tactic_scores : Dict.t Q) : list (list cell) :=
  [Str "Tactic"; Str "Score"; Str "Risk"]
  :: map tactic_row (Dict.items tactic_scores).

(** The paragraphs of the explanation, when the explanation succeeded. *)
Definition explanation_flowables (explanation : LlmAnalyzer.Explanation)
  : list flowable :=
  let body_sty := _sty "body" "#374151" in
  if LlmAnalyzer.success explanation then
    let sections := LlmAnalyzer.sections explanation in
    [Paragraph "AI Analysis (Claude)" (_sty "SH2" C_DARK)]
    ++ flat_map
         (fun hc =>
            if Py.truthy (snd hc)
            then [Paragraph (fst hc) (_sty ("sec_" ++ fst hc)%string C_ACCENT);
                  Paragraph (snd hc) body_sty]
            else [])
         (Dict.items sections)
    ++ (match sections with
        | [] =>
            if Py.truthy (LlmAnalyzer.full_explanation explanation)
            then [Paragraph (LlmAnalyzer.full_explanation explanation) body_sty]
            else []
        | _ => []
        end)
    ++ [Spacer]
  else [].

(** The tables of a story, and the texts of its paragraphs. *)
Definition tables (story : list flowable) : list (list (list cell)) :=
  flat_map (fun f => match f with Table d => [d] | _ => [] end) story.


Section Report.
Variable ext : Externals.

(** The story that [generate_report] builds; the PDF bytes are what
    ReportLab makes of it. *)
Definition generate_report (text : string) (analysis : Model.Analysis)
    (explanation : LlmAnalyzer.Explanation) (url : string) : list flowable :=
  (* Header *)
  let header :=
    [ Paragraph "PsychoGuard AI — Manipulation Analysis Report" (_sty "H" C_DARK);
      Paragraph ("Generated " ++ now_strftime ext)%string (_sty "Sub" C_GRAY);
      HRFlowable;
      Spacer ] in
  (* Score overview table *)
  let score    := Model.overall_score analysis in
  let severity := Model.severity analysis in
  let sev_col  :=
    if String.eqb severity "HIGH" then C_RED
    else if String.eqb severity "MODERATE" then C_AMBER
    else C_GREEN in
  let n_tact   := List.length (Model.top_tactics analysis) in
  let hdr_sty  := _sty "th" C_GRAY in
  let val_sty  := _sty "tv" sev_col in
  let ov_data  :=
    [ [ Para "MANIPULATION SCORE" hdr_sty;
        Para "SEVERITY" hdr_sty;
        Para "TACTICS FOUND" hdr_sty ];
      [ Para (Num.str_1f score ++ "/100")%string val_sty;
        Para severity val_sty;
        Para (Num.str_nat (N.of_nat n_tact)) (_sty "tv2" C_ACCENT) ] ] in
  let overview := [Table ov_data; Spacer] in
  (* Tactic breakdown *)
  let breakdown :=
    [ Paragraph "Tactic Breakdown" (_sty "SH" C_DARK);
      Table (tactic_table (Model.tactic_scores analysis));
      Spacer ] in
  (* Analysed text excerpt *)
  let excerpt_part :=
    if Py.truthy text then
      let excerpt :=
        (Py.prefix 800 text ++ (if (800 <? Py.len text)%nat then "…" else EmptyString))%string in
      [ HRFlowable;
        Spacer;
        Paragraph "Analysed Content (excerpt)" (_sty "SH3" C_DARK);
        Paragraph excerpt (_sty "exc" C_GRAY) ]
    else [] in
  (* Source URL *)
  let url_part :=
    if Py.truthy url
    then [Spacer; Paragraph ("Source: " ++ url)%string (_sty "url" C_GRAY)]
    else [] in
  (* Footer *)
  let footer :=
    [ Spacer;
      HRFlowable;
      Paragraph
        "PsychoGuard AI  ·  Protecting minds from digital manipulation  ·  For research & educational use"
        (_sty "foot" C_GRAY) ] in
  header ++ overview ++ breakdown ++ explanation_flowables explanation
  ++ excerpt_part ++ url_part ++ footer.

End Report.
End ReportGen.

(* ================================================================== *)
(** * app.py *)
(* ================================================================== *)

Module App.

(** Request schema.  [Optional[str]] fields may hold [None]. *)
Record AnalyzeRequest : Type := {
  text                : string;
  url                 : option string;
  image_url           : option string;
  caption             : option string;
  include_explanation : bool;
  include_highlights  : bool
}.

(** A JSON body as it arrives: [text] may be absent; the other fields
    already carry their defaults. *)
Record Body : Type := {
  body_text                : option string;
  body_url                 : option string;
  body_image_url           : option string;
  body_caption             : option string;
  body_include_explanation : bool;
  body_include_highlights  : bool
}.

(** The validation of the body against the schema: [text] is required. *)
Definition parse (body : Body) : option AnalyzeRequest :=
  match body_text body with
  | None => None
  | Some t =>
      Some {| text                := t;
              url                 := body_url body;
              image_url           := body_image_url body;
              caption             := body_caption body;
              include_explanation := body_include_explanation body;
              include_highlights  := body_include_highlights body |}
  end.

(** Truth value of an optional string, and its value or the empty string *)
Definition truthy_opt (o : option string) : bool :=
  match o with Some s => Py.truthy s | None => false end.

Definition or_empty (o : option string) : string :=
  match o with Some s => s | None => EmptyString end.

Record AnalyzeResponse : Type := {
  analysis        : Model.Analysis;
  highlights      : list Model.Highlight;
  explanation     : LlmAnalyzer.Explanation;
  multimodal      : Multimodal.Result;
  processing_time : Q
}.

(** The four keys of the [/quick-score] payload. *)
Record QuickScore : Type := {
  qs_overall_score  : Q;
  qs_severity       : string;
  qs_severity_color : string;
  qs_top_tactics    : list string
}.

Record StreamingResponse : Type := {
  content    : list ReportGen.flowable;
  media_type : string;
  headers    : Dict.t string
}.

Section Routes.
Variable ext : Externals.

(** [time.time()] *)
Definition time_time : M Q := fun st => (Return (clock ext (trace st)), st).

Definition analyze (req : AnalyzeRequest) : M AnalyzeResponse :=
  if negb (Py.truthy (text req)) || (Py.len (Py.strip (text req)) <? 10)
  then raise (HTTPException 400 "Text must be at least 10 characters.")
  else
    start <- time_time ;;
    (* 1. Transformer classification *)
    analysis <- Model.analyze_text ext (text req) ;;
    (* 2. Sentence-level heatmap *)
    highlights <-
      (if include_highlights req
       then Model.highlight_sentences ext (text req)
       else ret []) ;;
    (* 3. LLM explanation *)
    explanation <-
      (if include_explanation req
       then LlmAnalyzer.generate_explanation ext (text req) analysis
       else ret {| LlmAnalyzer.success := false;
                   LlmAnalyzer.full_explanation := "LLM disabled";
                   LlmAnalyzer.sections := [] |}) ;;
    (* 4. Multimodal analysis *)
    multimodal <-
      (if truthy_opt (image_url req) then
         if truthy_opt (caption req)
         then Multimodal.analyze_image_caption ext
                (or_empty (image_url req)) (or_empty (caption req))
         else Multimodal.analyze_clickbait ext (or_empty (image_url req))
       else ret (Multimodal.Unavailable None)) ;;
    stop <- time_time ;;
    ret {| analysis        := analysis;
           highlights      := highlights;
           explanation     := explanation;
           multimodal      := multimodal;
           processing_time := Num.round (stop - start)%Q 2 |}.

(** Lightweight endpoint used by the browser extension. *)
Definition quick_score (req : AnalyzeRequest) : M QuickScore :=
  analysis <- Model.analyze_text ext (text req) ;;
  ret {| qs_overall_score  := Model.overall_score analysis;
         qs_severity       := Model.severity analysis;
         qs_severity_color := Model.severity_color analysis;
         qs_top_tactics    := Model.top_tactics analysis |}.

(** Generate and return a PDF analysis report. *)
Definition download_report (req : AnalyzeRequest) : M StreamingResponse :=
  if negb (Py.truthy (text req)) || (Py.len (Py.strip (text req)) <? 10)
  then raise (HTTPException 400 "Text too short.")
  else
    analysis <- Model.analyze_text ext (text req) ;;
    explanation <- LlmAnalyzer.generate_explanation ext (text req) analysis ;;
    let pdf_buf :=
      ReportGen.generate_report ext (text req) analysis explanation
        (if truthy_opt (url req) then or_empty (url req) else EmptyString) in
    ret {| content    := pdf_buf;
           media_type := "application/pdf";
           headers    :=
             [("Content-Disposition",
               ("attachment; filename=" ++ LlmAnalyzer.dquote
                ++ "psychoguard-report.pdf" ++ LlmAnalyzer.dquote)%string)] |}.

(** A response: its status code and, when there is one, its payload. *)
Record HttpResponse (A : Type) : Type := {
  status  : nat;
  payload : option A
}.

(** What the framework does around a POST handler: a body without the
    required field [text] is answered 422 before the handler runs; an
    [HTTPException] becomes a response with its status code; any other
    exception becomes a 500; a returned value is sent with status 200. *)
Definition post {A} (handler : AnalyzeRequest -> M A) (body : Body)
  : state -> HttpResponse A * state :=
  fun st =>
    match parse body with
    | None => ({| status := 422; payload := None |}, st)
    | Some req =>
        match handler req st with
        | (Return a, st') => ({| status := 200; payload := Some a |}, st')
        | (Raise (HTTPException code _), st') =>
            ({| status := code; payload := None |}, st')
        | (Raise (Error _), st') => ({| status := 500; payload := None |}, st')
        end
    end.

Definition post_analyze := post analyze.
Definition post_quick_score := post quick_score.
Definition post_report := post download_report.

End Routes.
End App.

(* ================================================================== *)
(** * The vocabulary of the specification *)
(* ================================================================== *)

Module Spec.
Local Open Scope Q_scope.

(** Valid input: at least 10 characters once trimmed. *)
Definition valid (text : string) : Prop := (10 <= Py.len (Py.strip text))%nat.

(** The chunks that are classified: at most the first 5. *)
Definition classified_chunks (text : string) : list string :=
  firstn 5 (Model._chunk_text text 400).

(** The classifier answers every classified chunk of [text], with
    [results] in order. *)
Definition classified (ext : Externals) (text : string)
    (results : list ClfResult) : Prop :=
  Forall2 (fun chunk r => classifier ext chunk Model.TACTIC_LABELS true = Return r)
          (classified_chunks text) results.

(** The score a classification gives to a label, 0 when it has none. *)
Definition score_of (r : ClfResult) (label : string) : Q :=
  Dict.get_default (Model.scores_dict r) label 0.

(** The scores of the classifier are not negative. *)
Definition nonnegative (results : list ClfResult) : Prop :=
  Forall (fun r => Forall (fun x => 0 <= x) (scores r)) results.

(** The mean of a tactic's score across the classified chunks. *)
Definition tactic_mean (results : list ClfResult) (label : string) : Q :=
  Num.mean (map (fun r => score_of r label) results).

(** min(100, 180 x mean over the 6 tactics of the per-tactic means) *)
Definition unrounded_score (results : list ClfResult) : Q :=
  Qmin 100 (180 * Num.mean (map (tactic_mean results) Model.TACTIC_LABELS)).

(** The severity tiers: [0,40) LOW, [40,70) MODERATE, [70,100] HIGH. *)
Inductive tier (x : Q) : string -> Prop :=
| tier_low      : x < 40 -> tier x "LOW"
| tier_moderate : 40 <= x -> x < 70 -> tier x "MODERATE"
| tier_high     : 70 <= x -> tier x "HIGH".

(** The place of a label in the fixed label set. *)
Fixpoint position_in (l : list string) (label : string) : nat :=
  match l with
  | [] => 0%nat
  | x :: l' => if String.eqb label x then 0%nat else S (position_in l' label)
  end.

Definition position : string -> nat := position_in Model.TACTIC_LABELS.

(** [x] comes before [y]: a greater key, or the same key and an earlier
    place. *)
Definition before {A} (key : A -> Q) (place : A -> nat) (x y : A) : Prop :=
  key y < key x \/ (key x == key y /\ (place x < place y)%nat).

(** [t] ranks before [u]: a higher mean, or the same mean and an earlier
    place in the label set. *)
Definition ranks_before (results : list ClfResult) (t u : string) : Prop :=
  before (tactic_mean results) position t u.

(** A status code of the 4xx class. *)
Definition client_error (status : nat) : Prop := (400 <= status < 500)%nat.

(** The top score of a single-label classification and its label, when
    there is one. *)
Definition top_of (o : outcome ClfResult) : option (Q * string) :=
  match o with
  | Return r =>
      match scores r, labels r with
      | top_score :: _, top_label :: _ => Some (top_score, top_label)
      | _, _ => None
      end
  | Raise _ => None
  end.

(** What a highlight must be for its sentence: nothing for a sentence of
    fewer than 4 words or one whose classification fails; else the top
    score times 1.8, clamped to 1.0 and rounded to [digits] decimals, with
    the label when the top score exceeds 0.3. *)
Definition highlight_for (ext : Externals) (digits : nat) (h : Model.Highlight)
  : Prop :=
  let sent := Model.text h in
  if (List.length (Py.split sent) <? 4)%nat
  then Model.score h = 0 /\ Model.tactic h = None
  else
    match top_of (classifier ext sent Model.TACTIC_LABELS false) with
    | Some (top_score, top_label) =>
        Model.score h == Num.round (Qmin 1 (top_score * (18 # 10))) digits
        /\ (3 # 10 < top_score -> Model.tactic h = Some top_label)
        /\ (top_score <= 3 # 10 -> Model.tactic h = None)
    | None => Model.score h = 0 /\ Model.tactic h = None
    end.

(** The explanation without a credential, and the one after a failed
    call of the LLM. *)
Definition guidance : LlmAnalyzer.Explanation :=
  {| LlmAnalyzer.success := false;
     LlmAnalyzer.full_explanation :=
       "Set ANTHROPIC_API_KEY environment variable to enable LLM analysis.";
     LlmAnalyzer.sections := [] |}.

Definition llm_error (exc : exn) : LlmAnalyzer.Explanation :=
  {| LlmAnalyzer.success := false;
     LlmAnalyzer.full_explanation := ("LLM error: " ++ str_exn exc)%string;
     LlmAnalyzer.sections := [] |}.

(** The [/quick-score] payload of the canonical zero result. *)
Definition zero_score : App.QuickScore :=
  {| App.qs_overall_score  := 0;
     App.qs_severity       := "LOW";
     App.qs_severity_color := "#22c55e";
     App.qs_top_tactics    := [] |}.

(** The text of a body is missing or too short. *)
Definition short_or_missing (body : App.Body) : Prop :=
  match App.body_text body with
  | None => True
  | Some t => t = EmptyString \/ (Py.len (Py.strip t) < 10)%nat
  end.

(** A line that is no heading, and the body lines among some lines: the
    trimmed ones that are not empty. *)
Definition plain (line : string) : Prop :=
  LlmAnalyzer.match_heading (Py.strip line) = None.

Definition body_of (lines : list string) : list string :=
  filter Py.truthy (map Py.strip lines).

End Spec.

(* ================================================================== *)
(** * Notions used in the proofs *)
(* ================================================================== *)

Module Aux.
Import Py.

(** A word: a non-empty run without white space. *)
Definition word (w : chars) : Prop :=
  w <> [] /\ Forall (fun c => isspace c = false) w.

(** No white space in front. *)
Definition no_lead (s : chars) : Prop :=
  match s with c :: _ => isspace c = false | [] => True end.

(** No white space at either end. *)
Definition clean (s : chars) : Prop := no_lead s /\ no_lead (rev s).

(** The list comprehension of [_chunk_text], before the filter. *)
Definition raw_chunks (text : string) (size : nat) : list string :=
  map (fun i => join " " (slice (split text) i (i + size)))
      (range0 (List.length (split text)) size).

End Aux.

(* ================================================================== *)
(** * A sample environment *)
(* ================================================================== *)

Module Sample.

Definition request_text : string :=
  "Act now before it's too late! Everyone is buying this, don't be left behind!".

(** A classifier that gives every sequence the scores [l], in the order
    of the label set; no LLM key; an image host that is down. *)
Definition result (l : list Q) : ClfResult :=
  {| labels := Model.TACTIC_LABELS; scores := l |}.

Definition ext (l : list Q) : Externals :=
  {| classifier        := fun _ _ _ => Return (result l);
     ANTHROPIC_API_KEY := EmptyString;
     messages_create   := fun _ => Raise (Error "Connection error.");
     http_get_image    := fun _ => Raise (Error "404 Client Error");
     clip_loads        := true;
     clip_probs        := fun _ _ => Return [(7 # 10)%Q; (3 # 10)%Q];
     clock             := fun tr => inject_Z (Z.of_nat (List.length tr));
     now_strftime      := "November 04, 2026 at 10:00" |}.

(** The same with a key, so that the LLM is called (and fails). *)
Definition ext_with_key (l : list Q) : Externals :=
  {| classifier        := classifier (ext l);
     ANTHROPIC_API_KEY := "sk-test";
     messages_create   := messages_create (ext l);
     http_get_image    := http_get_image (ext l);
     clip_loads        := true;
     clip_probs        := clip_probs (ext l);
     clock             := clock (ext l);
     now_strftime      := now_strftime (ext l) |}.

Definition scores1 : list Q :=
  [(9 # 10); (8 # 10); (1 # 10); (3 # 10); (3 # 10); (2 # 10)]%Q.

(** Six scores of 0.222: the unrounded score is 39.96. *)
Definition scores_just_below_40 : list Q :=
  [(222 # 1000); (222 # 1000); (222 # 1000);
   (222 # 1000); (222 # 1000); (222 # 1000)]%Q.

(** A top score of 0.3333: 1.8 times it is 0.59994. *)
Definition scores_third : list Q :=
  [(3333 # 10000); (2 # 10); (2 # 10); (1 # 10); (1 # 10); (667 # 10000)]%Q.

Definition st0 : state := {| _client := None; trace := [] |}.

(** What [analyze_text] returns for [request_text] with the scores [l]. *)
Definition analysis (l : list Q) : Model.Analysis :=
  Model.result_of request_text (Model._chunk_text request_text 400)
    (map Model.scores_dict [result l]).

(** A body with the text [t] and the defaults of the schema. *)
Definition body (t : option string) : App.Body :=
  {| App.body_text                := t;
     App.body_url                 := Some EmptyString;
     App.body_image_url           := Some EmptyString;
     App.body_caption             := Some EmptyString;
     App.body_include_explanation := true;
     App.body_include_highlights  := true |}.

(** A reply with two headings, in mixed case, after a line of preamble. *)
Definition reply : string :=
  Py.join LlmAnalyzer.nl
    [ "Here is my analysis.";
      "Summary:";
      "The text pushes the reader";
      "   to act at once.  ";
      EmptyString;
      "key tactics";
      "Fear and urgency." ].

End Sample.

(* ================================================================== *)
(** * Further notions and sample environments *)
(* ================================================================== *)

Module Views.
Local Open Scope Q_scope.

(** The classifier calls of [analyze_text] for some chunks, in order. *)
Definition chunk_calls (chunks : list string) : list call :=
  map (fun c => Classify c true) chunks.

(** The contract of the zero-shot pipeline: every score lies in [0, 1]. *)
Definition unit_scores (ext : Externals) : Prop :=
  forall sequence candidate_labels multi_label r,
    classifier ext sequence candidate_labels multi_label = Return r ->
    Forall (fun x => 0 <= x <= 1) (scores r).

(** The sample environment with a classifier that is down. *)
Definition ext_classifier_down : Externals :=
  {| classifier        := fun _ _ _ => Raise (Error "CUDA out of memory");
     ANTHROPIC_API_KEY := EmptyString;
     messages_create   := messages_create (Sample.ext Sample.scores1);
     http_get_image    := http_get_image (Sample.ext Sample.scores1);
     clip_loads        := true;
     clip_probs        := clip_probs (Sample.ext Sample.scores1);
     clock             := clock (Sample.ext Sample.scores1);
     now_strftime      := now_strftime (Sample.ext Sample.scores1) |}.

(** Nine words, for chunks of two words each. *)
Definition nine_words : string := "a b c  d e f g	h i".


(** A text of 801 words, for three chunks. *)
Definition words_801 : string := Py.join " " (repeat "spam"%string 801).

(** The classifier call of [highlight_sentences] for one sentence, if
    any, and its calls for a text. *)
Definition sentence_calls (sent : string) : list call :=
  if (List.length (Py.split sent) <? 4)%nat then [] else [Classify sent false].

Definition highlight_calls (text : string) : list call :=
  flat_map sentence_calls (firstn 20 (Model.split_sentences (Py.strip text))).

(** The characters of a string that are not white space. *)
Definition nonspace_chars (s : Py.chars) : Py.chars :=
  filter (fun c => negb (Py.isspace c)) s.

Definition nonspace (s : string) : Py.chars := nonspace_chars (Py.to_chars s).

(** The last character is one of [.], [!], [?]. *)
Definition ends_chars (s : Py.chars) : Prop :=
  match rev s with
  | c :: _ => Model.is_sentence_end c = true
  | [] => False
  end.

Definition ends_sentence (s : string) : Prop := ends_chars (Py.to_chars s).

(** What [highlight_sentences] guarantees of a highlight. *)
Definition highlight_sound (h : Model.Highlight) : Prop :=
  0 <= Model.score h <= 1
  /\ forall t, Model.tactic h = Some t ->
       (4 <= List.length (Py.split (Model.text h)))%nat
       /\ 54 # 100 <= Model.score h.


(** A section of a reply: the line recognised as a heading, the heading
    it is recognised as, and the lines up to the next heading. *)
Record block : Type := {
  heading_line : string;
  block_key    : string;
  block_body   : list string
}.

Definition block_lines (b : block) : list string :=
  heading_line b :: block_body b.

Definition block_ok (b : block) : Prop :=
  LlmAnalyzer.match_heading (Py.strip (heading_line b)) = Some (block_key b)
  /\ Forall Spec.plain (block_body b).

(** The entry a section leaves in the result. *)
Definition block_entry (b : block) : string * string :=
  (block_key b, Py.join " " (Spec.body_of (block_body b))).

(** A reply in three sections, the first heading occurring twice. *)
Definition reply_blocks : list block :=
  [ {| heading_line := "SUMMARY"; block_key := "SUMMARY";
       block_body := ["first draft"%string] |};
    {| heading_line := "  Verdict: "; block_key := "VERDICT";
       block_body := [EmptyString; "  manipulative  "; "and urgent"]%string |};
    {| heading_line := "summary (revised)"; block_key := "SUMMARY";
       block_body := ["second draft"%string] |} ].

Definition reply_of_blocks : string :=
  Py.join LlmAnalyzer.nl
    ("Dear reader,"%string :: List.concat (map block_lines reply_blocks)).

(** An environment with a key whose LLM endpoint answers [content]. *)
Definition ext_llm (content : list string) : Externals :=
  {| classifier        := classifier (Sample.ext Sample.scores1);
     ANTHROPIC_API_KEY := "sk-test";
     messages_create   := fun _ => Return content;
     http_get_image    := http_get_image (Sample.ext Sample.scores1);
     clip_loads        := true;
     clip_probs        := clip_probs (Sample.ext Sample.scores1);
     clock             := clock (Sample.ext Sample.scores1);
     now_strftime      := now_strftime (Sample.ext Sample.scores1) |}.

(** The state after one call with the prompt [prompt] by the client
    [key]. *)
Definition after_llm (st : state) (key prompt : string) : state :=
  {| _client := Some key; trace := trace st ++ [MessagesCreate prompt] |}.

(** The client that [_get_client] returns in the state [st], if any. *)
Definition client_of (ext : Externals) (st : state) : option string :=
  match _client st with
  | Some c => Some c
  | None => if Py.truthy (ANTHROPIC_API_KEY ext)
            then Some (ANTHROPIC_API_KEY ext) else None
  end.


(** The invariant of the loop of [_parse_sections]: the keys are distinct
    headings, and so is the current heading. *)
Definition good_keys (ks : list string) : Prop :=
  NoDup ks /\ incl ks LlmAnalyzer.headings.

Definition good_parser (p : LlmAnalyzer.parser) : Prop :=
  good_keys (Dict.keys (LlmAnalyzer.p_sections p))
  /\ forall h, LlmAnalyzer.p_current p = Some h -> In h LlmAnalyzer.headings.


(** An environment whose image host and vision model answer: the
    probabilities [two] for two texts, [four] otherwise. *)
Definition ext_vision (two four : list Q) : Externals :=
  {| classifier        := classifier (Sample.ext Sample.scores1);
     ANTHROPIC_API_KEY := EmptyString;
     messages_create   := messages_create (Sample.ext Sample.scores1);
     http_get_image    := fun _ => Return "PNG"%string;
     clip_loads        := true;
     clip_probs        := fun texts _ =>
                            Return (if (List.length texts =? 2)%nat
                                    then two else four);
     clock             := clock (Sample.ext Sample.scores1);
     now_strftime      := now_strftime (Sample.ext Sample.scores1) |}.

(** The two texts compared with the image in caption mode. *)
Definition caption_texts (caption : string) : list string :=
  [caption; ("image completely unrelated to: " ++ caption)%string].

(** What a verdict says of the mismatch score. *)
Definition verdict_of (mismatch : Q) (verdict : string) : Prop :=
  (verdict = "HIGH MISMATCH"%string /\ 60 < mismatch)
  \/ (verdict = "MODERATE"%string /\ 35 < mismatch <= 60)
  \/ (verdict = "ALIGNED"%string /\ mismatch <= 35).


(** The report without its explanation part. *)
Definition frame (ext : Externals) (text : string) (analysis : Model.Analysis)
    (url : string) : list ReportGen.flowable :=
  ReportGen.generate_report ext text analysis Spec.guidance url.

(** The styles of the explanation part and of the excerpt and source
    lines. *)
Definition heading_sty : ReportGen.ParagraphStyle :=
  ReportGen._sty "SH2" ReportGen.C_DARK.
Definition body_sty : ReportGen.ParagraphStyle :=
  ReportGen._sty "body" "#374151".
Definition section_sty (heading : string) : ReportGen.ParagraphStyle :=
  ReportGen._sty ("sec_" ++ heading)%string ReportGen.C_ACCENT.
Definition excerpt_sty : ReportGen.ParagraphStyle :=
  ReportGen._sty "exc" ReportGen.C_GRAY.
Definition url_sty : ReportGen.ParagraphStyle :=
  ReportGen._sty "url" ReportGen.C_GRAY.

(** The two rows of the overview table for an analysis. *)
Definition overview_rows (analysis : Model.Analysis) : list (list ReportGen.cell) :=
  [ [ ReportGen.Para "MANIPULATION SCORE" (ReportGen._sty "th" ReportGen.C_GRAY);
      ReportGen.Para "SEVERITY" (ReportGen._sty "th" ReportGen.C_GRAY);
      ReportGen.Para "TACTICS FOUND" (ReportGen._sty "th" ReportGen.C_GRAY) ];
    [ ReportGen.Para (Num.str_1f (Model.overall_score analysis) ++ "/100")%string
        (ReportGen._sty "tv" (Model.severity_color analysis));
      ReportGen.Para (Model.severity analysis)
        (ReportGen._sty "tv" (Model.severity_color analysis));
      ReportGen.Para
        (Num.str_nat (N.of_nat (List.length (Model.top_tactics analysis))))
        (ReportGen._sty "tv2" ReportGen.C_ACCENT) ] ].

(** A successful explanation with two sections, one of them empty. *)
Definition explained : LlmAnalyzer.Explanation :=
  {| LlmAnalyzer.success := true;
     LlmAnalyzer.full_explanation := "SUMMARY ...";
     LlmAnalyzer.sections :=
       [("SUMMARY", "Pressure to act at once."); ("VERDICT", EmptyString)]%string |}.


(** The explanation that [/analyze] uses when none is asked for. *)
Definition disabled : LlmAnalyzer.Explanation :=
  {| LlmAnalyzer.success := false;
     LlmAnalyzer.full_explanation := "LLM disabled";
     LlmAnalyzer.sections := [] |}.

(** The request that the validation makes of a body with the text [t]. *)
Definition request_of (body : App.Body) (t : string) : App.AnalyzeRequest :=
  {| App.text                := t;
     App.url                 := App.body_url body;
     App.image_url           := App.body_image_url body;
     App.caption             := App.body_caption body;
     App.include_explanation := App.body_include_explanation body;
     App.include_highlights  := App.body_include_highlights body |}.

(** A body that asks for the analysis alone. *)
Definition body_alone (t : string) : App.Body :=
  {| App.body_text                := Some t;
     App.body_url                 := None;
     App.body_image_url           := None;
     App.body_caption             := None;
     App.body_include_explanation := false;
     App.body_include_highlights  := false |}.

(** [req.url or ""] *)
Definition url_or_empty (body : App.Body) : string :=
  if App.truthy_opt (App.body_url body)
  then App.or_empty (App.body_url body) else EmptyString.

(** The analysis of the text [t] when the classifier gives [results]. *)
Definition analysis_of (t : string) (results : list ClfResult) : Model.Analysis :=
  Model.result_of t (Model._chunk_text t 400) (map Model.scores_dict results).

(** The response of [/report] with the document [story]. *)
Definition pdf_response (story : list ReportGen.flowable) : App.StreamingResponse :=
  {| App.content    := story;
     App.media_type := "application/pdf";
     App.headers    :=
       [("Content-Disposition",
         ("attachment; filename=" ++ LlmAnalyzer.dquote
          ++ "psychoguard-report.pdf" ++ LlmAnalyzer.dquote)%string)] |}.


(** A text that holds no markup for ReportLab: none of the characters
    [<], [>] and [&]. *)
Definition plain_text (s : string) : bool :=
  forallb (fun c => negb (Ascii.eqb c "<"%char || Ascii.eqb c ">"%char
                          || Ascii.eqb c "&"%char))
          (Py.to_chars s).
End Views.

(* ================================================================== *)
(** * Numbers: Python floats as binary64 *)
(* ================================================================== *)

(** A Python [float] is an IEEE binary64 number, and every operation on
    it rounds to the nearest such number, ties to the even mantissa.
    [PrimFloat.add], [mul], [div] and the comparisons are those
    operations.  This module adds what Python and NumPy build on them. *)
Module B64.
Import Floats.

(** [float(z)] for an integer [z] *)
Definition of_Z (z : Z) : float :=
  SF2Prim (binary_normalize prec emax z 0 false).

(** The place of a number on the line: the value of a finite float
    times 2^1074, which is an integer; the infinities lie beyond every
    finite float.  (Not a number has no place; it is given 0.) *)
Definition SFord (f : spec_float) : Z :=
  match f with
  | S754_zero _ => 0
  | S754_finite s m e =>
      let v := (Z.pos m * 2 ^ (e + 1074))%Z in if s then (- v)%Z else v
  | S754_infinity s => if s then (- 2 ^ 2098)%Z else (2 ^ 2098)%Z
  | S754_nan => 0
  end%Z.

Definition ord (x : float) : Z := SFord (Prim2SF x).

(** The value of a finite float. *)
Definition to_Q (x : float) : Q := Qmake (ord x) (2 ^ 1074).

(** The float nearest to [k / d], with the sign [s]. *)
Definition nearest (s : bool) (k d : positive) : float :=
  SF2Prim (SFdiv prec emax (S754_finite s k 0) (S754_finite false d 0)).

(** [round(x, ndigits)] for [ndigits >= 0]: the value of [x] is rounded
    to [ndigits] decimals, ties to the even digit, and the result is the
    float nearest to that decimal.  Zeros, infinities and not-a-number
    are returned as they are. *)
Definition round (x : float) (ndigits : nat) : float :=
  match Prim2SF x with
  | S754_finite s _ _ =>
      match Num.round_half_even (Qabs (to_Q x) * Num.pow10 ndigits)%Q with
      | Zpos k => nearest s k (Z.to_pos (10 ^ Z.of_nat ndigits))
      | _ => SF2Prim (S754_zero s)
      end
  | _ => x
  end.

(** The sum of fewer than 8 items as NumPy takes it: from 0.0, in order. *)
Definition sum (l : list float) : float := fold_left PrimFloat.add l 0%float.

(** [np.mean(l)] for a list of fewer than 8 floats; not a number on the
    empty list. *)
Definition mean (l : list float) : float :=
  (sum l / of_Z (Z.of_nat (List.length l)))%float.

(** [a > b], [a >= b] *)
Definition gtb (a b : float) : bool := (b <? a)%float.
Definition geb (a b : float) : bool := (b <=? a)%float.

(** [min(a, b)]: [b] when [b < a], else [a]. *)
Definition min (a b : float) : float := if (b <? a)%float then b else a.

(** Zero or above it, as a specification float. *)
Definition SFnonneg (f : spec_float) : Prop :=
  match f with
  | S754_zero _ | S754_finite false _ _ | S754_infinity false => True
  | _ => False
  end.

End B64.

(* ================================================================== *)
(** * model.py in binary64 arithmetic *)
(* ================================================================== *)

(** The numeric results of [analyze_text] and [highlight_sentences] as
    the interpreter computes them.  The text handling is that of [Model];
    the classifier returns binary64 scores. *)
Module Model64.
Import PrimFloat.

(** Result of the zero-shot pipeline: the labels and their scores. *)
Record ClfResult : Type := { labels : list string; scores : list float }.

(** [self.classifier(sequence, candidate_labels=..., multi_label=...)] *)
Definition Classifier : Type := string -> list string -> bool -> outcome ClfResult.

(** The dict [analyze_text] returns. *)
Record Analysis : Type := {
  overall_score       : float;
  severity            : string;
  severity_color      : string;
  tactic_scores       : Dict.t float;
  tactic_colors       : Dict.t string;
  top_tactics         : list string;
  tactic_descriptions : Dict.t string;
  chunks_analyzed     : nat;
  word_count          : nat
}.

(** An item of the list [highlight_sentences] returns. *)
Record Highlight : Type := {
  text   : string;
  score  : float;
  tactic : option string
}.

(** [sorted(l, key=key, reverse=True)] for keys that are numbers:
    descending keys, and items with equal keys in the order they had in
    [l].  [insert_desc x l] puts [x], which stood before all of [l], in
    front of the first item whose key is not greater than its own. *)
Section Sorted.
Variable A : Type.
Variable key : A -> float.

Fixpoint insert_desc (x : A) (l : list A) : list A :=
  match l with
  | [] => [x]
  | y :: l' => if B64.gtb (key y) (key x) then y :: insert_desc x l' else x :: l
  end.

Definition sorted_desc (l : list A) : list A := fold_right insert_desc [] l.
End Sorted.

Definition _empty_result : Analysis :=
  {| overall_score       := 0%float;
     severity            := "LOW";
     severity_color      := "#22c55e";
     tactic_scores       :=
       Dict.of_pairs (map (fun k => (k, 0%float)) Model.TACTIC_LABELS);
     tactic_colors       := Model.TACTIC_COLORS;
     top_tactics         := [];
     tactic_descriptions := Model.TACTIC_DESCRIPTIONS;
     chunks_analyzed     := 0;
     word_count          := 0 |}.

(** [tactic_scores]: the mean of each label over the classified chunks *)
Definition tactic_means (all_scores : list (Dict.t float)) : Dict.t float :=
  Dict.of_pairs
    (map (fun label =>
            (label,
             B64.mean (map (fun s => Dict.get_default s label 0%float) all_scores)))
         Model.TACTIC_LABELS).

Definition raw (all_scores : list (Dict.t float)) : float :=
  B64.mean (Dict.values (tactic_means all_scores)).

(** Scale 0-100 with sensitivity boost *)
Definition overall (all_scores : list (Dict.t float)) : float :=
  B64.min 100%float (raw all_scores * 180)%float.

Definition sorted_tactics (all_scores : list (Dict.t float))
  : list (string * float) :=
  sorted_desc snd (Dict.items (tactic_means all_scores)).

(** [top_tactics], before it is cut to three *)
Definition top_tactics_all (all_scores : list (Dict.t float)) : list string :=
  map fst (filter (fun ts => B64.gtb (snd ts) 0.25%float)
                  (sorted_tactics all_scores)).

(** [severity, sev_color] *)
Definition severity_of (overall : float) : string * string :=
  if B64.geb overall 70%float then ("HIGH", "#ef4444")
  else if B64.geb overall 40%float then ("MODERATE", "#f59e0b")
  else ("LOW", "#22c55e").

(** The dict returned at the end. *)
Definition result_of (text : string) (chunks : list string)
    (all_scores : list (Dict.t float)) : Analysis :=
  {| overall_score       := B64.round (overall all_scores) 1;
     severity            := fst (severity_of (overall all_scores));
     severity_color      := snd (severity_of (overall all_scores));
     tactic_scores       :=
       Dict.of_pairs
         (map (fun kv => (fst kv, B64.round (snd kv * 100)%float 1))
              (Dict.items (tactic_means all_scores)));
     tactic_colors       := Model.TACTIC_COLORS;
     top_tactics         := firstn 3 (top_tactics_all all_scores);
     tactic_descriptions := Model.TACTIC_DESCRIPTIONS;
     chunks_analyzed     := List.length (firstn 5 chunks);
     word_count          := List.length (Py.split text) |}.

(** [dict(zip(result["labels"], result["scores"]))] *)
Definition scores_dict (result : ClfResult) : Dict.t float :=
  Dict.of_pairs (combine (labels result) (scores result)).

Section Detector.
Variable classifier : Classifier.

Definition classify (sequence : string) (multi_label : bool) : M ClfResult :=
  external (Classify sequence multi_label)
           (classifier sequence Model.TACTIC_LABELS multi_label).

Definition analyze_text (text : string) : M Analysis :=
  if negb (Py.truthy text) || (Py.len (Py.strip text) <? 10)%nat
  then ret _empty_result
  else
    let chunks := Model._chunk_text text 400 in
    all_scores <-
      for_each (firstn 5 chunks) (fun chunk =>    (* cap at 5 chunks *)
        result <- classify chunk true ;;
        ret (scores_dict result)) ;;
    ret (result_of text chunks all_scores).

(** The body of the loop of [highlight_sentences], for the sentence
    [sent]. *)
#[warnings="-inexact-float"]
Definition highlight_item (sent : string) : M Highlight :=
  if (List.length (Py.split sent) <? 4)%nat
  then ret {| text := sent; score := 0%float; tactic := None |}
  else
    try_except
      (res <- classify sent false ;;
       top_score <- index (scores res) 0 ;;
       top_label <- index (labels res) 0 ;;
       let scaled := B64.min 1%float (top_score * 1.8)%float in
       ret {| text   := sent;
              score  := B64.round scaled 3;
              tactic := if B64.gtb top_score 0.3%float
                        then Some top_label else None |})
      (fun _ => ret {| text := sent; score := 0%float; tactic := None |}).

Definition highlight_sentences (text : string) : M (list Highlight) :=
  let sentences := Model.split_sentences (Py.strip text) in
  for_each (firstn 20 sentences) highlight_item.

End Detector.
End Model64.

(* ================================================================== *)
(** * The vocabulary of the specification, in binary64 *)
(* ================================================================== *)

Module Spec64.
Import PrimFloat.

(** The classifier answers every classified chunk of [text], with
    [results] in order. *)
Definition classified (classifier : Model64.Classifier) (text : string)
    (results : list Model64.ClfResult) : Prop :=
  Forall2 (fun chunk r => classifier chunk Model.TACTIC_LABELS true = Return r)
          (Spec.classified_chunks text) results.

(** The score that a classification gives a label: the score that stands
    at the place of the label among the labels (the last such place,
    should the label be repeated), and 0 when the label is not there. *)
Definition score_of (r : Model64.ClfResult) (label : string) : float :=
  fold_left (fun found ls => if String.eqb label (fst ls) then snd ls else found)
            (combine (Model64.labels r) (Model64.scores r)) 0%float.

(** The scores of the classifier are not negative. *)
Definition nonnegative (results : list Model64.ClfResult) : Prop :=
  Forall (fun r => Forall (fun x => (0 <=? x)%float = true) (Model64.scores r))
         results.

(** The mean of a tactic's score across the classified chunks. *)
Definition tactic_mean (results : list Model64.ClfResult) (label : string)
  : float :=
  B64.mean (map (fun r => score_of r label) results).

(** min(100, 180 x mean over the 6 tactics of the per-tactic means) *)
Definition unrounded_score (results : list Model64.ClfResult) : float :=
  B64.min 100%float
    (B64.mean (map (tactic_mean results) Model.TACTIC_LABELS) * 180)%float.

(** The severity tiers: [0,40) LOW, [40,70) MODERATE, [70,100] HIGH. *)
Inductive tier (x : float) : string -> Prop :=
| tier_low      : (x <? 40)%float = true -> tier x "LOW"
| tier_moderate : (40 <=? x)%float = true -> (x <? 70)%float = true ->
                  tier x "MODERATE"
| tier_high     : (70 <=? x)%float = true -> tier x "HIGH".

(** [x] comes before [y]: a greater key, or the same key and an earlier
    place. *)
Definition before {A} (key : A -> float) (place : A -> nat) (x y : A) : Prop :=
  (key y <? key x)%float = true
  \/ ((key x =? key y)%float = true /\ (place x < place y)%nat).

(** [t] ranks before [u]: a higher mean, or the same mean and an earlier
    place in the label set. *)
Definition ranks_before (results : list Model64.ClfResult) (t u : string)
  : Prop :=
  before (tactic_mean results) Spec.position t u.

(** The top score of a single-label classification and its label, when
    there is one. *)
Definition top_of (o : outcome Model64.ClfResult) : option (float * string) :=
  match o with
  | Return r =>
      match Model64.scores r, Model64.labels r with
      | top_score :: _, top_label :: _ => Some (top_score, top_label)
      | _, _ => None
      end
  | Raise _ => None
  end.

(** What a highlight must be for its sentence: nothing for a sentence of
    fewer than 4 words or one whose classification fails; else the top
    score times 1.8, clamped to 1.0 and rounded to [digits] decimals, with
    the label when the top score exceeds 0.3. *)
#[warnings="-inexact-float"]
Definition highlight_for (classifier : Model64.Classifier) (digits : nat)
    (h : Model64.Highlight) : Prop :=
  let sent := Model64.text h in
  if (List.length (Py.split sent) <? 4)%nat
  then Model64.score h = 0%float /\ Model64.tactic h = None
  else
    match top_of (classifier sent Model.TACTIC_LABELS false) with
    | Some (top_score, top_label) =>
        Model64.score h = B64.round (B64.min 1%float (top_score * 1.8)%float) digits
        /\ ((0.3 <? top_score)%float = true -> Model64.tactic h = Some top_label)
        /\ ((0.3 <? top_score)%float = false -> Model64.tactic h = None)
    | None => Model64.score h = 0%float /\ Model64.tactic h = None
    end.

End Spec64.

(* ================================================================== *)
(** * A sample classifier with binary64 scores *)
(* ================================================================== *)

Module Sample64.
Import PrimFloat.

(** A classifier that gives every sequence the scores [l], in the order
    of the label set. *)
Definition result (l : list float) : Model64.ClfResult :=
  {| Model64.labels := Model.TACTIC_LABELS; Model64.scores := l |}.

Definition classifier (l : list float) : Model64.Classifier :=
  fun _ _ _ => Return (result l).

(** A classifier that is down. *)
Definition classifier_down : Model64.Classifier :=
  fun _ _ _ => Raise (Error "CUDA out of memory").

(** Six single-precision scores: 0.9, 0.8, 0.1, 0.3, 0.3 and 0.2 as the
    pipeline returns them. *)
Definition scores1 : list float :=
  [ 0.89999997615814208984375; 0.800000011920928955078125;
    0.100000001490116119384765625; 0.300000011920928955078125;
    0.300000011920928955078125; 0.20000000298023223876953125 ]%float.

(** Six scores of 0.222 in single precision. *)
Definition scores_just_below_40 : list float :=
  repeat 0.2220000028610229492187500%float 6.

(** Six scores of 0.2222222222222222: 180 times their mean is 40.0. *)
#[warnings="-inexact-float"]
Definition scores_two_ninths : list float :=
  repeat 0.2222222222222222%float 6.

(** A top score of 0.3333 in single precision. *)
Definition scores_third : list float :=
  [ 0.3332999944686889648437500; 0.20000000298023223876953125;
    0.20000000298023223876953125; 0.100000001490116119384765625;
    0.100000001490116119384765625; 0.066699996590614318847656250 ]%float.

(** A top score of 0.4375. *)
Definition scores_7_16 : list float :=
  [ 0.4375; 0.1875; 0.125; 0.125; 0.0625; 0.0625 ]%float.

(** Three chunks in which the first two tactics have the scores 0.9,
    0.1, 0.2 and 0.1, 0.2, 0.9, and the others 0. *)
#[warnings="-inexact-float"]
Definition three_chunks : list Model64.ClfResult :=
  [ result [0.9; 0.1; 0; 0; 0; 0]%float;
    result [0.1; 0.2; 0; 0; 0; 0]%float;
    result [0.2; 0.9; 0; 0; 0; 0]%float ].

(** What [analyze_text] returns for [Sample.request_text] with the
    scores [l]. *)
Definition analysis (l : list float) : Model64.Analysis :=
  Model64.result_of Sample.request_text
    (Model._chunk_text Sample.request_text 400)
    (map Model64.scores_dict [result l]).

End Sample64.

(* ================================================================== *)
(** * Properties *)
(* ================================================================== *)

Unset Implicit Arguments.

(** ** The primitives on small inputs *)

Example split_ex :
  Py.split "  Act now,  before	it is too late! " =
  ["Act"; "now,"; "before"; "it"; "is"; "too"; "late!"]%string.
Proof. reflexivity. Qed.

Example strip_ex : Py.strip "  a b  " = "a b"%string.
Proof. reflexivity. Qed.

Example join_ex : Py.join " " ["a"; "b"; "c"]%string = "a b c"%string.
Proof. reflexivity. Qed.

Example range0_ex : Py.range0 1000 400 = [0; 400; 800].
Proof. reflexivity. Qed.

Example upper_ex : Py.upper "Key Tactics: x" = "KEY TACTICS: X"%string.
Proof. reflexivity. Qed.

Example splitlines_ex :
  Py.splitlines (Py.join LlmAnalyzer.nl ["a"; EmptyString; "b"; EmptyString]%string)
  = ["a"; EmptyString; "b"]%string.
Proof. reflexivity. Qed.

Example split_sentences_ex :
  Model.split_sentences "Hi.  There you are?No! yes."
  = ["Hi."; "There you are?No!"; "yes."]%string.
Proof. reflexivity. Qed.

Example chunk_text_ex :
  Model._chunk_text " a b  c d e " 2 = ["a b"; "c d"; "e"]%string.
Proof. reflexivity. Qed.

Example round_ex :
  (Num.round (3996 # 100) 1 == 40)%Q /\ (Num.round (25 # 1000) 2 == 2 # 100)%Q
  /\ (Num.round (35 # 1000) 2 == 4 # 100)%Q /\ Num.str_1f (725 # 10) = "72.5"%string.
Proof. repeat split. Qed.

Example sorted_ex :
  Model.sorted_desc snd
    [("a", 1 # 2); ("b", 3 # 4); ("c", 2 # 4); ("d", 3 # 4)]%string%Q
  = [("b", 3 # 4); ("d", 3 # 4); ("a", 1 # 2); ("c", 2 # 4)]%string%Q.
Proof. reflexivity. Qed.

(** ** Strings *)

Module PyFacts.
Import Py Aux.

Lemma to_of_chars (l : chars) : to_chars (of_chars l) = l.
Proof. apply list_ascii_of_string_of_list_ascii. Qed.

Lemma of_to_chars (s : string) : of_chars (to_chars s) = s.
Proof. apply string_of_list_ascii_of_string. Qed.

Lemma map_to_of_chars (l : list chars) : map to_chars (map of_chars l) = l.
Proof.
  rewrite map_map. rewrite <- (map_id l) at 2.
  apply map_ext. intro; apply to_of_chars.
Qed.

Lemma of_chars_nil_iff (l : chars) : of_chars l = EmptyString <-> l = [].
Proof.
  split; intro H.
  - destruct l; [reflexivity | discriminate].
  - subst; reflexivity.
Qed.

Lemma truthy_of_chars (l : chars) : truthy (of_chars l) = true <-> l <> [].
Proof.
  destruct l; simpl; split; intro H; try congruence; discriminate.
Qed.

Lemma split_chars_cons_nonspace c s :
  isspace c = false -> split_chars (c :: s) <> [].
Proof.
  intro Hc. simpl. rewrite Hc.
  destruct s as [|d s']; [discriminate|].
  destruct (isspace d); [discriminate|].
  destruct (split_chars (d :: s')); discriminate.
Qed.

(** Every item of [s.split()] is a word. *)
Lemma split_chars_words s : Forall word (split_chars s).
Proof.
  induction s as [|c s IH]; [constructor|].
  simpl. destruct (isspace c) eqn:Hc; [exact IH|].
  destruct s as [|d s'].
  - repeat constructor; [discriminate | exact Hc].
  - destruct (isspace d) eqn:Hd.
    + constructor; [|exact IH].
      split; [discriminate | repeat constructor; exact Hc].
    + destruct (split_chars (d :: s')) as [|w ws] eqn:Hw.
      * repeat constructor; [discriminate | exact Hc].
      * inversion IH as [|? ? [Hne Hall] Hrest]; subst.
        constructor; [|exact Hrest].
        split; [discriminate | constructor; assumption].
Qed.

(** A word followed by nothing or by white space is the first item. *)
Lemma split_chars_word_app w rest :
  word w ->
  (rest = [] \/ exists c r, rest = c :: r /\ isspace c = true) ->
  split_chars (w ++ rest) = w :: split_chars rest.
Proof.
  intros [Hne Hall] Hrest.
  induction w as [|c w IH]; [congruence|].
  inversion Hall as [|? ? Hc Hw]; subst.
  destruct w as [|d w'].
  - simpl app. simpl split_chars at 1. rewrite Hc.
    destruct Hrest as [-> | (x & r & -> & Hx)]; [reflexivity|].
    rewrite Hx. reflexivity.
  - assert (Hd : isspace d = false) by (inversion Hw; assumption).
    change ((c :: d :: w') ++ rest) with (c :: (d :: w' ++ rest)).
    change (split_chars (c :: d :: w' ++ rest))
      with (if isspace c then split_chars (d :: w' ++ rest)
            else if isspace d then [c] :: split_chars (d :: w' ++ rest)
            else match split_chars (d :: w' ++ rest) with
                 | w0 :: ws => (c :: w0) :: ws
                 | [] => [[c]]
                 end).
    rewrite Hc, Hd.
    change (d :: w' ++ rest) with ((d :: w') ++ rest).
    rewrite IH; [reflexivity | discriminate | exact Hw].
Qed.

(** Splitting the words joined by one space gives the words back. *)
Lemma split_join_chars (ws : list chars) :
  Forall word ws -> split_chars (join_chars [" "%char] ws) = ws.
Proof.
  induction ws as [|w ws IH]; intro H; [reflexivity|].
  inversion H as [|? ? Hw Hws]; subst.
  destruct ws as [|w' ws'].
  - simpl. rewrite <- (app_nil_r w) at 1.
    rewrite split_chars_word_app; auto.
  - change (join_chars [" "%char] (w :: w' :: ws'))
      with (w ++ " "%char :: join_chars [" "%char] (w' :: ws')).
    rewrite split_chars_word_app; auto.
    + f_equal. change (split_chars (" "%char :: ?x)) with (split_chars x).
      simpl split_chars at 1. apply IH; assumption.
    + right. eexists; eexists; split; reflexivity.
Qed.

Lemma lstrip_chars_nil s :
  lstrip_chars s = [] -> Forall (fun c => isspace c = true) s.
Proof.
  induction s as [|c s IH]; simpl; intro H; [constructor|].
  destruct (isspace c) eqn:Hc; [|discriminate].
  constructor; auto.
Qed.

Lemma lstrip_chars_nonspace c s :
  isspace c = false -> lstrip_chars (c :: s) = c :: s.
Proof. intro H; simpl; rewrite H; reflexivity. Qed.

(** A text that starts with a character other than white space does not
    strip to nothing. *)
Lemma strip_chars_nonempty c s :
  isspace c = false -> strip_chars (c :: s) <> [].
Proof.
  intros Hc Hs. unfold strip_chars, rstrip_chars in Hs.
  rewrite lstrip_chars_nonspace in Hs by assumption.
  assert (Hnil : lstrip_chars (rev (c :: s)) = []).
  { rewrite <- (rev_involutive (lstrip_chars _)), Hs. reflexivity. }
  apply lstrip_chars_nil in Hnil.
  rewrite Forall_forall in Hnil.
  specialize (Hnil c). rewrite <- in_rev in Hnil.
  rewrite Hnil in Hc; [discriminate | left; reflexivity].
Qed.

Lemma join_chars_head sep w ws :
  exists tl, join_chars sep (w :: ws) = w ++ tl.
Proof.
  destruct ws as [|w' ws'].
  - exists []. simpl. symmetry; apply app_nil_r.
  - eexists. reflexivity.
Qed.

(** Words joined by anything do not strip to nothing. *)
Lemma strip_join_nonempty sep ws :
  Forall word ws -> ws <> [] -> strip_chars (join_chars sep ws) <> [].
Proof.
  intros Hall Hne. destruct ws as [|w ws]; [congruence|].
  inversion Hall as [|? ? [Hw Hsp] _]; subst.
  destruct (join_chars_head sep w ws) as [tl ->].
  destruct w as [|c w]; [congruence|].
  inversion Hsp; subst.
  apply strip_chars_nonempty. assumption.
Qed.

(** ** Slices *)

Lemma firstn_plus {A} (a b : nat) (l : list A) :
  firstn a l ++ firstn b (skipn a l) = firstn (a + b) l.
Proof.
  revert l. induction a as [|a IH]; intro l; [reflexivity|].
  destruct l as [|x l]; simpl.
  - rewrite firstn_nil. reflexivity.
  - f_equal. apply IH.
Qed.

Lemma concat_slices {A} (l : list A) (size k : nat) :
  List.concat (map (fun i => slice l i (i + size))
              (map (fun j => j * size) (seq 0 k)))
  = firstn (k * size) l.
Proof.
  induction k as [|k IH]; [reflexivity|].
  rewrite seq_S, !map_app, List.concat_app, IH. simpl.
  rewrite app_nil_r. unfold slice.
  replace (k * size + size - k * size) with size by lia.
  rewrite firstn_plus. f_equal. lia.
Qed.

Lemma range0_covers stop step :
  0 < step -> stop <= ((stop + step - 1) / step) * step.
Proof.
  intro Hs.
  pose proof (Nat.div_mod_eq (stop + step - 1) step) as E.
  pose proof (Nat.mod_upper_bound (stop + step - 1) step) as U.
  nia.
Qed.

Lemma range0_in stop step i :
  0 < step -> In i (range0 stop step) -> i < stop.
Proof.
  intros Hs Hin. unfold range0 in Hin.
  apply in_map_iff in Hin. destruct Hin as (k & <- & Hk).
  apply in_seq in Hk.
  pose proof (Nat.div_mod_eq (stop + step - 1) step) as E.
  nia.
Qed.

Lemma range0_nonempty stop step :
  0 < step -> 0 < stop -> range0 stop step <> [].
Proof.
  intros Hs Hn H. unfold range0 in H.
  apply map_eq_nil in H.
  assert (Hq : (stop + step - 1) / step = 0).
  { destruct ((stop + step - 1) / step); [reflexivity | discriminate]. }
  pose proof (range0_covers stop step Hs) as C. rewrite Hq in C. lia.
Qed.

(** [range(0, len(l), size)] cuts [l] into consecutive slices. *)
Lemma concat_range0_slices {A} (l : list A) size :
  0 < size ->
  List.concat (map (fun i => slice l i (i + size)) (range0 (List.length l) size)) = l.
Proof.
  intro Hs. unfold range0. rewrite concat_slices.
  apply firstn_all2. apply range0_covers; assumption.
Qed.

Lemma slice_length_le {A} (l : list A) i size :
  List.length (slice l i (i + size)) <= size.
Proof.
  unfold slice. replace (i + size - i) with size by lia.
  apply firstn_le_length.
Qed.

Lemma slice_nonempty {A} (l : list A) i size :
  0 < size -> i < List.length l -> slice l i (i + size) <> [].
Proof.
  intros Hs Hi H. apply (f_equal (@List.length A)) in H.
  unfold slice in H. rewrite length_firstn, length_skipn in H.
  simpl in H. lia.
Qed.

Lemma in_firstn {A} (x : A) n l : In x (firstn n l) -> In x l.
Proof.
  intro H. rewrite <- (firstn_skipn n l). apply in_or_app; left; exact H.
Qed.

Lemma in_skipn {A} (x : A) n l : In x (skipn n l) -> In x l.
Proof.
  intro H. rewrite <- (firstn_skipn n l). apply in_or_app; right; exact H.
Qed.

Lemma Forall_slice {A} (P : A -> Prop) (l : list A) i j :
  Forall P l -> Forall P (slice l i j).
Proof.
  intro H. rewrite Forall_forall in *. intros x Hx.
  apply H. unfold slice in Hx.
  apply in_firstn in Hx. eapply in_skipn; eassumption.
Qed.

End PyFacts.

(** ** model.py: the chunking helper *)

Module ChunkFacts.
Import Py Aux PyFacts.

Lemma filter_all {A} (f : A -> bool) (l : list A) :
  (forall x, In x l -> f x = true) -> filter f l = l.
Proof.
  induction l as [|a l IH]; intro H; [reflexivity|].
  simpl. rewrite (H a) by (left; reflexivity).
  f_equal. apply IH. intros x Hx; apply H; right; exact Hx.
Qed.

Lemma slice_map {A B} (f : A -> B) (l : list A) i j :
  slice (map f l) i j = map f (slice l i j).
Proof. unfold slice. rewrite skipn_map, firstn_map. reflexivity. Qed.

(** The chunk that starts at word [i], in terms of the words as character
    lists. *)
Lemma chunk_chars (W : list chars) i j :
  join " " (slice (map of_chars W) i j)
  = of_chars (join_chars [" "%char] (slice W i j)).
Proof.
  unfold join. rewrite slice_map, map_to_of_chars. reflexivity.
Qed.

Lemma split_chunk (W : list chars) i j :
  Forall word W ->
  split (join " " (slice (map of_chars W) i j)) = map of_chars (slice W i j).
Proof.
  intro H. rewrite chunk_chars. unfold split.
  rewrite to_of_chars, split_join_chars; [reflexivity|].
  apply Forall_slice; exact H.
Qed.

Lemma chunk_kept (W : list chars) i size :
  Forall word W -> 0 < size -> i < List.length W ->
  truthy (strip (join " " (slice (map of_chars W) i (i + size)))) = true.
Proof.
  intros H Hs Hi. rewrite chunk_chars. unfold strip.
  rewrite to_of_chars. apply truthy_of_chars.
  apply strip_join_nonempty.
  - apply Forall_slice; exact H.
  - apply slice_nonempty; assumption.
Qed.

Lemma chunk_text_unfold text size :
  Model._chunk_text text size =
  match filter (fun c => truthy (strip c)) (raw_chunks text size) with
  | [] => [text]
  | cs => cs
  end.
Proof. reflexivity. Qed.

Lemma raw_chunks_kept text size :
  0 < size ->
  filter (fun c => truthy (strip c)) (raw_chunks text size)
  = raw_chunks text size.
Proof.
  intro Hs. apply filter_all. intros c Hc.
  unfold raw_chunks in Hc. apply in_map_iff in Hc.
  destruct Hc as (i & <- & Hi).
  apply range0_in in Hi; [|exact Hs].
  unfold split in *. rewrite length_map in Hi.
  apply chunk_kept; auto. apply split_chars_words.
Qed.

Lemma raw_chunks_split text size :
  0 < size ->
  List.concat (map split (raw_chunks text size)) = split text.
Proof.
  intro Hs. unfold raw_chunks. rewrite map_map.
  unfold split at 1 3 4. rewrite length_map.
  erewrite map_ext.
  2:{ intro i. apply split_chunk. apply split_chars_words. }
  rewrite <- (map_map (fun i => slice (split_chars (to_chars text)) i (i + size))
                     (map of_chars)).
  rewrite <- concat_map. rewrite concat_range0_slices by exact Hs.
  reflexivity.
Qed.

Lemma raw_chunks_nonempty text size :
  0 < size -> split text <> [] -> raw_chunks text size <> [].
Proof.
  intros Hs Hw H. unfold raw_chunks in H. apply map_eq_nil in H.
  revert H. apply range0_nonempty; [exact Hs|].
  destruct (split text); [congruence | simpl; lia].
Qed.

Lemma raw_chunks_no_words text size :
  0 < size -> split text = [] -> raw_chunks text size = [].
Proof.
  intros Hs Hw. unfold raw_chunks. rewrite Hw. simpl.
  unfold range0. simpl.
  rewrite Nat.div_small by lia. reflexivity.
Qed.

(** With at least one word the helper returns the unfiltered chunks;
    without any it returns the text itself. *)
Lemma chunk_text_words text size :
  0 < size -> split text <> [] ->
  Model._chunk_text text size = raw_chunks text size.
Proof.
  intros Hs Hw. rewrite chunk_text_unfold, raw_chunks_kept by exact Hs.
  pose proof (raw_chunks_nonempty text size Hs Hw).
  destruct (raw_chunks text size); [congruence | reflexivity].
Qed.

Lemma chunk_text_no_words text size :
  0 < size -> split text = [] -> Model._chunk_text text size = [text].
Proof.
  intros Hs Hw. rewrite chunk_text_unfold, raw_chunks_kept by exact Hs.
  rewrite raw_chunks_no_words by assumption. reflexivity.
Qed.

Lemma chunk_text_nonempty text size :
  0 < size -> Model._chunk_text text size <> [].
Proof.
  intro Hs. destruct (split text) eqn:Hw.
  - rewrite chunk_text_no_words by assumption. discriminate.
  - rewrite chunk_text_words by (assumption || congruence).
    apply raw_chunks_nonempty; [assumption | congruence].
Qed.

Lemma raw_chunk_split text i j :
  split (join " " (slice (split text) i j))
  = map of_chars (slice (split_chars (to_chars text)) i j).
Proof.
  unfold split at 2. apply split_chunk. apply split_chars_words.
Qed.

Lemma raw_chunk_words text size c :
  0 < size -> In c (raw_chunks text size) ->
  c <> EmptyString /\ split c <> [] /\ List.length (split c) <= size.
Proof.
  intros Hs Hc. unfold raw_chunks in Hc. apply in_map_iff in Hc.
  destruct Hc as (i & <- & Hi).
  apply range0_in in Hi; [|exact Hs].
  pose proof (split_chars_words (to_chars text)) as HW.
  rewrite raw_chunk_split.
  unfold split in Hi. rewrite length_map in Hi.
  repeat split.
  - intro E.
    pose proof (chunk_kept _ i size HW Hs Hi) as K.
    fold (split text) in K. rewrite E in K. discriminate.
  - intro E. apply map_eq_nil in E. revert E.
    apply slice_nonempty; assumption.
  - rewrite length_map. apply slice_length_le.
Qed.

End ChunkFacts.

(** C10 (as amended).  For every text, [_chunk_text] with size 400 returns
    a non-empty list of chunks; every chunk holds at most 400 words; the
    words of the chunks, in order, are exactly the words of the text;
    when the text has a word every chunk is a non-empty string with at
    least one word, and when it has none the result is the text itself
    as the only chunk. *)
Theorem chunk_text_partition (text : string) :
  let chunks := Model._chunk_text text 400 in
  chunks <> []
  /\ Forall (fun c => List.length (Py.split c) <= 400) chunks
  /\ List.concat (map Py.split chunks) = Py.split text
  /\ (Py.split text <> [] ->
      Forall (fun c => c <> EmptyString /\ Py.split c <> []) chunks)
  /\ (Py.split text = [] -> chunks = [text]).
Proof.
  assert (Hs : 0 < 400) by lia.
  cbv zeta. split; [apply ChunkFacts.chunk_text_nonempty; exact Hs|].
  destruct (Py.split text) eqn:Hw.
  - rewrite ChunkFacts.chunk_text_no_words by assumption.
    repeat split.
    + constructor; [rewrite Hw; simpl; lia | constructor].
    + simpl. rewrite Hw. reflexivity.
    + congruence.
  - assert (Hne : Py.split text <> []) by congruence.
    rewrite ChunkFacts.chunk_text_words by assumption.
    repeat split.
    + apply Forall_forall. intros c Hc.
      apply (ChunkFacts.raw_chunk_words text 400 c Hs Hc).
    + rewrite ChunkFacts.raw_chunks_split by exact Hs. exact Hw.
    + intros _. apply Forall_forall. intros c Hc.
      destruct (ChunkFacts.raw_chunk_words text 400 c Hs Hc) as (? & ? & _). auto.
    + congruence.
Qed.

(** C10 (as stated) fails on the empty text: the only chunk returned is
    the empty string. *)
Lemma chunk_text_empty_chunk :
  Model._chunk_text EmptyString 400 = [EmptyString]
  /\ ~ Forall (fun c => c <> EmptyString) (Model._chunk_text EmptyString 400).
Proof.
  assert (E : Model._chunk_text EmptyString 400 = [EmptyString])
    by (vm_compute; reflexivity).
  split; [exact E|].
  rewrite E. intro H. inversion H; subst. congruence.
Qed.

(** ** Numbers *)

Module NumFacts.
Local Open Scope Q_scope.

Lemma geb_true a b : Num.geb a b = true <-> b <= a.
Proof. unfold Num.geb. apply Qle_bool_iff. Qed.

Lemma geb_false a b : Num.geb a b = false <-> a < b.
Proof.
  unfold Num.geb. split; intro H.
  - apply Qnot_le_lt. intro L. apply Qle_bool_iff in L. congruence.
  - destruct (Qle_bool b a) eqn:E; [|reflexivity].
    apply Qle_bool_iff in E. lra.
Qed.

Lemma ltb_true a b : Num.ltb a b = true <-> a < b.
Proof.
  unfold Num.ltb. rewrite negb_true_iff. apply (geb_false a b).
Qed.

Lemma ltb_false a b : Num.ltb a b = false <-> b <= a.
Proof.
  unfold Num.ltb. rewrite negb_false_iff. apply (geb_true a b).
Qed.

Lemma gtb_true a b : Num.gtb a b = true <-> b < a.
Proof. unfold Num.gtb. apply ltb_true. Qed.

Lemma gtb_false a b : Num.gtb a b = false <-> a <= b.
Proof. unfold Num.gtb. apply ltb_false. Qed.

(** The program's [min] is the minimum. *)
Lemma min_Qmin a b : Num.min a b == Qmin a b.
Proof.
  unfold Num.min. destruct (Num.ltb b a) eqn:E.
  - apply ltb_true in E. rewrite Q.min_r; [reflexivity | lra].
  - apply ltb_false in E. rewrite Q.min_l; [reflexivity | lra].
Qed.

Lemma min_le_l a b : Num.min a b <= a.
Proof. rewrite min_Qmin. apply Q.le_min_l. Qed.

Lemma min_glb a b c : c <= a -> c <= b -> c <= Num.min a b.
Proof. intros. rewrite min_Qmin. apply Q.min_glb; assumption. Qed.

(** Rounding to an integer moves a number by at most one half. *)
Lemma round_half_even_near q :
  inject_Z (Num.round_half_even q) - q <= 1 # 2
  /\ q - inject_Z (Num.round_half_even q) <= 1 # 2.
Proof.
  unfold Num.round_half_even.
  pose proof (Qfloor_le q) as L. pose proof (Qlt_floor q) as U.
  rewrite inject_Z_plus in U. change (inject_Z 1) with 1 in U.
  destruct (Qcompare (q - inject_Z (Qfloor q)) (1 # 2)) eqn:C.
  - apply Qeq_alt in C.
    destruct (Z.even (Qfloor q)); [|rewrite inject_Z_plus; change (inject_Z 1) with 1];
      split; lra.
  - apply Qlt_alt in C. split; lra.
  - apply Qgt_alt in C. rewrite inject_Z_plus. change (inject_Z 1) with 1.
    split; lra.
Qed.

(** It does not cross an integer. *)
Lemma round_half_even_ge q k :
  inject_Z k <= q -> (k <= Num.round_half_even q)%Z.
Proof.
  intro H. unfold Num.round_half_even.
  assert (F : (k <= Qfloor q)%Z).
  { rewrite <- (Qfloor_Z k). apply Qfloor_resp_le. exact H. }
  destruct (Qcompare _ _); [destruct (Z.even _)| |]; lia.
Qed.

Lemma round_half_even_le q k :
  q <= inject_Z k -> (Num.round_half_even q <= k)%Z.
Proof.
  intro H. unfold Num.round_half_even.
  assert (F : (Qfloor q <= k)%Z).
  { rewrite <- (Qfloor_Z k). apply Qfloor_resp_le. exact H. }
  pose proof (Qfloor_le q) as L.
  destruct (Z.eq_dec (Qfloor q) k) as [E | NE].
  - assert (C : Qcompare (q - inject_Z (Qfloor q)) (1 # 2) = Lt).
    { apply (proj1 (Qlt_alt _ _)). subst k. lra. }
    rewrite C. lia.
  - destruct (Qcompare _ _); [destruct (Z.even _)| |]; lia.
Qed.

Lemma round_half_even_comp x y :
  x == y -> Num.round_half_even x = Num.round_half_even y.
Proof.
  intro E. unfold Num.round_half_even.
  rewrite (Qfloor_comp _ _ E).
  assert (C : Qcompare (x - inject_Z (Qfloor y)) (1 # 2)
              = Qcompare (y - inject_Z (Qfloor y)) (1 # 2)).
  { apply Qcompare_comp; [rewrite E|]; reflexivity. }
  rewrite C. reflexivity.
Qed.

Lemma round_comp x y n : x == y -> Num.round x n == Num.round y n.
Proof.
  intro E. unfold Num.round.
  rewrite (round_half_even_comp (x * Num.pow10 n) (y * Num.pow10 n));
    [reflexivity | rewrite E; reflexivity].
Qed.

Lemma pow10_1 : Num.pow10 1 == 10.
Proof. reflexivity. Qed.

(** [round(x, 1)] stays within 0.05 of [x] and inside [0, 100]. *)
Lemma round1_near x :
  Num.round x 1 - x <= 1 # 20 /\ x - Num.round x 1 <= 1 # 20.
Proof.
  unfold Num.round.
  pose proof (round_half_even_near (x * Num.pow10 1)) as [A B].
  set (n := inject_Z (Num.round_half_even (x * Num.pow10 1))) in *.
  rewrite pow10_1 in *.
  assert (E : n / 10 == n * (1 # 10)) by (field).
  rewrite E. split; lra.
Qed.

Lemma round1_range x : 0 <= x -> x <= 100 -> 0 <= Num.round x 1 <= 100.
Proof.
  intros L U. unfold Num.round.
  assert (A : (0 <= Num.round_half_even (x * Num.pow10 1))%Z).
  { apply round_half_even_ge. rewrite pow10_1. change (inject_Z 0) with 0. lra. }
  assert (B : (Num.round_half_even (x * Num.pow10 1) <= 1000)%Z).
  { apply round_half_even_le. rewrite pow10_1.
    change (inject_Z 1000) with 1000. lra. }
  set (n := Num.round_half_even (x * Num.pow10 1)) in *.
  assert (A' : 0 <= inject_Z n) by (change 0 with (inject_Z 0); rewrite <- Zle_Qle; exact A).
  assert (B' : inject_Z n <= 1000)
    by (change 1000 with (inject_Z 1000); rewrite <- Zle_Qle; exact B).
  rewrite pow10_1.
  assert (E : inject_Z n / 10 == inject_Z n * (1 # 10)) by field.
  rewrite E. split; lra.
Qed.

Lemma sum_nonneg l : Forall (fun x => 0 <= x) l -> 0 <= Num.sum l.
Proof.
  induction 1 as [|x l Hx _ IH]; simpl; [lra|]. lra.
Qed.

Lemma div_nonneg a b : 0 <= a -> 0 <= b -> 0 <= a / b.
Proof.
  intros Ha Hb. unfold Qdiv. apply Qmult_le_0_compat; [exact Ha|].
  apply Qinv_le_0_compat. exact Hb.
Qed.

Lemma mean_nonneg l : Forall (fun x => 0 <= x) l -> 0 <= Num.mean l.
Proof.
  intro H. unfold Num.mean. apply div_nonneg.
  - apply sum_nonneg; exact H.
  - change 0 with (inject_Z 0). rewrite <- Zle_Qle. lia.
Qed.

End NumFacts.

(** ** Dictionaries *)

Module DictFacts.
Section DictFacts.
Variable V : Type.
Implicit Types (d : Dict.t V) (k : string) (v : V).

Lemma set_fresh d k v :
  ~ In k (Dict.keys d) -> Dict.set d k v = d ++ [(k, v)].
Proof.
  induction d as [|[k' v'] d IH]; simpl; intro H; [reflexivity|].
  destruct (String.eqb_spec k k') as [E | NE].
  - exfalso. apply H. left. symmetry. exact E.
  - f_equal. apply IH. intro I. apply H. right. exact I.
Qed.

Lemma fold_set_nodup (l : list (string * V)) d :
  NoDup (map fst (d ++ l)) ->
  fold_left (fun d p => Dict.set d (fst p) (snd p)) l d = d ++ l.
Proof.
  revert d. induction l as [|[k v] l IH]; intros d H; simpl.
  - symmetry. apply app_nil_r.
  - rewrite map_app in H. simpl in H.
    assert (F : ~ In k (Dict.keys d)).
    { apply NoDup_remove_2 in H. intro I. apply H.
      apply in_or_app. left. exact I. }
    rewrite set_fresh by exact F.
    rewrite IH.
    + rewrite <- app_assoc. reflexivity.
    + rewrite <- app_assoc, map_app. exact H.
Qed.

(** A comprehension over distinct keys is the list of its items. *)
Lemma of_pairs_nodup (l : list (string * V)) :
  NoDup (map fst l) -> Dict.of_pairs l = l.
Proof. intro H. unfold Dict.of_pairs. apply (fold_set_nodup l []). exact H. Qed.

Lemma values_set d k v x :
  In x (Dict.values (Dict.set d k v)) -> x = v \/ In x (Dict.values d).
Proof.
  induction d as [|[k' v'] d IH]; simpl.
  - intros [E | []]. left. symmetry. exact E.
  - destruct (String.eqb k k'); simpl.
    + intros [E | I]; [left; symmetry; exact E | right; right; exact I].
    + intros [E | I]; [right; left; exact E|].
      destruct (IH I) as [E | I']; [left; exact E | right; right; exact I'].
Qed.

Lemma values_fold_set (l : list (string * V)) d x :
  In x (Dict.values (fold_left (fun d p => Dict.set d (fst p) (snd p)) l d)) ->
  In x (Dict.values d) \/ In x (map snd l).
Proof.
  revert d. induction l as [|[k v] l IH]; intros d H; simpl in *.
  - left. exact H.
  - destruct (IH _ H) as [I | I].
    + destruct (values_set _ _ _ _ I) as [E | I'].
      * right. left. symmetry. exact E.
      * left. exact I'.
    + right. right. exact I.
Qed.

(** Every value of [dict(pairs)] is the second component of a pair. *)
Lemma values_of_pairs (l : list (string * V)) x :
  In x (Dict.values (Dict.of_pairs l)) -> In x (map snd l).
Proof.
  intro H. destruct (values_fold_set l [] x H) as [[] | I]. exact I.
Qed.

Lemma get_in_values d k v : Dict.get d k = Some v -> In v (Dict.values d).
Proof.
  induction d as [|[k' v'] d IH]; simpl; [discriminate|].
  destruct (String.eqb k k').
  - intro E. inversion E. left. reflexivity.
  - intro E. right. apply IH. exact E.
Qed.

Lemma get_default_cases d k default :
  Dict.get_default d k default = default
  \/ In (Dict.get_default d k default) (Dict.values d).
Proof.
  unfold Dict.get_default. destruct (Dict.get d k) eqn:E.
  - right. eapply get_in_values. exact E.
  - left. reflexivity.
Qed.

End DictFacts.
End DictFacts.

(** ** The monad *)

Module MFacts.
Local Open Scope monad_scope.

Lemma after_nil st : after st [] = st.
Proof. destruct st. unfold after. simpl. rewrite app_nil_r. reflexivity. Qed.

Lemma after_after st cs cs' : after (after st cs) cs' = after st (cs ++ cs').
Proof. unfold after. simpl. rewrite app_assoc. reflexivity. Qed.

(** The loop of [analyze_text] when the classifier answers every chunk. *)
Lemma for_each_classify ext (chunks : list string) (results : list ClfResult) st :
  Forall2 (fun c r => classifier ext c Model.TACTIC_LABELS true = Return r)
          chunks results ->
  for_each chunks
    (fun chunk => result <- Model.classify ext chunk true ;;
                  ret (Model.scores_dict result)) st
  = (Return (map Model.scores_dict results),
     after st (map (fun c => Classify c true) chunks)).
Proof.
  intro H. revert st. induction H as [|c r cs rs Hc _ IH]; intro st.
  - simpl. unfold ret. rewrite after_nil. reflexivity.
  - simpl. unfold bind at 1. unfold bind at 1.
    unfold Model.classify, external. rewrite Hc.
    unfold ret at 1. unfold bind. rewrite IH.
    unfold ret. f_equal.
    unfold after. simpl. rewrite <- app_assoc. reflexivity.
Qed.

(** The loop either raises or returns one dictionary for each chunk. *)
Lemma for_each_classify_inv ext (chunks : list string) st all_scores st' :
  for_each chunks
    (fun chunk => result <- Model.classify ext chunk true ;;
                  ret (Model.scores_dict result)) st
  = (Return all_scores, st') ->
  exists results,
    Forall2 (fun c r => classifier ext c Model.TACTIC_LABELS true = Return r)
            chunks results
    /\ all_scores = map Model.scores_dict results.
Proof.
  revert st all_scores st'.
  induction chunks as [|c cs IH]; intros st all_scores st' H.
  - simpl in H. inversion H. exists []. split; [constructor | reflexivity].
  - simpl in H. unfold bind at 1 in H. unfold bind at 1 in H.
    unfold Model.classify, external in H.
    destruct (classifier ext c Model.TACTIC_LABELS true) as [r|e] eqn:Hc;
      [|discriminate].
    unfold ret at 1 in H. unfold bind in H.
    match type of H with
    | context [for_each cs ?f ?s] => destruct (for_each cs f s) as [[ys|e] st2] eqn:Hf
    end; [|discriminate].
    unfold ret in H. inversion H; subst.
    destruct (IH _ _ _ Hf) as (rs & HF & ->).
    exists (r :: rs). split; [constructor; assumption | reflexivity].
Qed.

End MFacts.

(** ** model.py: aggregation *)

Module ModelFacts.
Import Model.
Local Open Scope Q_scope.

Lemma labels_nodup : NoDup TACTIC_LABELS.
Proof.
  unfold TACTIC_LABELS.
  repeat (constructor; [simpl; intuition discriminate|]). constructor.
Qed.

(** ** The guard *)

Lemma valid_guard text :
  Spec.valid text ->
  negb (Py.truthy text) || (Py.len (Py.strip text) <? 10)%nat = false.
Proof.
  unfold Spec.valid. intro H.
  assert (T : Py.truthy text = true).
  { destruct text; [|reflexivity]. vm_compute in H. lia. }
  rewrite T. simpl. apply Nat.ltb_ge. exact H.
Qed.

Lemma short_guard text :
  text = EmptyString \/ (Py.len (Py.strip text) < 10)%nat ->
  negb (Py.truthy text) || (Py.len (Py.strip text) <? 10)%nat = true.
Proof.
  intros [-> | H]; [reflexivity|].
  apply orb_true_iff. right. apply Nat.ltb_lt. exact H.
Qed.

(** ** The run of [analyze_text] *)

Lemma analyze_text_ok ext text results st :
  Spec.valid text -> Spec.classified ext text results ->
  analyze_text ext text st
  = (Return (result_of text (_chunk_text text 400) (map scores_dict results)),
     after st (map (fun c => Classify c true) (Spec.classified_chunks text))).
Proof.
  intros Hv Hc. unfold analyze_text. rewrite valid_guard by exact Hv.
  cbv zeta. unfold bind at 1.
  unfold Spec.classified, Spec.classified_chunks in *.
  rewrite (MFacts.for_each_classify ext _ results st Hc). reflexivity.
Qed.

Lemma analyze_text_inv ext text st r st' :
  analyze_text ext text st = (Return r, st') ->
  (~ Spec.valid text /\ r = _empty_result)
  \/ exists results,
       Spec.valid text /\ Spec.classified ext text results
       /\ r = result_of text (_chunk_text text 400) (map scores_dict results).
Proof.
  unfold analyze_text.
  destruct (negb (Py.truthy text) || (Py.len (Py.strip text) <? 10)%nat) eqn:G.
  - unfold ret. intro H. inversion H. left. split; [|reflexivity].
    unfold Spec.valid. intro V.
    apply orb_true_iff in G. destruct G as [G | G].
    + destruct text; [vm_compute in V; lia | discriminate].
    + apply Nat.ltb_lt in G. lia.
  - cbv zeta. unfold bind at 1.
    match goal with
    | |- context [for_each ?l ?f ?s] =>
        destruct (for_each l f s) as [[ys|e] st2] eqn:Hf
    end; [|discriminate].
    unfold ret. intro H. inversion H; subst.
    destruct (MFacts.for_each_classify_inv _ _ _ _ _ Hf) as (results & HF & ->).
    right. exists results. repeat split; try assumption.
    apply orb_false_iff in G. destruct G as [_ G].
    apply Nat.ltb_ge in G. exact G.
Qed.

Lemma top_tactics_result_of text chunks all_scores :
  top_tactics (result_of text chunks all_scores)
  = firstn 3 (top_tactics_all all_scores).
Proof. reflexivity. Qed.

Lemma tactic_scores_result_of text chunks all_scores :
  tactic_scores (result_of text chunks all_scores)
  = Dict.of_pairs
      (map (fun kv => (fst kv, Num.round (snd kv * 100)%Q 1))
           (Dict.items (tactic_means all_scores))).
Proof. reflexivity. Qed.

(** ** The local variables in the words of the specification *)

Lemma tactic_means_items all_scores :
  tactic_means all_scores
  = map (fun label =>
           (label, Num.mean (map (fun s => Dict.get_default s label 0) all_scores)))
        TACTIC_LABELS.
Proof.
  unfold tactic_means. apply DictFacts.of_pairs_nodup.
  rewrite map_map. simpl. exact labels_nodup.
Qed.

Lemma tactic_means_spec results :
  tactic_means (map scores_dict results)
  = map (fun label => (label, Spec.tactic_mean results label)) TACTIC_LABELS.
Proof.
  rewrite tactic_means_items. apply map_ext. intro label.
  unfold Spec.tactic_mean, Spec.score_of. rewrite map_map. reflexivity.
Qed.

Lemma raw_spec results :
  raw (map scores_dict results)
  = Num.mean (map (Spec.tactic_mean results) TACTIC_LABELS).
Proof.
  unfold raw, Dict.values. rewrite tactic_means_spec, map_map. reflexivity.
Qed.

Lemma overall_spec results :
  overall (map scores_dict results) == Spec.unrounded_score results.
Proof.
  unfold overall, Spec.unrounded_score. rewrite raw_spec, NumFacts.min_Qmin.
  set (m := Num.mean _).
  destruct (Q.min_spec 100 (m * 180)) as [[A ->] | [A ->]];
    destruct (Q.min_spec 100 (180 * m)) as [[B ->] | [B ->]]; lra.
Qed.

(** ** Signs *)

Lemma score_of_nonneg r label :
  Forall (fun x => 0 <= x) (scores r) -> 0 <= Spec.score_of r label.
Proof.
  intro H. unfold Spec.score_of.
  destruct (DictFacts.get_default_cases Q (scores_dict r) label 0) as [-> | I];
    [lra|].
  apply DictFacts.values_of_pairs in I.
  apply in_map_iff in I. destruct I as ([k v] & E & I). simpl in E.
  apply in_combine_r in I. rewrite Forall_forall in H.
  rewrite <- E. apply H. exact I.
Qed.

Lemma tactic_mean_nonneg results label :
  Spec.nonnegative results -> 0 <= Spec.tactic_mean results label.
Proof.
  intro H. unfold Spec.tactic_mean. apply NumFacts.mean_nonneg.
  apply Forall_map. unfold Spec.nonnegative in H.
  eapply Forall_impl; [|exact H].
  intros r Hr. apply score_of_nonneg. exact Hr.
Qed.

Lemma spec_overall_range results :
  Spec.nonnegative results -> 0 <= Spec.unrounded_score results <= 100.
Proof.
  intro H. unfold Spec.unrounded_score. split; [|apply Q.le_min_l].
  apply Q.min_glb; [lra|].
  assert (M : 0 <= Num.mean (map (Spec.tactic_mean results) TACTIC_LABELS)).
  { apply NumFacts.mean_nonneg. apply Forall_map.
    rewrite Forall_forall. intros l _. apply tactic_mean_nonneg. exact H. }
  lra.
Qed.

End ModelFacts.

(** ** model.py: the claims on [analyze_text] *)

Local Open Scope Q_scope.

(** C4.  For every text that is empty or has fewer than 10 characters
    once trimmed, [analyze_text] returns the canonical zero result and
    calls nothing: score 0.0, severity LOW, the 6 tactic scores 0.0, no top
    tactics, no chunk analysed and a word count of 0, whatever the number
    of words of the text. *)
Theorem short_text_zero_result ext text st :
  text = EmptyString \/ (Py.len (Py.strip text) < 10)%nat ->
  Model.analyze_text ext text st = (Return Model._empty_result, st)
  /\ Model.overall_score Model._empty_result = 0
  /\ Model.severity Model._empty_result = "LOW"%string
  /\ Model.tactic_scores Model._empty_result
     = map (fun k => (k, 0)) Model.TACTIC_LABELS
  /\ Model.top_tactics Model._empty_result = []
  /\ Model.chunks_analyzed Model._empty_result = 0%nat
  /\ Model.word_count Model._empty_result = 0%nat.
Proof.
  intro H. split; [|repeat split].
  unfold Model.analyze_text. rewrite ModelFacts.short_guard by exact H.
  reflexivity.
Qed.

Lemma short_text_zero_result_witness :
  List.length (Py.split "a b c d e") = 5%nat
  /\ Model.analyze_text (Sample.ext Sample.scores1) "a b c d e" Sample.st0
     = (Return Model._empty_result, Sample.st0)
  /\ Model.word_count Model._empty_result = 0%nat.
Proof.
  split; [reflexivity|].
  destruct (short_text_zero_result (Sample.ext Sample.scores1) "a b c d e"
              Sample.st0) as (R & _ & _ & _ & _ & _ & W).
  - right. vm_compute. lia.
  - split; [exact R | exact W].
Defined.

(** ** model.py: the ranking of the tactics *)

Module SortFacts.

Section Lists.
Variable A : Type.
Variable R : A -> A -> Prop.

Lemma StronglySorted_filter (f : A -> bool) l :
  StronglySorted R l -> StronglySorted R (filter f l).
Proof.
  induction 1 as [|x l _ IH Hx]; simpl; [constructor|].
  destruct (f x); [|exact IH].
  constructor; [exact IH|].
  rewrite Forall_forall in *. intros y Hy.
  apply filter_In in Hy. apply Hx. apply Hy.
Qed.

Lemma StronglySorted_firstn n l :
  StronglySorted R l -> StronglySorted R (firstn n l).
Proof.
  intro H. revert n. induction H as [|x l _ IH Hx]; intro n.
  - rewrite firstn_nil. constructor.
  - destruct n; simpl; constructor; [apply IH|].
    rewrite Forall_forall in *. intros y Hy.
    apply Hx. eapply PyFacts.in_firstn. exact Hy.
Qed.

Lemma StronglySorted_app_inv l1 l2 :
  StronglySorted R (l1 ++ l2) ->
  forall x y, In x l1 -> In y l2 -> R x y.
Proof.
  induction l1 as [|a l1 IH]; simpl; intros H x y Hx Hy; [contradiction|].
  inversion H as [|? ? Hs Ha]; subst.
  destruct Hx as [<- | Hx].
  - rewrite Forall_forall in Ha. apply Ha. apply in_or_app. right. exact Hy.
  - apply IH; assumption.
Qed.

Lemma StronglySorted_map {B} (R' : B -> B -> Prop) (f : A -> B) l :
  (forall x y, In x l -> In y l -> R x y -> R' (f x) (f y)) ->
  StronglySorted R l -> StronglySorted R' (map f l).
Proof.
  intros Hf H. induction H as [|x l Hs IH Hx]; simpl; [constructor|].
  constructor.
  - apply IH. intros a b Ha Hb. apply Hf; right; assumption.
  - apply Forall_map. rewrite Forall_forall in *. intros y Hy.
    apply Hf; [left; reflexivity | right; exact Hy | apply Hx; exact Hy].
Qed.

End Lists.

Section Sort.
Variable A : Type.
Variable key : A -> Q.

Lemma insert_in x l z : In z (Model.insert_desc key x l) <-> z = x \/ In z l.
Proof.
  induction l as [|y l IH]; simpl.
  - intuition.
  - destruct (Num.gtb (key y) (key x)); simpl; rewrite ?IH; intuition.
Qed.

Lemma sorted_in l z : In z (Model.sorted_desc key l) <-> In z l.
Proof.
  induction l as [|x l IH]; simpl; [reflexivity|].
  rewrite insert_in, IH. intuition.
Qed.

Variable place : A -> nat.

(** A sorted list has its keys below the key of its head. *)
Lemma before_key_le x y : Spec.before key place x y -> key y <= key x.
Proof. intros [H | [H _]]; [apply Qlt_le_weak; exact H | rewrite H; apply Qle_refl]. Qed.

(** Inserting an item that stood before all the others keeps the order:
    it goes behind the greater keys and in front of the equal ones. *)
Lemma insert_sorted x l :
  StronglySorted (Spec.before key place) l ->
  (forall y, In y l -> (place x < place y)%nat) ->
  StronglySorted (Spec.before key place) (Model.insert_desc key x l).
Proof.
  intros H Hp. induction H as [|y l Hs IH Hy]; simpl.
  - repeat constructor.
  - assert (Hle : forall z, In z l -> key z <= key y).
    { rewrite Forall_forall in Hy. intros z Hz.
      apply before_key_le. apply Hy. exact Hz. }
    destruct (Num.gtb (key y) (key x)) eqn:G.
    + apply NumFacts.gtb_true in G. constructor.
      * apply IH. intros z Hz. apply Hp. right. exact Hz.
      * rewrite Forall_forall in *. intros z Hz.
        apply (proj1 (insert_in _ _ _)) in Hz. destruct Hz as [-> | Hz].
        -- left. exact G.
        -- apply Hy. exact Hz.
    + apply NumFacts.gtb_false in G. constructor.
      * constructor; assumption.
      * assert (Hall : forall z, In z (y :: l) -> key z <= key x).
        { intros z [<- | Hz]; [exact G|].
          eapply Qle_trans; [apply Hle; exact Hz | exact G]. }
        rewrite Forall_forall. intros z Hz.
        destruct (Qlt_le_dec (key z) (key x)) as [L | L].
        -- left. exact L.
        -- right. split.
           ++ apply Qle_antisym; [exact L | apply Hall; exact Hz].
           ++ apply Hp. exact Hz.
Qed.

(** [sorted] is a stable sort by descending key. *)
Lemma sorted_sorted l :
  StronglySorted (fun x y => (place x < place y)%nat) l ->
  StronglySorted (Spec.before key place) (Model.sorted_desc key l).
Proof.
  induction 1 as [|x l _ IH Hx]; simpl; [constructor|].
  apply insert_sorted; [exact IH|].
  intros y Hy. apply (proj1 (sorted_in _ _)) in Hy.
  rewrite Forall_forall in Hx. apply Hx. exact Hy.
Qed.

End Sort.
End SortFacts.

Module TopFacts.
Import Model.

Section Top.
Variable results : list ClfResult.

Let mean := Spec.tactic_mean results.
Let items : list (string * Q) := map (fun label => (label, mean label)) TACTIC_LABELS.
Let above (ts : string * Q) : bool := Num.gtb (snd ts) (25 # 100).

Lemma items_places :
  StronglySorted
    (fun x y : string * Q => (Spec.position (fst x) < Spec.position (fst y))%nat)
    items.
Proof.
  unfold items, TACTIC_LABELS. simpl.
  repeat constructor; vm_compute; lia.
Qed.

Lemma items_in p :
  In p items <-> In (fst p) TACTIC_LABELS /\ snd p = mean (fst p).
Proof.
  unfold items. rewrite in_map_iff. split.
  - intros (l & <- & Hl). simpl. auto.
  - intros [Hl E]. exists (fst p). split; [|exact Hl].
    destruct p; simpl in *. congruence.
Qed.

Lemma top_tactics_all_eq :
  top_tactics_all (map scores_dict results)
  = map fst (filter above (sorted_desc snd items)).
Proof.
  unfold top_tactics_all, sorted_tactics, Dict.items.
  rewrite ModelFacts.tactic_means_spec. reflexivity.
Qed.

Lemma kept_in p :
  In p (filter above (sorted_desc snd items)) <->
  In (fst p) TACTIC_LABELS /\ snd p = mean (fst p) /\ (25 # 100 < mean (fst p))%Q.
Proof.
  rewrite filter_In, SortFacts.sorted_in, items_in. unfold above.
  rewrite NumFacts.gtb_true. split.
  - intros [[Hl E] G]. rewrite E in G. repeat split; assumption.
  - intros (Hl & E & G). rewrite E. repeat split; assumption.
Qed.

Lemma top_all_in t :
  In t (top_tactics_all (map scores_dict results)) <->
  In t TACTIC_LABELS /\ (25 # 100 < mean t)%Q.
Proof.
  rewrite top_tactics_all_eq, in_map_iff. split.
  - intros (p & <- & Hp). apply (proj1 (kept_in _)) in Hp. tauto.
  - intros [Hl G]. exists (t, mean t). split; [reflexivity|].
    apply (proj2 (kept_in _)). simpl. auto.
Qed.

Lemma top_all_sorted :
  StronglySorted (Spec.ranks_before results)
    (top_tactics_all (map scores_dict results)).
Proof.
  rewrite top_tactics_all_eq.
  apply SortFacts.StronglySorted_map
    with (R := Spec.before snd (fun p : string * Q => Spec.position (fst p))).
  - intros x y Hx Hy Hxy.
    apply (proj1 (kept_in _)) in Hx. apply (proj1 (kept_in _)) in Hy.
    destruct Hx as (_ & Ex & _). destruct Hy as (_ & Ey & _).
    unfold Spec.ranks_before, Spec.before in *. fold mean.
    rewrite <- Ex, <- Ey. exact Hxy.
  - apply SortFacts.StronglySorted_filter.
    apply SortFacts.sorted_sorted. exact items_places.
Qed.

End Top.
End TopFacts.

(** ** model.py: the sentence heat map *)

Module HighlightFacts.
Import Model.
Local Open Scope monad_scope.

(** A loop whose body always returns, returns. *)
Lemma for_each_total {A B} (f : A -> M B) (P : A -> B -> Prop) :
  (forall x st, exists y st', f x st = (Return y, st') /\ P x y) ->
  forall l st, exists ys st',
    for_each l f st = (Return ys, st') /\ Forall2 P l ys.
Proof.
  intros Hf l. induction l as [|x l IH]; intro st.
  - exists [], st. split; [reflexivity | constructor].
  - destruct (Hf x st) as (y & st1 & E1 & Py).
    destruct (IH st1) as (ys & st2 & E2 & Pys).
    exists (y :: ys), st2. split; [|constructor; assumption].
    simpl. unfold bind at 1. rewrite E1.
    unfold bind at 1. rewrite E2. reflexivity.
Qed.

Lemma highlight_sentences_unfold ext txt :
  highlight_sentences ext txt
  = for_each (firstn 20 (split_sentences (Py.strip txt))) (highlight_item ext).
Proof. reflexivity. Qed.

Lemma item_total ext sent st :
  exists h st',
    highlight_item ext sent st = (Return h, st')
    /\ (text h = sent /\ Spec.highlight_for ext 3 h).
Proof.
  unfold highlight_item, Spec.highlight_for.
  destruct (List.length (Py.split sent) <? 4)%nat eqn:Short.
  - eexists. eexists. split; [reflexivity|].
    simpl. rewrite Short. auto.
  - unfold try_except, bind at 1, classify, external.
    destruct (classifier ext sent TACTIC_LABELS false) as [res | e] eqn:C.
    + unfold bind at 1, index.
      destruct (scores res) as [|top_score ss] eqn:Hs; simpl nth_error.
      * eexists. eexists. split; [reflexivity|].
        simpl. rewrite Short, C. simpl. rewrite Hs. auto.
      * unfold ret at 1. unfold bind at 1.
        destruct (labels res) as [|top_label ls] eqn:Hl; simpl nth_error.
        -- eexists. eexists. split; [reflexivity|].
           simpl. rewrite Short, C. simpl. rewrite Hs, Hl. auto.
        -- eexists. eexists. split; [reflexivity|].
           simpl. rewrite Short, C. simpl. rewrite Hs, Hl.
           split; [reflexivity|]. split.
           ++ apply NumFacts.round_comp. apply NumFacts.min_Qmin.
           ++ split; intro G.
              ** apply NumFacts.gtb_true in G. rewrite G. reflexivity.
              ** apply NumFacts.gtb_false in G. rewrite G. reflexivity.
    + eexists. eexists. split; [reflexivity|].
      simpl. rewrite Short, C. simpl. auto.
Qed.

End HighlightFacts.

(** ** llm_analyzer.py: the section parser *)

Module StripFacts.
Import Py Aux.

Lemma lstrip_no_lead s : no_lead s -> lstrip_chars s = s.
Proof.
  destruct s as [|c s]; simpl; [reflexivity|].
  intro H. rewrite H. reflexivity.
Qed.

Lemma no_lead_lstrip s : no_lead (lstrip_chars s).
Proof.
  induction s as [|c s IH]; simpl; [exact I|].
  destruct (isspace c) eqn:E; [exact IH | exact E].
Qed.

(** [lstrip] removes a prefix. *)
Lemma lstrip_suffix s : exists sp, s = sp ++ lstrip_chars s.
Proof.
  induction s as [|c s [sp IH]]; simpl.
  - exists []. reflexivity.
  - destruct (isspace c).
    + exists (c :: sp). simpl. f_equal. exact IH.
    + exists []. reflexivity.
Qed.

Lemma no_lead_prefix s t : no_lead (s ++ t) -> no_lead s.
Proof. destruct s; simpl; auto. Qed.

Lemma no_lead_app s t : s <> [] -> no_lead s -> no_lead (s ++ t).
Proof. destruct s; simpl; [congruence | auto]. Qed.

Lemma strip_clean s : clean s -> strip_chars s = s.
Proof.
  intros [H1 H2]. unfold strip_chars, rstrip_chars.
  rewrite (lstrip_no_lead s H1), (lstrip_no_lead (rev s) H2).
  apply rev_involutive.
Qed.

(** What [strip] returns has no white space at either end. *)
Lemma clean_strip s : clean (strip_chars s).
Proof.
  unfold strip_chars, rstrip_chars, clean.
  set (y := lstrip_chars s).
  assert (Hy : no_lead y) by apply no_lead_lstrip.
  split.
  - destruct (lstrip_suffix (rev y)) as [sp E].
    apply (f_equal (@rev ascii)) in E.
    rewrite rev_involutive, rev_app_distr in E.
    rewrite E in Hy. eapply no_lead_prefix. exact Hy.
  - rewrite rev_involutive. apply no_lead_lstrip.
Qed.

Lemma join_chars_last sep (ws : list chars) :
  ws <> [] -> exists hd, join_chars sep ws = hd ++ last ws [].
Proof.
  induction ws as [|w ws IH]; [congruence|]. intros _.
  destruct ws as [|w' ws'].
  - exists []. reflexivity.
  - destruct IH as [hd E]; [discriminate|].
    exists (w ++ sep ++ hd).
    change (join_chars sep (w :: w' :: ws'))
      with (w ++ sep ++ join_chars sep (w' :: ws')).
    rewrite E. rewrite <- !app_assoc. reflexivity.
Qed.

Lemma last_in {A} (l : list A) d : l <> [] -> In (last l d) l.
Proof.
  induction l as [|x l IH]; [congruence|]. intros _.
  destruct l as [|y l']; [left; reflexivity|].
  right. apply IH. discriminate.
Qed.

(** Joining pieces that are clean and not empty gives a clean text. *)
Lemma clean_join sep (ws : list chars) :
  Forall (fun w => w <> [] /\ clean w) ws -> clean (join_chars sep ws).
Proof.
  intro H. destruct ws as [|w ws]; [split; exact I|].
  split.
  - inversion H as [|? ? [Hne [Hl _]] _]; subst.
    destruct (PyFacts.join_chars_head sep w ws) as [tl ->].
    apply no_lead_app; assumption.
  - destruct (join_chars_last sep (w :: ws)) as [hd ->]; [discriminate|].
    rewrite rev_app_distr.
    rewrite Forall_forall in H.
    destruct (H (last (w :: ws) [])) as [Hne [_ Hr]];
      [apply last_in; discriminate|].
    apply no_lead_app; [|exact Hr].
    intro E. apply Hne. apply (f_equal (@rev ascii)) in E.
    rewrite rev_involutive in E. exact E.
Qed.

(** The trimmed, non-empty lines joined by a space need no trimming. *)
Lemma strip_join_body (lines : list string) :
  strip (join " " (Spec.body_of lines)) = join " " (Spec.body_of lines).
Proof.
  unfold strip, join. rewrite PyFacts.to_of_chars. f_equal.
  apply strip_clean. apply clean_join.
  apply Forall_map. unfold Spec.body_of.
  apply Forall_forall. intros b Hb.
  apply filter_In in Hb. destruct Hb as [Hin Ht].
  apply in_map_iff in Hin. destruct Hin as (x & <- & _).
  unfold strip in *. rewrite PyFacts.to_of_chars.
  split; [|apply clean_strip].
  apply PyFacts.truthy_of_chars. exact Ht.
Qed.

Lemma join_body_nonempty (lines : list string) :
  Spec.body_of lines <> [] -> join " " (Spec.body_of lines) <> EmptyString.
Proof.
  intros Hne E. unfold join in E.
  apply PyFacts.of_chars_nil_iff in E.
  destruct (Spec.body_of lines) as [|b bs] eqn:Hb; [congruence|].
  assert (Hin : In b (Spec.body_of lines)) by (rewrite Hb; left; reflexivity).
  unfold Spec.body_of in Hin. apply filter_In in Hin. destruct Hin as [_ Ht].
  simpl map in E.
  destruct (PyFacts.join_chars_head (to_chars " ") (to_chars b) (map to_chars bs))
    as [tl Hj].
  rewrite Hj in E. apply app_eq_nil in E. destruct E as [E _].
  destruct b; [discriminate Ht | discriminate E].
Qed.

End StripFacts.

Module ParseFacts.
Import LlmAnalyzer.

Lemma parse_plain_outside (pre : list string) p :
  Forall Spec.plain pre -> p_current p = None ->
  fold_left parse_line pre p = p.
Proof.
  intros H Hc. induction H as [|line pre Hl _ IH]; [reflexivity|].
  simpl. unfold parse_line at 2. unfold Spec.plain in Hl.
  rewrite Hl, Hc. exact IH.
Qed.

Lemma parse_plain_inside (body : list string) sections h buf :
  Forall Spec.plain body ->
  fold_left parse_line body
    {| p_sections := sections; p_current := Some h; p_buf := buf |}
  = {| p_sections := sections; p_current := Some h;
       p_buf := buf ++ Spec.body_of body |}.
Proof.
  intro H. revert buf. induction H as [|line body Hl _ IH]; intro buf.
  - simpl. rewrite app_nil_r. reflexivity.
  - simpl fold_left. unfold parse_line at 2. unfold Spec.plain in Hl.
    rewrite Hl. simpl p_current. unfold Spec.body_of. simpl map. simpl filter.
    destruct (Py.truthy (Py.strip line)).
    + simpl. rewrite IH. unfold Spec.body_of.
      rewrite <- app_assoc. reflexivity.
    + apply IH.
Qed.

Lemma parse_heading line h p :
  match_heading (Py.strip line) = Some h ->
  parse_line p line
  = {| p_sections := flush p; p_current := Some h; p_buf := [] |}.
Proof. intro H. unfold parse_line. rewrite H. reflexivity. Qed.

End ParseFacts.

(** C7.  When the lines of an LLM reply are: any lines that are no
    heading, a line recognised as SUMMARY (in any case), lines that are no
    heading with at least one non-empty among them, a line recognised as
    KEY TACTICS, and again lines that are no heading with at least one
    non-empty among them, then [_parse_sections] yields exactly the two
    keys SUMMARY and KEY TACTICS, in that order, each with its trimmed
    non-empty body lines joined by single spaces (a non-empty text); the
    lines before the first heading leave no trace. *)
Theorem parse_two_sections text pre h1 body1 h2 body2 :
  Py.splitlines text = pre ++ h1 :: body1 ++ h2 :: body2 ->
  Forall Spec.plain pre ->
  LlmAnalyzer.match_heading (Py.strip h1) = Some "SUMMARY"%string ->
  Forall Spec.plain body1 -> Spec.body_of body1 <> [] ->
  LlmAnalyzer.match_heading (Py.strip h2) = Some "KEY TACTICS"%string ->
  Forall Spec.plain body2 -> Spec.body_of body2 <> [] ->
  LlmAnalyzer._parse_sections text
  = [ ("SUMMARY"%string,     Py.join " " (Spec.body_of body1));
      ("KEY TACTICS"%string, Py.join " " (Spec.body_of body2)) ]
  /\ Dict.keys (LlmAnalyzer._parse_sections text)
     = ["SUMMARY"; "KEY TACTICS"]%string
  /\ Py.join " " (Spec.body_of body1) <> EmptyString
  /\ Py.join " " (Spec.body_of body2) <> EmptyString.
Proof.
  intros Hlines Hpre Hh1 Hb1 Hn1 Hh2 Hb2 Hn2.
  assert (E : LlmAnalyzer._parse_sections text
              = [ ("SUMMARY"%string,     Py.join " " (Spec.body_of body1));
                  ("KEY TACTICS"%string, Py.join " " (Spec.body_of body2)) ]).
  { unfold LlmAnalyzer._parse_sections, LlmAnalyzer.parse_lines.
    rewrite Hlines, fold_left_app.
    rewrite (ParseFacts.parse_plain_outside pre
               {| LlmAnalyzer.p_sections := [];
                  LlmAnalyzer.p_current := None;
                  LlmAnalyzer.p_buf := [] |} Hpre eq_refl).
    simpl fold_left at 1. rewrite fold_left_app.
    rewrite (ParseFacts.parse_heading h1 _ _ Hh1).
    unfold LlmAnalyzer.flush at 2. simpl LlmAnalyzer.p_current.
    simpl LlmAnalyzer.p_sections.
    rewrite (ParseFacts.parse_plain_inside body1 _ _ _ Hb1).
    simpl fold_left at 1.
    rewrite (ParseFacts.parse_heading h2 _ _ Hh2).
    rewrite (ParseFacts.parse_plain_inside body2 _ _ _ Hb2).
    unfold LlmAnalyzer.flush. simpl.
    rewrite !StripFacts.strip_join_body. reflexivity. }
  split; [exact E|]. split; [rewrite E; reflexivity|].
  split; apply StripFacts.join_body_nonempty; assumption.
Qed.

Lemma parse_two_sections_witness :
  LlmAnalyzer._parse_sections Sample.reply
  = [ ("SUMMARY"%string,
       Py.join " " (Spec.body_of
                      ["The text pushes the reader"; "   to act at once.  ";
                       EmptyString]%string));
      ("KEY TACTICS"%string,
       Py.join " " (Spec.body_of ["Fear and urgency."%string])) ]
  /\ Dict.keys (LlmAnalyzer._parse_sections Sample.reply)
     = ["SUMMARY"; "KEY TACTICS"]%string
  /\ Py.join " " (Spec.body_of
                    ["The text pushes the reader"; "   to act at once.  ";
                     EmptyString]%string) <> EmptyString
  /\ Py.join " " (Spec.body_of ["Fear and urgency."%string]) <> EmptyString.
Proof.
  apply (parse_two_sections Sample.reply
           ["Here is my analysis."%string] "Summary:"%string
           ["The text pushes the reader"; "   to act at once.  "; EmptyString]%string
           "key tactics"%string ["Fear and urgency."%string]).
  - vm_compute. reflexivity.
  - repeat constructor.
  - vm_compute. reflexivity.
  - repeat constructor.
  - vm_compute. discriminate.
  - vm_compute. reflexivity.
  - repeat constructor.
  - vm_compute. discriminate.
Defined.

(** The sections of the sample reply, evaluated. *)
Example parse_sample_reply :
  LlmAnalyzer._parse_sections Sample.reply
  = [ ("SUMMARY", "The text pushes the reader to act at once.");
      ("KEY TACTICS", "Fear and urgency.") ]%string.
Proof. vm_compute. reflexivity. Qed.

(** ** llm_analyzer.py and multimodal.py: degraded capabilities *)

Module DegradedFacts.
Import LlmAnalyzer Multimodal Spec.

Lemma truthy_false s : Py.truthy s = false <-> s = EmptyString.
Proof. destruct s; simpl; split; congruence. Qed.

Lemma explanation_unset ext text analysis st :
  _client st = None -> ANTHROPIC_API_KEY ext = EmptyString ->
  generate_explanation ext text analysis st = (Return guidance, st).
Proof.
  intros Hc Hk. unfold generate_explanation, bind, _get_client.
  rewrite Hc, Hk. reflexivity.
Qed.

(** With a client, the explanation is what the [try] block makes of the
    answer of the endpoint. *)
Lemma explanation_total ext text analysis st :
  exists e st',
    generate_explanation ext text analysis st = (Return e, st')
    /\ (forall exc,
          (_client st <> None \/ ANTHROPIC_API_KEY ext <> EmptyString) ->
          messages_create ext (build_prompt text analysis) = Raise exc ->
          e = llm_error exc).
Proof.
  unfold generate_explanation, bind, _get_client.
  destruct (_client st) as [c|] eqn:Hc.
  - cbv zeta. unfold try_except, bind, external, index.
    destruct (messages_create ext (build_prompt text analysis)) as [content|e] eqn:Hm.
    + destruct content as [|explanation rest]; simpl nth_error.
      * eexists. eexists. split; [reflexivity|]. intros; discriminate.
      * eexists. eexists. split; [reflexivity|]. intros; discriminate.
    + eexists. eexists. split; [reflexivity|].
      intros exc _ E. inversion E. reflexivity.
  - destruct (Py.truthy (ANTHROPIC_API_KEY ext)) eqn:Hk; simpl negb; cbv iota.
    + cbv zeta. unfold try_except, bind, external, index.
      destruct (messages_create ext (build_prompt text analysis)) as [content|e] eqn:Hm.
      * destruct content as [|explanation rest]; simpl nth_error.
        -- eexists. eexists. split; [reflexivity|]. intros; discriminate.
        -- eexists. eexists. split; [reflexivity|]. intros; discriminate.
      * eexists. eexists. split; [reflexivity|].
        intros exc _ E. inversion E. reflexivity.
    + eexists. eexists. split; [reflexivity|].
      apply truthy_false in Hk. intros exc [H | H] _; congruence.
Qed.

Lemma gate_closed ext url :
  clip_loads ext = false \/ url = EmptyString ->
  negb (_available ext) || negb (Py.truthy url) = true.
Proof.
  unfold _available. intros [-> | ->]; [reflexivity|].
  apply orb_true_r.
Qed.

Lemma gate_open ext url :
  clip_loads ext = true -> url <> EmptyString ->
  negb (_available ext) || negb (Py.truthy url) = false.
Proof.
  unfold _available. intros -> H.
  destruct url; [congruence | reflexivity].
Qed.

Lemma caption_total ext url caption st :
  exists r st',
    analyze_image_caption ext url caption st = (Return r, st')
    /\ (forall exc, clip_loads ext = true -> url <> EmptyString ->
          http_get_image ext url = Raise exc
          \/ (exists image,
                http_get_image ext url = Return image
                /\ clip_probs ext
                     [caption; ("image completely unrelated to: " ++ caption)%string]
                     image = Raise exc) ->
          r = Unavailable (Some (str_exn exc))).
Proof.
  unfold analyze_image_caption.
  destruct (negb (_available ext) || negb (Py.truthy url)) eqn:G.
  - eexists. eexists. split; [reflexivity|].
    intros exc Hl Hu _. rewrite (gate_open ext url Hl Hu) in G. discriminate.
  - unfold try_except, bind at 1, _fetch_image, external.
    destruct (http_get_image ext url) as [image|e] eqn:Hf.
    + unfold bind at 1, clip, external.
      destruct (clip_probs ext _ image) as [probs|e] eqn:Hp.
      * unfold bind at 1, index.
        destruct probs as [|p0 probs]; simpl nth_error.
        -- eexists. eexists. split; [reflexivity|].
           intros exc _ _ [E | (im & E1 & E2)]; [discriminate|].
           inversion E1; subst. rewrite Hp in E2. discriminate.
        -- unfold ret at 1. unfold bind at 1.
           destruct probs as [|p1 probs]; simpl nth_error.
           ++ eexists. eexists. split; [reflexivity|].
              intros exc _ _ [E | (im & E1 & E2)]; [discriminate|].
              inversion E1; subst. rewrite Hp in E2. discriminate.
           ++ eexists. eexists. split; [reflexivity|].
              intros exc _ _ [E | (im & E1 & E2)]; [discriminate|].
              inversion E1; subst. rewrite Hp in E2. discriminate.
      * eexists. eexists. split; [reflexivity|].
        intros exc _ _ [E | (im & E1 & E2)]; [discriminate|].
        inversion E1; subst. rewrite Hp in E2. inversion E2. reflexivity.
    + eexists. eexists. split; [reflexivity|].
      intros exc _ _ [E | (im & E1 & _)]; [|discriminate].
      inversion E. reflexivity.
Qed.

Lemma clickbait_total ext url st :
  exists r st',
    analyze_clickbait ext url st = (Return r, st')
    /\ (forall exc, clip_loads ext = true -> url <> EmptyString ->
          http_get_image ext url = Raise exc
          \/ (exists image,
                http_get_image ext url = Return image
                /\ clip_probs ext clickbait_labels image = Raise exc) ->
          r = Unavailable (Some (str_exn exc))).
Proof.
  unfold analyze_clickbait.
  destruct (negb (_available ext) || negb (Py.truthy url)) eqn:G.
  - eexists. eexists. split; [reflexivity|].
    intros exc Hl Hu _. rewrite (gate_open ext url Hl Hu) in G. discriminate.
  - unfold try_except, bind at 1, _fetch_image, external.
    destruct (http_get_image ext url) as [image|e] eqn:Hf.
    + unfold bind at 1, clip, external.
      destruct (clip_probs ext clickbait_labels image) as [probs|e] eqn:Hp.
      * eexists. eexists. split; [reflexivity|].
        intros exc _ _ [E | (im & E1 & E2)]; [discriminate|].
        inversion E1; subst. rewrite Hp in E2. discriminate.
      * eexists. eexists. split; [reflexivity|].
        intros exc _ _ [E | (im & E1 & E2)]; [discriminate|].
        inversion E1; subst. rewrite Hp in E2. inversion E2. reflexivity.
    + eexists. eexists. split; [reflexivity|].
      intros exc _ _ [E | (im & E1 & _)]; [|discriminate].
      inversion E. reflexivity.
Qed.

End DegradedFacts.

(** C8.  Degraded capabilities are data, never exceptions.
    [generate_explanation] always returns; without a credential it
    returns success=false with the fixed guidance message and no section,
    and calls nothing; when the call of the LLM fails it returns
    success=false with the error message after "LLM error: " and no
    section.  [analyze_image_caption] and [analyze_clickbait] always
    return; they return available=false, without any call, when the vision
    model did not load or the image URL is empty, and available=false with
    the error message when the fetch or the inference fails. *)
Theorem degraded_outcomes ext :
  (forall text analysis st,
      _client st = None -> ANTHROPIC_API_KEY ext = EmptyString ->
      LlmAnalyzer.generate_explanation ext text analysis st
      = (Return Spec.guidance, st))
  /\ (forall text analysis st,
        exists e st',
          LlmAnalyzer.generate_explanation ext text analysis st = (Return e, st')
          /\ (forall exc,
                (_client st <> None \/ ANTHROPIC_API_KEY ext <> EmptyString) ->
                messages_create ext (LlmAnalyzer.build_prompt text analysis)
                = Raise exc ->
                e = Spec.llm_error exc))
  /\ (forall url caption st,
        clip_loads ext = false \/ url = EmptyString ->
        Multimodal.analyze_image_caption ext url caption st
        = (Return (Multimodal.Unavailable None), st)
        /\ Multimodal.analyze_clickbait ext url st
           = (Return (Multimodal.Unavailable None), st))
  /\ (forall url caption st,
        exists r st',
          Multimodal.analyze_image_caption ext url caption st = (Return r, st')
          /\ (forall exc, clip_loads ext = true -> url <> EmptyString ->
                http_get_image ext url = Raise exc
                \/ (exists image,
                      http_get_image ext url = Return image
                      /\ clip_probs ext
                           [caption;
                            ("image completely unrelated to: " ++ caption)%string]
                           image = Raise exc) ->
                r = Multimodal.Unavailable (Some (str_exn exc))))
  /\ (forall url st,
        exists r st',
          Multimodal.analyze_clickbait ext url st = (Return r, st')
          /\ (forall exc, clip_loads ext = true -> url <> EmptyString ->
                http_get_image ext url = Raise exc
                \/ (exists image,
                      http_get_image ext url = Return image
                      /\ clip_probs ext Multimodal.clickbait_labels image
                         = Raise exc) ->
                r = Multimodal.Unavailable (Some (str_exn exc)))).
Proof.
  split; [|split; [|split; [|split]]].
  - apply DegradedFacts.explanation_unset.
  - apply DegradedFacts.explanation_total.
  - intros url caption st H.
    unfold Multimodal.analyze_image_caption, Multimodal.analyze_clickbait.
    rewrite (DegradedFacts.gate_closed ext url H). split; reflexivity.
  - apply DegradedFacts.caption_total.
  - apply DegradedFacts.clickbait_total.
Qed.

(** The sample environment: no key gives the guidance; with a key the
    endpoint is down and the error is reported; the image host is down and
    the error is reported. *)
Example degraded_sample :
  LlmAnalyzer.generate_explanation (Sample.ext Sample.scores1)
    Sample.request_text (Sample.analysis Sample.scores1) Sample.st0
  = (Return Spec.guidance, Sample.st0)
  /\ fst (LlmAnalyzer.generate_explanation (Sample.ext_with_key Sample.scores1)
            Sample.request_text Model._empty_result Sample.st0)
     = Return (Spec.llm_error (Error "Connection error."))
  /\ fst (Multimodal.analyze_clickbait (Sample.ext Sample.scores1)
            "http://example.org/a.png" Sample.st0)
     = Return (Multimodal.Unavailable (Some "404 Client Error"%string)).
Proof. repeat split; vm_compute; reflexivity. Qed.

(** ** report_gen.py and app.py *)

Module ReportFacts.
Import ReportGen.



(** The tactic table of a result of [analyze_text]: a row for each of
    the 6 tactics, in the order of the label set. *)
Lemma tactic_rows text chunks all_scores :
  exists rows,
    tactic_table (Model.tactic_scores (Model.result_of text chunks all_scores))
    = [Str "Tactic"; Str "Score"; Str "Risk"] :: rows
    /\ List.length rows = 6%nat
    /\ map (hd (Str EmptyString)) rows = map Str Model.TACTIC_LABELS.
Proof.
  rewrite ModelFacts.tactic_scores_result_of, ModelFacts.tactic_means_items.
  unfold Dict.items. rewrite map_map. simpl fst. simpl snd.
  rewrite DictFacts.of_pairs_nodup
    by (rewrite map_map; simpl; exact ModelFacts.labels_nodup).
  unfold tactic_table, Dict.items. eexists. split; [reflexivity|].
  split.
  - rewrite !length_map. reflexivity.
  - rewrite !map_map. apply map_ext. intro l. reflexivity.
Qed.

End ReportFacts.

Module AppFacts.
Import App.


Lemma analyze_short ext req st :
  text req = EmptyString \/ (Py.len (Py.strip (text req)) < 10)%nat ->
  analyze ext req st
  = (Raise (HTTPException 400 "Text must be at least 10 characters."), st).
Proof.
  intro H. unfold analyze. rewrite (ModelFacts.short_guard (text req) H).
  reflexivity.
Qed.

Lemma download_report_short ext req st :
  text req = EmptyString \/ (Py.len (Py.strip (text req)) < 10)%nat ->
  download_report ext req st = (Raise (HTTPException 400 "Text too short."), st).
Proof.
  intro H. unfold download_report.
  rewrite (ModelFacts.short_guard (text req) H). reflexivity.
Qed.

Lemma quick_score_short ext req st :
  text req = EmptyString \/ (Py.len (Py.strip (text req)) < 10)%nat ->
  quick_score ext req st = (Return Spec.zero_score, st).
Proof.
  intro H. unfold quick_score, bind, Model.analyze_text.
  rewrite (ModelFacts.short_guard (text req) H). reflexivity.
Qed.

End AppFacts.




(** C5 (as amended).  For every request whose text is missing or shorter
    than 10 trimmed characters, no endpoint calls the classifier, the LLM
    or the vision model; /analyze and /report reject it with a 4xx
    response; /quick-score rejects it with 422 when the text is missing
    and otherwise answers 200 with the canonical zero result (score 0.0,
    LOW, no top tactics). *)
Theorem short_text_requests ext body st :
  Spec.short_or_missing body ->
  (Spec.client_error (App.status (fst (App.post_analyze ext body st)))
   /\ snd (App.post_analyze ext body st) = st)
  /\ (Spec.client_error (App.status (fst (App.post_report ext body st)))
      /\ snd (App.post_report ext body st) = st)
  /\ (snd (App.post_quick_score ext body st) = st
      /\ (App.body_text body = None ->
          App.status (fst (App.post_quick_score ext body st)) = 422%nat)
      /\ (App.body_text body <> None ->
          fst (App.post_quick_score ext body st)
          = {| App.status := 200; App.payload := Some Spec.zero_score |})).
Proof.
  unfold Spec.short_or_missing, Spec.client_error.
  unfold App.post_analyze, App.post_report, App.post_quick_score, App.post,
    App.parse.
  destruct (App.body_text body) as [t|]; intro H.
  - rewrite AppFacts.analyze_short, AppFacts.download_report_short,
      AppFacts.quick_score_short by exact H.
    simpl. repeat split; try lia; try congruence.
  - simpl. repeat split; try lia; try congruence.
Qed.

Lemma short_text_requests_witness :
  App.status (fst (App.post_analyze (Sample.ext Sample.scores1)
                     (Sample.body (Some "Buy now!"%string)) Sample.st0)) = 400%nat
  /\ App.status (fst (App.post_report (Sample.ext Sample.scores1)
                        (Sample.body (Some "Buy now!"%string)) Sample.st0)) = 400%nat
  /\ snd (App.post_quick_score (Sample.ext Sample.scores1)
            (Sample.body (Some "Buy now!"%string)) Sample.st0) = Sample.st0
  /\ fst (App.post_quick_score (Sample.ext Sample.scores1)
            (Sample.body (Some "Buy now!"%string)) Sample.st0)
     = {| App.status := 200; App.payload := Some Spec.zero_score |}.
Proof.
  destruct (short_text_requests (Sample.ext Sample.scores1)
              (Sample.body (Some "Buy now!"%string)) Sample.st0)
    as (_ & _ & Hst & _ & Hq).
  - right. vm_compute. lia.
  - split; [reflexivity|]. split; [reflexivity|].
    split; [exact Hst|]. apply Hq. discriminate.
Defined.

(** C5 (as stated) fails for /quick-score: a text of two characters is
    answered 200 with the zero result, not rejected. *)
Lemma quick_score_accepts_short_text :
  Spec.short_or_missing (Sample.body (Some "hi"%string))
  /\ fst (App.post_quick_score (Sample.ext Sample.scores1)
            (Sample.body (Some "hi"%string)) Sample.st0)
     = {| App.status := 200; App.payload := Some Spec.zero_score |}
  /\ ~ Spec.client_error
         (App.status (fst (App.post_quick_score (Sample.ext Sample.scores1)
                             (Sample.body (Some "hi"%string)) Sample.st0))).
Proof.
  split; [right; vm_compute; lia|].
  split; [reflexivity|].
  unfold Spec.client_error. simpl. lia.
Qed.

(* ================================================================== *)
(** * Further properties of the code *)
(* ================================================================== *)

(** ** model.py: [analyze_text] beyond the score *)

Module AnalysisFacts.
Import Model.
Local Open Scope monad_scope.
Local Open Scope nat_scope.

(** The loop of [analyze_text] stops at the first chunk the classifier
    fails on. *)
Lemma for_each_classify_fail ext pre c post results e st :
  Forall2 (fun x r => classifier ext x TACTIC_LABELS true = Return r) pre results ->
  classifier ext c TACTIC_LABELS true = Raise e ->
  for_each (pre ++ c :: post)
    (fun chunk => result <- classify ext chunk true ;;
                  ret (scores_dict result)) st
  = (Raise e, after st (Views.chunk_calls (pre ++ [c]))).
Proof.
  intros H Hc. revert st. induction H as [|x r xs rs Hx _ IH]; intro st.
  - simpl. unfold bind at 1. unfold bind at 1.
    unfold classify, external. rewrite Hc. reflexivity.
  - simpl. unfold bind at 1. unfold bind at 1.
    unfold classify, external. rewrite Hx.
    unfold ret at 1. unfold bind. rewrite IH.
    f_equal. unfold after, Views.chunk_calls. simpl.
    rewrite <- app_assoc. reflexivity.
Qed.

Lemma split_chars_nil s :
  Py.split_chars s = [] -> Forall (fun c => Py.isspace c = true) s.
Proof.
  induction s as [|c s IH]; intro H; [constructor|].
  destruct (Py.isspace c) eqn:E.
  - constructor; [exact E|]. apply IH. simpl in H. rewrite E in H. exact H.
  - exfalso. exact (PyFacts.split_chars_cons_nonspace c s E H).
Qed.

Lemma lstrip_all_space s :
  Forall (fun c => Py.isspace c = true) s -> Py.lstrip_chars s = [].
Proof.
  induction 1 as [|c s Hc _ IH]; simpl; [reflexivity|].
  rewrite Hc. exact IH.
Qed.

(** A text without a word strips to the empty string. *)
Lemma no_word_strip text : Py.split text = [] -> Py.strip text = EmptyString.
Proof.
  unfold Py.split, Py.strip. intro H. apply map_eq_nil in H.
  apply split_chars_nil in H.
  unfold Py.strip_chars. rewrite (lstrip_all_space _ H). reflexivity.
Qed.

(** A valid text has a word. *)
Lemma valid_has_word text : Spec.valid text -> Py.split text <> [].
Proof.
  unfold Spec.valid. intros Hv H.
  rewrite (no_word_strip text H) in Hv. simpl in Hv. lia.
Qed.

Lemma length_range0 stop step :
  List.length (Py.range0 stop step) = (stop + step - 1) / step.
Proof. unfold Py.range0. rewrite length_map, length_seq. reflexivity. Qed.

(** The number of chunks of a text with [n > 0] words: [n / 400], rounded
    up. *)
Lemma chunk_text_length text :
  Py.split text <> [] ->
  List.length (_chunk_text text 400)
  = (List.length (Py.split text) + 399) / 400.
Proof.
  intro H. rewrite ChunkFacts.chunk_text_words by (lia || exact H).
  unfold Aux.raw_chunks. rewrite length_map, length_range0.
  f_equal. lia.
Qed.

End AnalysisFacts.

(** X1.  A failure of the classifier is not caught by [analyze_text]: when
    the classifier answers the chunks [pre] and raises on the next chunk
    [c], [analyze_text] raises the same exception, after having called the
    classifier on [pre] and [c] and on no later chunk. *)
Theorem analyze_text_propagates ext text pre c post results e st :
  Spec.valid text ->
  Spec.classified_chunks text = pre ++ c :: post ->
  Forall2 (fun x r => classifier ext x Model.TACTIC_LABELS true = Return r)
          pre results ->
  classifier ext c Model.TACTIC_LABELS true = Raise e ->
  Model.analyze_text ext text st
  = (Raise e, after st (Views.chunk_calls (pre ++ [c]))).
Proof.
  intros Hv Hch Hpre Hc. unfold Model.analyze_text.
  rewrite ModelFacts.valid_guard by exact Hv.
  cbv zeta. unfold bind at 1.
  unfold Spec.classified_chunks in Hch. rewrite Hch.
  rewrite (AnalysisFacts.for_each_classify_fail ext pre c post results e st Hpre Hc).
  reflexivity.
Qed.

Lemma analyze_text_propagates_witness :
  Model.analyze_text Views.ext_classifier_down Sample.request_text Sample.st0
  = (Raise (Error "CUDA out of memory"),
     after Sample.st0 (Views.chunk_calls ([] ++ [Sample.request_text]))).
Proof.
  apply (analyze_text_propagates Views.ext_classifier_down Sample.request_text
           [] Sample.request_text [] [] (Error "CUDA out of memory") Sample.st0).
  - unfold Spec.valid. vm_compute. lia.
  - vm_compute. reflexivity.
  - constructor.
  - reflexivity.
Defined.

(** X2.  For a valid text that the classifier answers, [analyze_text]
    calls the classifier once for each classified chunk, in order, and
    nothing else; [word_count] is the number of words of the text, which
    is at least 1; [chunks_analyzed] is the number of those calls, namely
    the number of 400-word chunks (word_count / 400 rounded up) capped at
    5, hence between 1 and 5. *)
Theorem analyze_text_counts ext text results st :
  Spec.valid text ->
  Spec.classified ext text results ->
  exists r,
    Model.analyze_text ext text st
    = (Return r, after st (Views.chunk_calls (Spec.classified_chunks text)))
    /\ Model.word_count r = List.length (Py.split text)
    /\ (1 <= Model.word_count r)%nat
    /\ Model.chunks_analyzed r = Nat.min 5 ((Model.word_count r + 399) / 400)
    /\ (1 <= Model.chunks_analyzed r <= 5)%nat
    /\ List.length (Views.chunk_calls (Spec.classified_chunks text))
       = Model.chunks_analyzed r.
Proof.
  intros Hv Hc.
  rewrite (ModelFacts.analyze_text_ok ext text results st Hv Hc).
  eexists. split; [reflexivity|].
  pose proof (AnalysisFacts.valid_has_word text Hv) as Hw.
  pose proof (AnalysisFacts.chunk_text_length text Hw) as Hl.
  assert (Hn : (1 <= List.length (Py.split text))%nat).
  { destruct (Py.split text); [congruence | simpl; lia]. }
  assert (Hq : (1 <= (List.length (Py.split text) + 399) / 400)%nat).
  { apply Nat.div_le_lower_bound; lia. }
  unfold Model.result_of, Model.word_count, Model.chunks_analyzed.
  rewrite length_firstn, Hl.
  unfold Views.chunk_calls, Spec.classified_chunks.
  rewrite length_map, length_firstn, Hl.
  repeat split; try lia.
Qed.

Lemma analyze_text_counts_witness :
  exists r,
    Model.analyze_text (Sample.ext Sample.scores1) Sample.request_text Sample.st0
    = (Return r,
       after Sample.st0
         (Views.chunk_calls (Spec.classified_chunks Sample.request_text)))
    /\ Model.word_count r = List.length (Py.split Sample.request_text)
    /\ (1 <= Model.word_count r)%nat
    /\ Model.chunks_analyzed r = Nat.min 5 ((Model.word_count r + 399) / 400)
    /\ (1 <= Model.chunks_analyzed r <= 5)%nat
    /\ List.length (Views.chunk_calls (Spec.classified_chunks Sample.request_text))
       = Model.chunks_analyzed r.
Proof.
  apply (analyze_text_counts (Sample.ext Sample.scores1) Sample.request_text
           [Sample.result Sample.scores1] Sample.st0).
  - unfold Spec.valid. vm_compute. lia.
  - unfold Spec.classified. vm_compute. repeat constructor.
Defined.

Module RangeFacts.
Import Model.

(** [round(x, 1)] does not cross a number with one decimal. *)
Lemma round1_tenths x :
  Num.round x 1 * 10 == inject_Z (Num.round_half_even (x * Num.pow10 1)).
Proof.
  unfold Num.round. change (Num.pow10 1) with 10. field.
Qed.

Lemma round1_ge (k : Z) x :
  inject_Z k <= x * 10 -> inject_Z k <= Num.round x 1 * 10.
Proof.
  intro H. rewrite round1_tenths. rewrite <- Zle_Qle.
  apply NumFacts.round_half_even_ge. rewrite NumFacts.pow10_1. exact H.
Qed.

Lemma round1_le (k : Z) x :
  x * 10 <= inject_Z k -> Num.round x 1 * 10 <= inject_Z k.
Proof.
  intro H. rewrite round1_tenths. rewrite <- Zle_Qle.
  apply NumFacts.round_half_even_le. rewrite NumFacts.pow10_1. exact H.
Qed.

Lemma sum_le_length l :
  Forall (fun x => x <= 1) l -> Num.sum l <= inject_Z (Z.of_nat (List.length l)).
Proof.
  induction 1 as [|x l Hx _ IH].
  - simpl. apply Qle_refl.
  - simpl Num.sum. simpl List.length.
    rewrite Nat2Z.inj_succ. unfold Z.succ. rewrite inject_Z_plus.
    change (inject_Z 1) with 1. lra.
Qed.

Lemma mean_le_1 l : Forall (fun x => x <= 1) l -> Num.mean l <= 1.
Proof.
  intro H. unfold Num.mean.
  destruct l as [|x l].
  - simpl. unfold Qdiv, Qinv. simpl. lra.
  - apply Qle_shift_div_r.
    + change 0 with (inject_Z 0). rewrite <- Zlt_Qlt. simpl. lia.
    + rewrite Qmult_1_l. apply sum_le_length. exact H.
Qed.

Lemma score_of_le_1 r label :
  Forall (fun x => 0 <= x <= 1) (scores r) -> Spec.score_of r label <= 1.
Proof.
  intro H. unfold Spec.score_of.
  destruct (DictFacts.get_default_cases Q (scores_dict r) label 0) as [-> | I];
    [lra|].
  apply DictFacts.values_of_pairs in I.
  apply in_map_iff in I. destruct I as ([k v] & E & I). simpl in E.
  apply in_combine_r in I. rewrite Forall_forall in H.
  rewrite <- E. apply (H v I).
Qed.

Lemma tactic_mean_unit results label :
  Forall (fun r => Forall (fun x => 0 <= x <= 1) (scores r)) results ->
  0 <= Spec.tactic_mean results label <= 1.
Proof.
  intro H. split.
  - apply ModelFacts.tactic_mean_nonneg. unfold Spec.nonnegative.
    eapply Forall_impl; [|exact H]. intros r Hr.
    eapply Forall_impl; [|exact Hr]. intros x [Hx _]. exact Hx.
  - unfold Spec.tactic_mean. apply mean_le_1. apply Forall_map.
    eapply Forall_impl; [|exact H]. intros r Hr.
    apply score_of_le_1. exact Hr.
Qed.

(** The returned [tactic_scores]: each label with its mean as a
    percentage with one decimal. *)
Lemma tactic_scores_spec text chunks results :
  tactic_scores (result_of text chunks (map scores_dict results))
  = map (fun label =>
           (label, Num.round (Spec.tactic_mean results label * 100) 1))
        TACTIC_LABELS.
Proof.
  rewrite ModelFacts.tactic_scores_result_of, ModelFacts.tactic_means_spec.
  unfold Dict.items. rewrite map_map. simpl fst. simpl snd.
  apply DictFacts.of_pairs_nodup.
  rewrite map_map. simpl. exact ModelFacts.labels_nodup.
Qed.

Lemma get_of_labelled {V} (f : string -> V) (l : list string) t :
  In t l -> Dict.get (map (fun label => (label, f label)) l) t = Some (f t).
Proof.
  induction l as [|x l IH]; simpl; [contradiction|].
  intro H. destruct (String.eqb_spec t x) as [-> | NE]; [reflexivity|].
  apply IH. destruct H as [E | H]; [congruence | exact H].
Qed.

Lemma answered_unit ext chunks results :
  Views.unit_scores ext ->
  Forall2 (fun c r => classifier ext c TACTIC_LABELS true = Return r) chunks results ->
  Forall (fun r => Forall (fun x => 0 <= x <= 1) (scores r)) results.
Proof.
  intros Hu H. induction H as [|c r cs rs Hc _ IH]; constructor; [|exact IH].
  exact (Hu _ _ _ _ Hc).
Qed.

Lemma StronglySorted_NoDup {A} (R : A -> A -> Prop) l :
  (forall x, ~ R x x) -> StronglySorted R l -> NoDup l.
Proof.
  intros Hirr H. induction H as [|x l _ IH Hx]; constructor; [|exact IH].
  intro Hin. rewrite Forall_forall in Hx. exact (Hirr x (Hx x Hin)).
Qed.

Lemma ranks_before_irrefl results t : ~ Spec.ranks_before results t t.
Proof.
  unfold Spec.ranks_before, Spec.before. intros [H | [_ H]].
  - apply Qlt_irrefl in H. exact H.
  - lia.
Qed.

End RangeFacts.

(** X3.  In every result that [analyze_text] returns, the keys of
    [tactic_scores] are the 6 tactics in the order of the label set, the
    same keys as [tactic_colors] and [tactic_descriptions]; when the
    classifier keeps its scores within [0, 1], every tactic score is a
    percentage within [0, 100]. *)
Theorem tactic_scores_keys_and_range ext text st r st' :
  Views.unit_scores ext ->
  Model.analyze_text ext text st = (Return r, st') ->
  Dict.keys (Model.tactic_scores r) = Model.TACTIC_LABELS
  /\ Dict.keys (Model.tactic_colors r) = Model.TACTIC_LABELS
  /\ Dict.keys (Model.tactic_descriptions r) = Model.TACTIC_LABELS
  /\ Forall (fun v => 0 <= v <= 100) (Dict.values (Model.tactic_scores r)).
Proof.
  intros Hu H. apply ModelFacts.analyze_text_inv in H.
  destruct H as [[_ ->] | (results & Hv & Hc & ->)].
  - repeat split. simpl. repeat constructor; simpl; lra.
  - pose proof (RangeFacts.answered_unit ext _ results Hu Hc) as Hr.
    rewrite RangeFacts.tactic_scores_spec.
    split; [|split; [reflexivity | split; [reflexivity|]]].
    + unfold Dict.keys. rewrite map_map. simpl. reflexivity.
    + assert (R : forall label,
                 0 <= Num.round (Spec.tactic_mean results label * 100) 1 <= 100).
      { intro label.
        pose proof (RangeFacts.tactic_mean_unit results label Hr) as [L U].
        apply NumFacts.round1_range; lra. }
      unfold Dict.values. rewrite map_map. simpl.
      repeat (constructor; [apply R|]). constructor.
Qed.

Lemma tactic_scores_keys_and_range_witness :
  Dict.keys (Model.tactic_scores (Sample.analysis Sample.scores1))
  = Model.TACTIC_LABELS
  /\ Dict.keys (Model.tactic_colors (Sample.analysis Sample.scores1))
     = Model.TACTIC_LABELS
  /\ Dict.keys (Model.tactic_descriptions (Sample.analysis Sample.scores1))
     = Model.TACTIC_LABELS
  /\ Forall (fun v => 0 <= v <= 100)
       (Dict.values (Model.tactic_scores (Sample.analysis Sample.scores1))).
Proof.
  apply (tactic_scores_keys_and_range (Sample.ext Sample.scores1)
           Sample.request_text Sample.st0 (Sample.analysis Sample.scores1)
           (after Sample.st0 [Classify Sample.request_text true])).
  - intros sequence candidate_labels multi_label r H.
    inversion H. simpl.
    repeat constructor; unfold Qle; simpl; lia.
  - vm_compute. reflexivity.
Defined.

(** X4.  In every result that [analyze_text] returns, [top_tactics] has
    no repetition, and each of its tactics has a returned tactic score of
    at least 25.0. *)
Theorem top_tactics_scores ext text st r st' :
  Model.analyze_text ext text st = (Return r, st') ->
  NoDup (Model.top_tactics r)
  /\ forall t, In t (Model.top_tactics r) ->
       exists v, Dict.get (Model.tactic_scores r) t = Some v /\ 25 <= v.
Proof.
  intro H. apply ModelFacts.analyze_text_inv in H.
  destruct H as [[_ ->] | (results & Hv & Hc & ->)].
  - split; [constructor | intros t []].
  - rewrite ModelFacts.top_tactics_result_of, RangeFacts.tactic_scores_spec.
    pose proof (TopFacts.top_all_sorted results) as HS.
    split.
    + apply (RangeFacts.StronglySorted_NoDup (Spec.ranks_before results)).
      * apply RangeFacts.ranks_before_irrefl.
      * apply SortFacts.StronglySorted_firstn. exact HS.
    + intros t Ht. apply PyFacts.in_firstn in Ht.
      apply (proj1 (TopFacts.top_all_in results t)) in Ht.
      destruct Ht as [Hl Hm].
      eexists. split; [apply RangeFacts.get_of_labelled; exact Hl|].
      assert (G : inject_Z 250
                  <= Num.round (Spec.tactic_mean results t * 100) 1 * 10).
      { apply RangeFacts.round1_ge. change (inject_Z 250) with 250. lra. }
      change (inject_Z 250) with 250 in G. lra.
Qed.

Lemma top_tactics_scores_witness :
  NoDup (Model.top_tactics (Sample.analysis Sample.scores1))
  /\ forall t, In t (Model.top_tactics (Sample.analysis Sample.scores1)) ->
       exists v,
         Dict.get (Model.tactic_scores (Sample.analysis Sample.scores1)) t = Some v
         /\ 25 <= v.
Proof.
  apply (top_tactics_scores (Sample.ext Sample.scores1) Sample.request_text
           Sample.st0 (Sample.analysis Sample.scores1)
           (after Sample.st0 [Classify Sample.request_text true])).
  vm_compute. reflexivity.
Defined.

(** X5.  In every result that [analyze_text] returns, the severity is one
    of LOW, MODERATE and HIGH with its fixed colour, and the returned
    (rounded) [overall_score] lies in the closed range of its tier: at
    most 40 for LOW, from 40 to 70 for MODERATE, from 70 to 100 for HIGH. *)
Theorem severity_and_returned_score ext text st r st' :
  Model.analyze_text ext text st = (Return r, st') ->
  (Model.severity r = "LOW"%string
   /\ Model.severity_color r = "#22c55e"%string
   /\ Model.overall_score r <= 40)
  \/ (Model.severity r = "MODERATE"%string
      /\ Model.severity_color r = "#f59e0b"%string
      /\ 40 <= Model.overall_score r <= 70)
  \/ (Model.severity r = "HIGH"%string
      /\ Model.severity_color r = "#ef4444"%string
      /\ 70 <= Model.overall_score r <= 100).
Proof.
  intro H. apply ModelFacts.analyze_text_inv in H.
  destruct H as [[_ ->] | (results & Hv & Hc & ->)].
  - left. repeat split. simpl. lra.
  - set (all := map Model.scores_dict results).
    unfold Model.result_of. simpl Model.severity. simpl Model.severity_color.
    simpl Model.overall_score.
    pose proof (NumFacts.min_le_l 100 (Model.raw all * 180)) as U.
    fold (Model.overall all) in U.
    unfold Model.severity_of.
    destruct (Num.geb (Model.overall all) 70) eqn:G70.
    + apply NumFacts.geb_true in G70. right. right.
      pose proof (RangeFacts.round1_ge 700 (Model.overall all)) as A.
      pose proof (RangeFacts.round1_le 1000 (Model.overall all)) as B.
      change (inject_Z 700) with 700 in A. change (inject_Z 1000) with 1000 in B.
      repeat split; lra.
    + apply NumFacts.geb_false in G70.
      destruct (Num.geb (Model.overall all) 40) eqn:G40.
      * apply NumFacts.geb_true in G40. right. left.
        pose proof (RangeFacts.round1_ge 400 (Model.overall all)) as A.
        pose proof (RangeFacts.round1_le 700 (Model.overall all)) as B.
        change (inject_Z 400) with 400 in A. change (inject_Z 700) with 700 in B.
        repeat split; lra.
      * apply NumFacts.geb_false in G40. left.
        pose proof (RangeFacts.round1_le 400 (Model.overall all)) as B.
        change (inject_Z 400) with 400 in B.
        repeat split; lra.
Qed.

Lemma severity_and_returned_score_witness :
  (Model.severity (Sample.analysis Sample.scores_just_below_40) = "LOW"%string
   /\ Model.severity_color (Sample.analysis Sample.scores_just_below_40)
      = "#22c55e"%string
   /\ Model.overall_score (Sample.analysis Sample.scores_just_below_40) <= 40)
  \/ (Model.severity (Sample.analysis Sample.scores_just_below_40)
      = "MODERATE"%string
      /\ Model.severity_color (Sample.analysis Sample.scores_just_below_40)
         = "#f59e0b"%string
      /\ 40 <= Model.overall_score (Sample.analysis Sample.scores_just_below_40)
         <= 70)
  \/ (Model.severity (Sample.analysis Sample.scores_just_below_40) = "HIGH"%string
      /\ Model.severity_color (Sample.analysis Sample.scores_just_below_40)
         = "#ef4444"%string
      /\ 70 <= Model.overall_score (Sample.analysis Sample.scores_just_below_40)
         <= 100).
Proof.
  apply (severity_and_returned_score (Sample.ext Sample.scores_just_below_40)
           Sample.request_text Sample.st0
           (Sample.analysis Sample.scores_just_below_40)
           (after Sample.st0 [Classify Sample.request_text true])).
  vm_compute. reflexivity.
Defined.

(** ** model.py: the shape of the chunks *)

Module ChunkShape.
Import Py Aux.
Local Open Scope nat_scope.

Lemma range0_single m size :
  0 < m -> m <= size -> range0 m size = [0].
Proof.
  intros Hm Hs. unfold range0.
  assert (E : (m + size - 1) / size = 1).
  { symmetry. apply (Nat.div_unique (m + size - 1) size 1 (m - 1)); lia. }
  rewrite E. reflexivity.
Qed.

Lemma nth_range0 stop step i :
  i < (stop + step - 1) / step -> nth i (range0 stop step) 0 = i * step.
Proof.
  intro H. unfold range0.
  pose proof (map_nth (fun k => k * step)
                (seq 0 ((stop + step - 1) / step)) 0 i) as E.
  simpl in E. rewrite E, seq_nth by exact H. reflexivity.
Qed.

Lemma slice_length {A} (l : list A) i size :
  List.length (slice l i (i + size)) = Nat.min size (List.length l - i).
Proof.
  unfold slice. replace (i + size - i) with size by lia.
  rewrite length_firstn, length_skipn. reflexivity.
Qed.

Lemma slice_all {A} (l : list A) size :
  List.length l <= size -> slice l 0 size = l.
Proof.
  intro H. unfold slice. simpl skipn. rewrite Nat.sub_0_r.
  apply firstn_all2. exact H.
Qed.

(** A raw chunk is its own words joined by single spaces. *)
Lemma raw_chunk_normal text i j :
  join " " (split (join " " (slice (split text) i j)))
  = join " " (slice (split text) i j).
Proof.
  rewrite ChunkFacts.raw_chunk_split.
  unfold split at 1. rewrite ChunkFacts.chunk_chars.
  unfold join. rewrite PyFacts.map_to_of_chars. reflexivity.
Qed.

(** A text of at most [size] words, at least one, is a single chunk: its
    words joined by single spaces. *)
Lemma chunk_text_small text size :
  split text <> [] -> List.length (split text) <= size ->
  Model._chunk_text text size = [join " " (split text)].
Proof.
  intros Hw Hl.
  assert (Hs : 0 < size).
  { destruct (split text); [congruence | simpl in Hl; lia]. }
  rewrite ChunkFacts.chunk_text_words by assumption.
  unfold raw_chunks. rewrite range0_single; [|destruct (split text); [congruence | simpl; lia] | exact Hl].
  simpl map. rewrite slice_all by exact Hl. reflexivity.
Qed.

End ChunkShape.

(** X6.  For a text with at least one word, [_chunk_text] with size 400
    returns as many chunks as the number of words divided by 400, rounded
    up; every chunk but the last holds exactly 400 words; every chunk is
    its own words joined by single spaces, and chunking a chunk gives that
    chunk alone. *)
Theorem chunk_text_shape (text : string) :
  Py.split text <> [] ->
  let chunks := Model._chunk_text text 400 in
  List.length chunks = ((List.length (Py.split text) + 399) / 400)%nat
  /\ (forall i, (i + 1 < List.length chunks)%nat ->
        List.length (Py.split (nth i chunks EmptyString)) = 400%nat)
  /\ Forall (fun c => c = Py.join " " (Py.split c)
                      /\ Model._chunk_text c 400 = [c]) chunks.
Proof.
  intro Hw. cbv zeta.
  pose proof (AnalysisFacts.chunk_text_length text Hw) as Hlen.
  split; [exact Hlen|].
  assert (Hs : (0 < 400)%nat) by lia.
  rewrite ChunkFacts.chunk_text_words in * by assumption.
  set (n := List.length (Py.split text)) in *.
  split.
  - intros i Hi. rewrite Hlen in Hi.
    unfold Aux.raw_chunks.
    rewrite (nth_indep _ EmptyString
               (Py.join " " (Py.slice (Py.split text) 0 (0 + 400)))).
    2:{ rewrite length_map, AnalysisFacts.length_range0. fold n.
        replace (n + 400 - 1)%nat with (n + 399)%nat by lia. lia. }
    rewrite (map_nth (fun i => Py.join " " (Py.slice (Py.split text) i (i + 400)))).
    fold n. rewrite ChunkShape.nth_range0.
    2:{ replace (n + 400 - 1)%nat with (n + 399)%nat by lia. lia. }
    rewrite ChunkFacts.raw_chunk_split, length_map, ChunkShape.slice_length.
    assert (Hn : List.length (Py.split_chars (Py.to_chars text)) = n).
    { unfold n, Py.split. rewrite length_map. reflexivity. }
    rewrite Hn.
    pose proof (Nat.Div0.mul_div_le (n + 399) 400) as D.
    lia.
  - apply Forall_forall. intros c Hc.
    destruct (ChunkFacts.raw_chunk_words text 400 c Hs Hc) as (_ & Hne & Hle).
    unfold Aux.raw_chunks in Hc. apply in_map_iff in Hc.
    destruct Hc as (i & <- & _).
    assert (E : Py.join " " (Py.slice (Py.split text) i (i + 400))
                = Py.join " "
                    (Py.split (Py.join " " (Py.slice (Py.split text) i (i + 400)))))
      by (symmetry; apply ChunkShape.raw_chunk_normal).
    split; [exact E|].
    rewrite ChunkShape.chunk_text_small by assumption.
    rewrite <- E. reflexivity.
Qed.

Lemma chunk_text_shape_witness :
  let chunks := Model._chunk_text Views.words_801 400 in
  List.length chunks
  = ((List.length (Py.split Views.words_801) + 399) / 400)%nat
  /\ (forall i, (i + 1 < List.length chunks)%nat ->
        List.length (Py.split (nth i chunks EmptyString)) = 400%nat)
  /\ Forall (fun c => c = Py.join " " (Py.split c)
                      /\ Model._chunk_text c 400 = [c]) chunks.
Proof.
  apply (chunk_text_shape Views.words_801).
  vm_compute. discriminate.
Defined.

Example chunk_text_801 :
  map (fun c => List.length (Py.split c)) (Model._chunk_text Views.words_801 400)
  = [400; 400; 1]%nat.
Proof. vm_compute. reflexivity. Qed.

(** ** model.py: the sentence heat map, further *)

Module HeatFacts.
Import Model.
Local Open Scope monad_scope.

(** A loop whose body always returns and whose calls are known. *)
Lemma for_each_after {A B} (f : A -> M B) (calls : A -> list call)
    (P : A -> B -> Prop) :
  (forall x st, exists y, f x st = (Return y, after st (calls x)) /\ P x y) ->
  forall l st, exists ys,
    for_each l f st = (Return ys, after st (flat_map calls l))
    /\ Forall2 P l ys.
Proof.
  intros Hf l. induction l as [|x l IH]; intro st.
  - exists []. simpl. rewrite MFacts.after_nil.
    split; [reflexivity | constructor].
  - destruct (Hf x st) as (y & E1 & Hy).
    destruct (IH (after st (calls x))) as (ys & E2 & Hys).
    exists (y :: ys). split; [|constructor; assumption].
    simpl. unfold bind at 1. rewrite E1.
    unfold bind at 1. rewrite E2.
    rewrite MFacts.after_after. reflexivity.
Qed.

Lemma round3_thousandths x :
  Num.round x 3 * 1000 == inject_Z (Num.round_half_even (x * Num.pow10 3)).
Proof. unfold Num.round. change (Num.pow10 3) with 1000. field. Qed.

Lemma round3_ge (k : Z) x :
  inject_Z k <= x * 1000 -> inject_Z k <= Num.round x 3 * 1000.
Proof.
  intro H. rewrite round3_thousandths. rewrite <- Zle_Qle.
  apply NumFacts.round_half_even_ge. exact H.
Qed.

Lemma round3_le (k : Z) x :
  x * 1000 <= inject_Z k -> Num.round x 3 * 1000 <= inject_Z k.
Proof.
  intro H. rewrite round3_thousandths. rewrite <- Zle_Qle.
  apply NumFacts.round_half_even_le. exact H.
Qed.

(** The score of a classified sentence, from its top score. *)
Lemma scaled_score top_score :
  let s := Num.round (Num.min 1 (top_score * (18 # 10))) 3 in
  s <= 1
  /\ (0 <= top_score -> 0 <= s)
  /\ (3 # 10 < top_score -> 54 # 100 <= s).
Proof.
  cbv zeta.
  set (m := Num.min 1 (top_score * (18 # 10))).
  pose proof (NumFacts.min_le_l 1 (top_score * (18 # 10))) as U. fold m in U.
  split; [|split].
  - pose proof (round3_le 1000 m) as B. change (inject_Z 1000) with 1000 in B.
    lra.
  - intro H.
    assert (L : 0 <= m) by (apply NumFacts.min_glb; lra).
    pose proof (round3_ge 0 m) as A. change (inject_Z 0) with 0 in A. lra.
  - intro H.
    assert (L : 54 # 100 <= m) by (apply NumFacts.min_glb; lra).
    pose proof (round3_ge 540 m) as A. change (inject_Z 540) with 540 in A.
    lra.
Qed.

(** One sentence: what is returned and what is called. *)
Lemma item_run ext sent st :
  Views.unit_scores ext ->
  exists h,
    highlight_item ext sent st = (Return h, after st (Views.sentence_calls sent))
    /\ (text h = sent /\ Views.highlight_sound h).
Proof.
  intro Hu. unfold highlight_item, Views.sentence_calls, Views.highlight_sound.
  destruct (List.length (Py.split sent) <? 4)%nat eqn:Short.
  - eexists. split; [unfold ret; rewrite MFacts.after_nil; reflexivity|].
    simpl. split; [reflexivity|]. split; [lra | discriminate].
  - apply Nat.ltb_ge in Short.
    unfold try_except, bind at 1, classify, external. fold (after st [Classify sent false]).
    destruct (classifier ext sent TACTIC_LABELS false) as [res | e] eqn:C.
    + pose proof (Hu _ _ _ _ C) as Hres.
      unfold bind at 1, index.
      destruct (scores res) as [|top_score ss] eqn:Hs; simpl nth_error.
      * eexists. split; [reflexivity|].
        simpl. split; [reflexivity|]. split; [lra | discriminate].
      * unfold ret at 1. unfold bind at 1.
        destruct (labels res) as [|top_label ls] eqn:Hl; simpl nth_error.
        -- eexists. split; [reflexivity|].
           simpl. split; [reflexivity|]. split; [lra | discriminate].
        -- eexists. split; [reflexivity|].
           simpl. split; [reflexivity|].
           destruct (scaled_score top_score) as (S1 & S0 & S54).
           inversion Hres as [|? ? [H0 _] _]; subst.
           split; [split; [apply S0; exact H0 | exact S1]|].
           intros t Ht.
           destruct (Num.gtb top_score (3 # 10)) eqn:G; [|discriminate].
           apply NumFacts.gtb_true in G.
           split; [exact Short | apply S54; exact G].
    + eexists. split; [reflexivity|].
      simpl. split; [reflexivity|]. split; [lra | discriminate].
Qed.

Lemma sentence_calls_length sent :
  (List.length (Views.sentence_calls sent) <= 1)%nat.
Proof.
  unfold Views.sentence_calls. destruct (_ <? _)%nat; simpl; lia.
Qed.

Lemma flat_map_length_le {A B} (f : A -> list B) l :
  (forall x, (List.length (f x) <= 1)%nat) ->
  (List.length (flat_map f l) <= List.length l)%nat.
Proof.
  intro H. induction l as [|x l IH]; simpl; [lia|].
  rewrite length_app. specialize (H x). lia.
Qed.

End HeatFacts.

(** X7.  When the classifier keeps its scores within [0, 1], every
    highlight that [highlight_sentences] returns has a score within
    [0, 1], and a highlight that carries a tactic belongs to a sentence of
    at least 4 words and has a score of at least 0.54. *)
Theorem highlight_scores ext text st :
  Views.unit_scores ext ->
  exists hs st',
    Model.highlight_sentences ext text st = (Return hs, st')
    /\ Forall Views.highlight_sound hs.
Proof.
  intro Hu. rewrite HighlightFacts.highlight_sentences_unfold.
  destruct (HeatFacts.for_each_after (Model.highlight_item ext)
              Views.sentence_calls
              (fun sent h => Model.text h = sent /\ Views.highlight_sound h)
              (fun sent st0 => HeatFacts.item_run ext sent st0 Hu)
              (firstn 20 (Model.split_sentences (Py.strip text))) st)
    as (hs & E & F).
  exists hs. eexists. split; [exact E|].
  clear E. induction F as [|s h l' hs' [_ Hh] _ IH]; constructor; assumption.
Qed.

Lemma highlight_scores_witness :
  exists hs st',
    Model.highlight_sentences (Sample.ext Sample.scores_third)
      Sample.request_text Sample.st0 = (Return hs, st')
    /\ Forall Views.highlight_sound hs.
Proof.
  apply (highlight_scores (Sample.ext Sample.scores_third) Sample.request_text
           Sample.st0).
  intros sequence candidate_labels multi_label r H.
  inversion H. simpl.
  repeat constructor; unfold Qle; simpl; lia.
Defined.

Module HeatCalls.
Import Model.
Local Open Scope monad_scope.

(** One sentence: at most one call, whatever the classifier does. *)
Lemma item_calls ext sent st :
  exists h,
    highlight_item ext sent st = (Return h, after st (Views.sentence_calls sent))
    /\ text h = sent.
Proof.
  unfold highlight_item, Views.sentence_calls.
  destruct (List.length (Py.split sent) <? 4)%nat eqn:Short.
  - eexists. split; [unfold ret; rewrite MFacts.after_nil; reflexivity|].
    reflexivity.
  - unfold try_except, bind at 1, classify, external.
    fold (after st [Classify sent false]).
    destruct (classifier ext sent TACTIC_LABELS false) as [res | e] eqn:C.
    + unfold bind at 1, index.
      destruct (scores res) as [|top_score ss]; simpl nth_error.
      * eexists. split; reflexivity.
      * unfold ret at 1. unfold bind at 1.
        destruct (labels res) as [|top_label ls]; simpl nth_error;
          eexists; split; reflexivity.
    + eexists. split; reflexivity.
Qed.

Lemma sentence_calls_in sent c :
  In c (Views.sentence_calls sent) ->
  c = Classify sent false /\ (4 <= List.length (Py.split sent))%nat.
Proof.
  unfold Views.sentence_calls.
  destruct (List.length (Py.split sent) <? 4)%nat eqn:Short; [intros []|].
  apply Nat.ltb_ge in Short. intros [<- | []]. auto.
Qed.

End HeatCalls.

(** X8.  For every text and whatever the classifier does,
    [highlight_sentences] returns one highlight for each of the first 20
    sentences and calls only the classifier, in single-label mode, once
    for each of those sentences that has at least 4 words, in order: at
    most 20 calls, and none for a shorter sentence. *)
Theorem highlight_calls_made ext text st :
  exists hs,
    Model.highlight_sentences ext text st
    = (Return hs, after st (Views.highlight_calls text))
    /\ List.length hs
       = List.length (firstn 20 (Model.split_sentences (Py.strip text)))
    /\ (List.length (Views.highlight_calls text) <= 20)%nat
    /\ forall c, In c (Views.highlight_calls text) ->
         exists sent,
           c = Classify sent false
           /\ In sent (firstn 20 (Model.split_sentences (Py.strip text)))
           /\ (4 <= List.length (Py.split sent))%nat.
Proof.
  rewrite HighlightFacts.highlight_sentences_unfold.
  destruct (HeatFacts.for_each_after (Model.highlight_item ext)
              Views.sentence_calls
              (fun sent h => Model.text h = sent)
              (HeatCalls.item_calls ext)
              (firstn 20 (Model.split_sentences (Py.strip text))) st)
    as (hs & E & F).
  exists hs. split; [exact E|]. split; [|split].
  - symmetry. clear E. induction F; simpl; congruence.
  - unfold Views.highlight_calls.
    eapply Nat.le_trans;
      [apply HeatFacts.flat_map_length_le; apply HeatFacts.sentence_calls_length|].
    apply firstn_le_length.
  - intros c Hc. unfold Views.highlight_calls in Hc.
    apply in_flat_map in Hc. destruct Hc as (sent & Hin & Hc).
    apply HeatCalls.sentence_calls_in in Hc. destruct Hc as [-> Hl].
    exists sent. auto.
Qed.

(** ** model.py: the sentence splitter *)

Module SentenceFacts.
Import Model.

Lemma nonspace_app a b :
  Views.nonspace_chars (a ++ b) = Views.nonspace_chars a ++ Views.nonspace_chars b.
Proof. apply filter_app. Qed.

Lemma nonspace_concat (l : list Py.chars) :
  List.concat (map Views.nonspace_chars l) = Views.nonspace_chars (List.concat l).
Proof.
  induction l as [|a l IH]; simpl; [reflexivity|].
  rewrite nonspace_app, IH. reflexivity.
Qed.

(** The pieces hold the characters that are not white space, in order. *)
Lemma pieces_content s : forall gap prev_punct cur,
  Views.nonspace_chars (List.concat (split_sentences_chars gap prev_punct cur s))
  = Views.nonspace_chars (rev cur) ++ Views.nonspace_chars s.
Proof.
  induction s as [|c s IH]; intros gap prev cur.
  - simpl. rewrite app_nil_r. symmetry. apply app_nil_r.
  - simpl split_sentences_chars.
    destruct (Py.isspace c) eqn:Hc.
    + assert (Hd : Views.nonspace_chars (c :: s) = Views.nonspace_chars s).
      { unfold Views.nonspace_chars. simpl. rewrite Hc. reflexivity. }
      rewrite Hd.
      destruct gap; [apply IH|].
      destruct prev.
      * simpl List.concat. rewrite nonspace_app, IH. reflexivity.
      * rewrite IH. simpl rev. rewrite nonspace_app.
        unfold Views.nonspace_chars at 2. simpl. rewrite Hc. simpl.
        rewrite app_nil_r. reflexivity.
    + rewrite IH. simpl rev. rewrite nonspace_app, <- app_assoc.
      unfold Views.nonspace_chars at 2 4. simpl. rewrite Hc. reflexivity.
Qed.

Lemma pieces_nonempty s : forall gap prev_punct cur,
  split_sentences_chars gap prev_punct cur s <> [].
Proof.
  induction s as [|c s IH]; intros gap prev cur; simpl; [discriminate|].
  destruct (Py.isspace c); [|apply IH].
  destruct gap; [apply IH|].
  destruct prev; [discriminate | apply IH].
Qed.

Lemma removelast_cons {A} (a : A) l : l <> [] -> removelast (a :: l) = a :: removelast l.
Proof. destruct l; [congruence | reflexivity]. Qed.

(** Every piece but the last ends with one of the three signs. *)
Lemma pieces_end s : forall gap prev_punct cur,
  (prev_punct = true ->
   match cur with c :: _ => is_sentence_end c = true | [] => False end) ->
  Forall Views.ends_chars
    (removelast (split_sentences_chars gap prev_punct cur s)).
Proof.
  induction s as [|c s IH]; intros gap prev cur Inv.
  - simpl. constructor.
  - simpl split_sentences_chars.
    destruct (Py.isspace c).
    + destruct gap; [apply IH; discriminate|].
      destruct prev.
      * rewrite removelast_cons by apply pieces_nonempty.
        constructor; [|apply IH; discriminate].
        unfold Views.ends_chars. rewrite rev_involutive.
        apply Inv. reflexivity.
      * apply IH. discriminate.
    + apply IH. intro H. exact H.
Qed.

Lemma removelast_map {A B} (f : A -> B) l :
  removelast (map f l) = map f (removelast l).
Proof.
  induction l as [|a l IH]; [reflexivity|].
  destruct l as [|b l]; [reflexivity|].
  change (removelast (map f (a :: b :: l))) with (f a :: removelast (map f (b :: l))).
  rewrite IH. reflexivity.
Qed.

End SentenceFacts.

(** X9.  The sentence splitter loses nothing but white space: the
    characters of the sentences that are not white space are, in order,
    those of the text; it never returns an empty list; and every sentence
    but the last ends with a full stop, an exclamation mark or a question
    mark. *)
Theorem split_sentences_content (s : string) :
  Model.split_sentences s <> []
  /\ List.concat (map Views.nonspace (Model.split_sentences s)) = Views.nonspace s
  /\ Forall Views.ends_sentence (removelast (Model.split_sentences s)).
Proof.
  unfold Model.split_sentences. split; [|split].
  - intro H. apply map_eq_nil in H.
    exact (SentenceFacts.pieces_nonempty _ _ _ _ H).
  - unfold Views.nonspace. rewrite map_map.
    erewrite map_ext.
    2:{ intro a. rewrite PyFacts.to_of_chars. reflexivity. }
    rewrite SentenceFacts.nonspace_concat, SentenceFacts.pieces_content.
    reflexivity.
  - rewrite SentenceFacts.removelast_map. apply Forall_map.
    eapply Forall_impl; [|apply SentenceFacts.pieces_end; discriminate].
    intros a Ha. unfold Views.ends_sentence. rewrite PyFacts.to_of_chars.
    exact Ha.
Qed.

(** ** llm_analyzer.py: the section parser in general *)

Module ParserFacts.
Import LlmAnalyzer Views.

Lemma strip_idempotent s : Py.strip (Py.strip s) = Py.strip s.
Proof.
  unfold Py.strip. rewrite PyFacts.to_of_chars. f_equal.
  apply StripFacts.strip_clean. apply StripFacts.clean_strip.
Qed.

(** Only the trimmed line counts. *)
Lemma parse_line_strip p line : parse_line p (Py.strip line) = parse_line p line.
Proof. unfold parse_line. rewrite strip_idempotent. reflexivity. Qed.

(** A line that is empty once trimmed changes nothing. *)
Lemma parse_line_blank p line :
  Py.truthy (Py.strip line) = false -> parse_line p line = p.
Proof.
  intro H. unfold parse_line.
  destruct (Py.strip line); [|discriminate].
  simpl. destruct (p_current p); reflexivity.
Qed.

Lemma fold_body_of lines : forall p,
  fold_left parse_line (Spec.body_of lines) p = fold_left parse_line lines p.
Proof.
  unfold Spec.body_of.
  induction lines as [|l lines IH]; intro p; [reflexivity|].
  simpl map. simpl filter.
  destruct (Py.truthy (Py.strip l)) eqn:T.
  - simpl fold_left. rewrite parse_line_strip. apply IH.
  - simpl fold_left. rewrite (parse_line_blank p l T). apply IH.
Qed.

(** A section, from any state of the loop. *)
Lemma flush_block (b : Views.block) p :
  Views.block_ok b ->
  flush (fold_left parse_line (Views.block_lines b) p)
  = Dict.set (flush p) (fst (Views.block_entry b)) (snd (Views.block_entry b)).
Proof.
  intros [Hh Hb]. unfold Views.block_lines. simpl fold_left.
  rewrite (ParseFacts.parse_heading _ _ p Hh).
  rewrite (ParseFacts.parse_plain_inside _ _ _ _ Hb).
  unfold flush at 1. simpl.
  rewrite StripFacts.strip_join_body. reflexivity.
Qed.

Lemma flush_blocks (blocks : list Views.block) : forall p,
  Forall Views.block_ok blocks ->
  flush (fold_left parse_line (List.concat (map Views.block_lines blocks)) p)
  = fold_left (fun d e => Dict.set d (fst e) (snd e))
      (map Views.block_entry blocks) (flush p).
Proof.
  induction blocks as [|b blocks IH]; intros p H; [reflexivity|].
  inversion H as [|? ? Hb Hbs]; subst.
  change (List.concat (map Views.block_lines (b :: blocks)))
    with (Views.block_lines b ++ List.concat (map Views.block_lines blocks)).
  rewrite fold_left_app.
  rewrite IH by exact Hbs.
  rewrite flush_block by exact Hb. reflexivity.
Qed.

(** ** Invariants of the loop *)

Lemma keys_set {V} (d : Dict.t V) k v :
  Dict.keys (Dict.set d k v)
  = if in_dec string_dec k (Dict.keys d) then Dict.keys d else Dict.keys d ++ [k].
Proof.
  induction d as [|[k' v'] d IH]; simpl.
  - reflexivity.
  - destruct (String.eqb_spec k k') as [E | NE]; simpl.
    + subst k'. destruct (string_dec k k); [reflexivity | congruence].
    + destruct (string_dec k' k) as [E | NE']; [congruence|].
      rewrite IH.
      destruct (in_dec string_dec k (Dict.keys d)); reflexivity.
Qed.

Lemma good_keys_set {V} (d : Dict.t V) k v :
  In k headings -> good_keys (Dict.keys d) -> good_keys (Dict.keys (Dict.set d k v)).
Proof.
  intros Hk [Hn Hi]. rewrite keys_set.
  destruct (in_dec string_dec k (Dict.keys d)) as [I | NI]; [split; assumption|].
  split.
  - apply NoDup_app; [exact Hn | repeat constructor; intros [] | ].
    intros x Hx [<- | []]. contradiction.
  - intros x Hx. apply in_app_or in Hx.
    destruct Hx as [Hx | [<- | []]]; [apply Hi; exact Hx | exact Hk].
Qed.

Lemma match_heading_in s h : match_heading s = Some h -> In h headings.
Proof. unfold match_heading. intro H. apply find_some in H. apply H. Qed.

Lemma good_flush p : good_parser p -> good_keys (Dict.keys (flush p)).
Proof.
  intros [Hk Hc]. unfold flush.
  destruct (p_current p) as [h|] eqn:E; [|exact Hk].
  apply good_keys_set; [apply Hc; reflexivity | exact Hk].
Qed.

Lemma good_parse_line p line : good_parser p -> good_parser (parse_line p line).
Proof.
  intro H. unfold parse_line.
  destruct (match_heading (Py.strip line)) as [h|] eqn:E.
  - split; simpl.
    + apply good_flush. exact H.
    + intros h' Hh. inversion Hh; subst. eapply match_heading_in. exact E.
  - destruct (p_current p) eqn:C; [|exact H].
    destruct (Py.truthy (Py.strip line)); [|exact H].
    destruct H as [Hk Hc]. split; simpl; [exact Hk|].
    intros h Hh. apply Hc. rewrite C. exact Hh.
Qed.

Lemma good_fold lines : forall p,
  good_parser p -> good_parser (fold_left parse_line lines p).
Proof.
  induction lines as [|l lines IH]; intros p H; [exact H|].
  simpl. apply IH. apply good_parse_line. exact H.
Qed.

End ParserFacts.

(** X10.  When the lines of a reply are some lines that are no heading
    followed by any number of sections (a line recognised as a heading,
    then lines that are no heading), [_parse_sections] returns the dict
    built from the sections in order: each heading with its trimmed
    non-empty body lines joined by single spaces, a heading that occurs
    again keeping its place and taking the later body; with distinct
    headings it is the list of the sections as they come. *)
Theorem parse_sections_blocks text pre blocks :
  Py.splitlines text = pre ++ List.concat (map Views.block_lines blocks) ->
  Forall Spec.plain pre ->
  Forall Views.block_ok blocks ->
  LlmAnalyzer._parse_sections text
  = Dict.of_pairs (map Views.block_entry blocks)
  /\ (NoDup (map Views.block_key blocks) ->
      LlmAnalyzer._parse_sections text = map Views.block_entry blocks).
Proof.
  intros Hl Hpre Hb.
  assert (E : LlmAnalyzer._parse_sections text
              = Dict.of_pairs (map Views.block_entry blocks)).
  { unfold LlmAnalyzer._parse_sections, LlmAnalyzer.parse_lines.
    rewrite Hl, fold_left_app.
    rewrite (ParseFacts.parse_plain_outside pre
               {| LlmAnalyzer.p_sections := [];
                  LlmAnalyzer.p_current := None;
                  LlmAnalyzer.p_buf := [] |} Hpre eq_refl).
    rewrite ParserFacts.flush_blocks by exact Hb. reflexivity. }
  split; [exact E|].
  intro Hn. rewrite E. apply DictFacts.of_pairs_nodup.
  rewrite map_map. exact Hn.
Qed.

Lemma parse_sections_blocks_witness :
  LlmAnalyzer._parse_sections Views.reply_of_blocks
  = Dict.of_pairs (map Views.block_entry Views.reply_blocks)
  /\ (NoDup (map Views.block_key Views.reply_blocks) ->
      LlmAnalyzer._parse_sections Views.reply_of_blocks
      = map Views.block_entry Views.reply_blocks).
Proof.
  apply (parse_sections_blocks Views.reply_of_blocks ["Dear reader,"%string]
           Views.reply_blocks).
  - vm_compute. reflexivity.
  - repeat constructor.
  - repeat constructor.
Defined.

(** The sample reply: the revised summary replaces the first draft and
    keeps the first place. *)
Example parse_reply_of_blocks :
  LlmAnalyzer._parse_sections Views.reply_of_blocks
  = [ ("SUMMARY", "second draft");
      ("VERDICT", "manipulative and urgent") ]%string.
Proof. vm_compute. reflexivity. Qed.

(** X11.  Whatever the text, the keys of the dict that [_parse_sections]
    returns are distinct and are among the 5 fixed headings, so there are
    at most 5 of them. *)
Theorem parse_sections_keys (text : string) :
  NoDup (Dict.keys (LlmAnalyzer._parse_sections text))
  /\ incl (Dict.keys (LlmAnalyzer._parse_sections text)) LlmAnalyzer.headings
  /\ (List.length (LlmAnalyzer._parse_sections text) <= 5)%nat.
Proof.
  assert (G : Views.good_keys (Dict.keys (LlmAnalyzer._parse_sections text))).
  { unfold LlmAnalyzer._parse_sections, LlmAnalyzer.parse_lines.
    apply ParserFacts.good_flush. apply ParserFacts.good_fold.
    split; simpl; [split; [constructor | intros x []] | discriminate]. }
  destruct G as [Hn Hi]. split; [exact Hn|]. split; [exact Hi|].
  rewrite <- (length_map fst). fold (Dict.keys (LlmAnalyzer._parse_sections text)).
  apply (NoDup_incl_length Hn Hi).
Qed.

(** X12.  [_parse_sections] reads only the trimmed non-empty lines: the
    result for a text is the result for those lines, so indentation,
    trailing white space and blank lines make no difference. *)
Theorem parse_sections_layout (text : string) :
  LlmAnalyzer._parse_sections text
  = LlmAnalyzer.parse_lines (Spec.body_of (Py.splitlines text)).
Proof.
  unfold LlmAnalyzer._parse_sections, LlmAnalyzer.parse_lines.
  rewrite ParserFacts.fold_body_of. reflexivity.
Qed.

(** ** llm_analyzer.py: the call of the LLM *)

Module LlmFacts.
Import LlmAnalyzer.

Lemma get_client_run ext st :
  _get_client ext st
  = (Return (Views.client_of ext st),
     {| _client := Views.client_of ext st; trace := trace st |}).
Proof.
  unfold _get_client, Views.client_of.
  destruct (_client st) as [c|] eqn:E.
  - destruct st as [cl tr]. simpl in *. subst. reflexivity.
  - destruct (Py.truthy (ANTHROPIC_API_KEY ext)); simpl.
    + reflexivity.
    + destruct st as [cl tr]. simpl in *. subst. reflexivity.
Qed.

(** With a client, [generate_explanation] returns after one call. *)
Lemma explanation_with_client ext text analysis st key :
  Views.client_of ext st = Some key ->
  exists e,
    generate_explanation ext text analysis st
    = (Return e, Views.after_llm st key (build_prompt text analysis)).
Proof.
  intro Hk. unfold generate_explanation. unfold bind at 1.
  rewrite get_client_run, Hk. cbv zeta.
  unfold try_except, bind, external, index, Views.after_llm. simpl.
  destruct (messages_create ext (build_prompt text analysis)) as [content|e].
  - destruct content as [|t rest]; simpl nth_error; eexists; reflexivity.
  - eexists. reflexivity.
Qed.

End LlmFacts.

(** X13.  When a client is available (a cached one, or a key to build one
    with), [generate_explanation] makes exactly one call of the LLM, with
    the prompt built from the text and the analysis, and keeps the client;
    if the reply has a first block, the result is success=true with that
    block as [full_explanation] and its parsed sections; if the reply
    has no block, or the call raises, the result is success=false with
    the error after "LLM error: " and no section. *)
Theorem explanation_call ext text analysis st key :
  Views.client_of ext st = Some key ->
  exists e,
    LlmAnalyzer.generate_explanation ext text analysis st
    = (Return e, Views.after_llm st key (LlmAnalyzer.build_prompt text analysis))
    /\ (forall t rest,
          messages_create ext (LlmAnalyzer.build_prompt text analysis)
          = Return (t :: rest) ->
          e = {| LlmAnalyzer.success := true;
                 LlmAnalyzer.full_explanation := t;
                 LlmAnalyzer.sections := LlmAnalyzer._parse_sections t |})
    /\ (messages_create ext (LlmAnalyzer.build_prompt text analysis) = Return [] ->
        e = Spec.llm_error (Error "list index out of range"))
    /\ (forall exc,
          messages_create ext (LlmAnalyzer.build_prompt text analysis) = Raise exc ->
          e = Spec.llm_error exc).
Proof.
  intro Hk. unfold LlmAnalyzer.generate_explanation. unfold bind at 1.
  rewrite LlmFacts.get_client_run, Hk. cbv zeta.
  unfold try_except, bind, external, index, Views.after_llm. simpl.
  destruct (messages_create ext (LlmAnalyzer.build_prompt text analysis))
    as [content|e] eqn:Hm.
  - destruct content as [|t rest]; simpl nth_error.
    + eexists. split; [reflexivity|].
      split; [intros; discriminate|]. split; [reflexivity | intros; discriminate].
    + eexists. split; [reflexivity|].
      split; [intros t' rest' E; inversion E; reflexivity|].
      split; intros; discriminate.
  - eexists. split; [reflexivity|].
    split; [intros; discriminate|]. split; [intros; discriminate|].
    intros exc E. inversion E. reflexivity.
Qed.

Lemma explanation_call_witness :
  exists e,
    LlmAnalyzer.generate_explanation (Views.ext_llm [Sample.reply])
      Sample.request_text (Sample.analysis Sample.scores1) Sample.st0
    = (Return e,
       Views.after_llm Sample.st0 "sk-test"
         (LlmAnalyzer.build_prompt Sample.request_text
            (Sample.analysis Sample.scores1)))
    /\ (forall t rest,
          messages_create (Views.ext_llm [Sample.reply])
            (LlmAnalyzer.build_prompt Sample.request_text
               (Sample.analysis Sample.scores1))
          = Return (t :: rest) ->
          e = {| LlmAnalyzer.success := true;
                 LlmAnalyzer.full_explanation := t;
                 LlmAnalyzer.sections := LlmAnalyzer._parse_sections t |})
    /\ (messages_create (Views.ext_llm [Sample.reply])
          (LlmAnalyzer.build_prompt Sample.request_text
             (Sample.analysis Sample.scores1)) = Return [] ->
        e = Spec.llm_error (Error "list index out of range"))
    /\ (forall exc,
          messages_create (Views.ext_llm [Sample.reply])
            (LlmAnalyzer.build_prompt Sample.request_text
               (Sample.analysis Sample.scores1)) = Raise exc ->
          e = Spec.llm_error exc).
Proof.
  apply (explanation_call (Views.ext_llm [Sample.reply]) Sample.request_text
           (Sample.analysis Sample.scores1) Sample.st0 "sk-test"%string).
  reflexivity.
Defined.

(** X14.  The client is built once and kept: after a call of
    [generate_explanation] with a key and no client yet, the client is
    cached, and a later call still goes to the LLM, with that client, in
    an environment where the key has been removed; it does not fall back
    to the guidance message. *)
Theorem client_is_cached ext ext' text analysis text' analysis' st :
  _client st = None ->
  ANTHROPIC_API_KEY ext <> EmptyString ->
  exists e st1,
    LlmAnalyzer.generate_explanation ext text analysis st = (Return e, st1)
    /\ _client st1 = Some (ANTHROPIC_API_KEY ext)
    /\ exists e',
         LlmAnalyzer.generate_explanation ext' text' analysis' st1
         = (Return e',
            Views.after_llm st1 (ANTHROPIC_API_KEY ext)
              (LlmAnalyzer.build_prompt text' analysis')).
Proof.
  intros Hc Hk.
  assert (K : Views.client_of ext st = Some (ANTHROPIC_API_KEY ext)).
  { unfold Views.client_of. rewrite Hc.
    destruct (ANTHROPIC_API_KEY ext); [congruence | reflexivity]. }
  destruct (LlmFacts.explanation_with_client ext text analysis st _ K)
    as (e & E).
  exists e. eexists. split; [exact E|]. split; [reflexivity|].
  destruct (LlmFacts.explanation_with_client ext' text' analysis'
              (Views.after_llm st (ANTHROPIC_API_KEY ext)
                 (LlmAnalyzer.build_prompt text analysis))
              (ANTHROPIC_API_KEY ext) eq_refl) as (e' & E').
  exists e'. exact E'.
Qed.

Lemma client_is_cached_witness :
  exists e st1,
    LlmAnalyzer.generate_explanation (Views.ext_llm [Sample.reply])
      Sample.request_text (Sample.analysis Sample.scores1) Sample.st0
    = (Return e, st1)
    /\ _client st1 = Some (ANTHROPIC_API_KEY (Views.ext_llm [Sample.reply]))
    /\ exists e',
         LlmAnalyzer.generate_explanation (Sample.ext Sample.scores1)
           "Only three left in stock!" Model._empty_result st1
         = (Return e',
            Views.after_llm st1 (ANTHROPIC_API_KEY (Views.ext_llm [Sample.reply]))
              (LlmAnalyzer.build_prompt "Only three left in stock!"
                 Model._empty_result)).
Proof.
  apply (client_is_cached (Views.ext_llm [Sample.reply])
           (Sample.ext Sample.scores1) Sample.request_text
           (Sample.analysis Sample.scores1) "Only three left in stock!"%string
           Model._empty_result Sample.st0).
  - reflexivity.
  - discriminate.
Defined.

(** ** multimodal.py: successful analyses and the calls made *)

Module VisionFacts.
Import Multimodal.

Lemma percent_range p : 0 <= p -> p <= 1 -> 0 <= Num.round (p * 100) 1 <= 100.
Proof. intros L U. apply NumFacts.round1_range; lra. Qed.

(** Two percentages of parts that sum to one sum to 100, within 0.1. *)
Lemma percent_pair p q :
  p + q == 1 ->
  Qabs (Num.round (p * 100) 1 + Num.round (q * 100) 1 - 100) <= 1 # 10.
Proof.
  intro H.
  pose proof (NumFacts.round1_near (p * 100)) as [A B].
  pose proof (NumFacts.round1_near (q * 100)) as [C D].
  apply Qabs_Qle_condition. split; lra.
Qed.

Lemma caption_run ext url caption st image p0 p1 rest :
  clip_loads ext = true -> url <> EmptyString ->
  http_get_image ext url = Return image ->
  clip_probs ext (Views.caption_texts caption) image = Return (p0 :: p1 :: rest) ->
  analyze_image_caption ext url caption st
  = (Return (CaptionMatch (Num.round (p0 * 100) 1) (Num.round (p1 * 100) 1)
               (if Num.gtb (Num.round (p1 * 100) 1) 60 then "HIGH MISMATCH"
                else if Num.gtb (Num.round (p1 * 100) 1) 35 then "MODERATE"
                else "ALIGNED")%string),
     after st [HttpGet url; ClipInference (Views.caption_texts caption)]).
Proof.
  intros Hl Hu Hf Hp. unfold analyze_image_caption.
  rewrite (DegradedFacts.gate_open ext url Hl Hu).
  unfold try_except, bind, _fetch_image, clip, external, index.
  rewrite Hf. fold (Views.caption_texts caption). rewrite Hp. simpl.
  unfold after. simpl. rewrite <- app_assoc. reflexivity.
Qed.


End VisionFacts.

(** X15.  In caption mode, when the vision model is loaded, the URL is
    not empty, the image is fetched and the model returns at least two
    probabilities [p0], [p1] that are not negative and sum to 1,
    [analyze_image_caption] returns available=true after exactly one
    fetch and one inference; the two percentages lie in [0, 100] and sum
    to 100 within 0.1; the verdict is HIGH MISMATCH above 60, MODERATE
    above 35 and ALIGNED up to 35. *)
Theorem caption_match_result ext url caption st image p0 p1 rest :
  clip_loads ext = true -> url <> EmptyString ->
  http_get_image ext url = Return image ->
  clip_probs ext (Views.caption_texts caption) image = Return (p0 :: p1 :: rest) ->
  0 <= p0 -> 0 <= p1 -> p0 + p1 == 1 ->
  exists m mm verdict,
    Multimodal.analyze_image_caption ext url caption st
    = (Return (Multimodal.CaptionMatch m mm verdict),
       after st [HttpGet url; ClipInference (Views.caption_texts caption)])
    /\ m = Num.round (p0 * 100) 1 /\ mm = Num.round (p1 * 100) 1
    /\ 0 <= m <= 100 /\ 0 <= mm <= 100
    /\ Qabs (m + mm - 100) <= 1 # 10
    /\ Views.verdict_of mm verdict.
Proof.
  intros Hl Hu Hf Hp H0 H1 Hs.
  rewrite (VisionFacts.caption_run ext url caption st image p0 p1 rest Hl Hu Hf Hp).
  eexists. eexists. eexists. split; [reflexivity|].
  split; [reflexivity|]. split; [reflexivity|].
  split; [apply VisionFacts.percent_range; lra|].
  split; [apply VisionFacts.percent_range; lra|].
  split; [apply VisionFacts.percent_pair; exact Hs|].
  unfold Views.verdict_of.
  destruct (Num.gtb (Num.round (p1 * 100) 1) 60) eqn:G60.
  - apply NumFacts.gtb_true in G60. left. auto.
  - apply NumFacts.gtb_false in G60.
    destruct (Num.gtb (Num.round (p1 * 100) 1) 35) eqn:G35.
    + apply NumFacts.gtb_true in G35. right. left. auto.
    + apply NumFacts.gtb_false in G35. right. right. auto.
Qed.

Lemma caption_match_result_witness :
  exists m mm verdict,
    Multimodal.analyze_image_caption
      (Views.ext_vision [3 # 10; 7 # 10] []) "http://example.org/a.png"
      "A calm lake" Sample.st0
    = (Return (Multimodal.CaptionMatch m mm verdict),
       after Sample.st0
         [HttpGet "http://example.org/a.png";
          ClipInference (Views.caption_texts "A calm lake")])
    /\ m = Num.round ((3 # 10) * 100) 1 /\ mm = Num.round ((7 # 10) * 100) 1
    /\ 0 <= m <= 100 /\ 0 <= mm <= 100
    /\ Qabs (m + mm - 100) <= 1 # 10
    /\ Views.verdict_of mm verdict.
Proof.
  apply (caption_match_result (Views.ext_vision [3 # 10; 7 # 10] [])
           "http://example.org/a.png"%string "A calm lake"%string Sample.st0
           "PNG"%string (3 # 10) (7 # 10) []).
  - reflexivity.
  - discriminate.
  - reflexivity.
  - reflexivity.
  - unfold Qle. simpl. lia.
  - unfold Qle. simpl. lia.
  - reflexivity.
Defined.



Module VisionCalls.
Import Multimodal.

Lemma caption_fetch_fails ext url caption st exc :
  clip_loads ext = true -> url <> EmptyString ->
  http_get_image ext url = Raise exc ->
  analyze_image_caption ext url caption st
  = (Return (Unavailable (Some (str_exn exc))), after st [HttpGet url]).
Proof.
  intros Hl Hu Hf. unfold analyze_image_caption.
  rewrite (DegradedFacts.gate_open ext url Hl Hu).
  unfold try_except, bind, _fetch_image, external. rewrite Hf. reflexivity.
Qed.

Lemma clickbait_fetch_fails ext url st exc :
  clip_loads ext = true -> url <> EmptyString ->
  http_get_image ext url = Raise exc ->
  analyze_clickbait ext url st
  = (Return (Unavailable (Some (str_exn exc))), after st [HttpGet url]).
Proof.
  intros Hl Hu Hf. unfold analyze_clickbait.
  rewrite (DegradedFacts.gate_open ext url Hl Hu).
  unfold try_except, bind, _fetch_image, external. rewrite Hf. reflexivity.
Qed.

Lemma caption_fetched ext url caption st image :
  clip_loads ext = true -> url <> EmptyString ->
  http_get_image ext url = Return image ->
  exists r,
    analyze_image_caption ext url caption st
    = (Return r, after st [HttpGet url; ClipInference (Views.caption_texts caption)]).
Proof.
  intros Hl Hu Hf. unfold analyze_image_caption.
  rewrite (DegradedFacts.gate_open ext url Hl Hu).
  unfold try_except, bind at 1, _fetch_image, external. rewrite Hf.
  unfold bind at 1, clip, external. fold (Views.caption_texts caption).
  assert (S : forall tr, (tr ++ [HttpGet url]) ++ [ClipInference (Views.caption_texts caption)]
                         = tr ++ [HttpGet url; ClipInference (Views.caption_texts caption)])
    by (intro tr; rewrite <- app_assoc; reflexivity).
  unfold after. simpl. rewrite S.
  destruct (clip_probs ext (Views.caption_texts caption) image) as [probs|e].
  - unfold bind at 1, index.
    destruct probs as [|p0 probs]; simpl nth_error.
    + eexists. reflexivity.
    + unfold ret at 1. unfold bind at 1.
      destruct probs as [|p1 probs]; simpl nth_error; eexists; reflexivity.
  - eexists. reflexivity.
Qed.

Lemma clickbait_fetched ext url st image :
  clip_loads ext = true -> url <> EmptyString ->
  http_get_image ext url = Return image ->
  exists r,
    analyze_clickbait ext url st
    = (Return r, after st [HttpGet url; ClipInference clickbait_labels]).
Proof.
  intros Hl Hu Hf. unfold analyze_clickbait.
  rewrite (DegradedFacts.gate_open ext url Hl Hu).
  unfold try_except, bind at 1, _fetch_image, external. rewrite Hf.
  unfold bind at 1, clip, external.
  assert (S : forall tr, (tr ++ [HttpGet url]) ++ [ClipInference clickbait_labels]
                         = tr ++ [HttpGet url; ClipInference clickbait_labels])
    by (intro tr; rewrite <- app_assoc; reflexivity).
  unfold after. simpl. rewrite S.
  destruct (clip_probs ext clickbait_labels image) as [probs|e];
    eexists; reflexivity.
Qed.

End VisionCalls.

(** X17.  With the vision model loaded and a URL that is not empty, both
    analyzers first fetch the image; when the fetch fails they return
    available=false with the error and the vision model is not invoked;
    when the image is fetched they make exactly one inference, on the two
    caption texts or on the four clickbait prompts, and return whatever
    the inference does. *)
Theorem vision_calls ext url caption st :
  clip_loads ext = true -> url <> EmptyString ->
  (forall exc,
      http_get_image ext url = Raise exc ->
      Multimodal.analyze_image_caption ext url caption st
      = (Return (Multimodal.Unavailable (Some (str_exn exc))),
         after st [HttpGet url])
      /\ Multimodal.analyze_clickbait ext url st
         = (Return (Multimodal.Unavailable (Some (str_exn exc))),
            after st [HttpGet url]))
  /\ (forall image,
        http_get_image ext url = Return image ->
        (exists r,
            Multimodal.analyze_image_caption ext url caption st
            = (Return r,
               after st [HttpGet url;
                         ClipInference (Views.caption_texts caption)]))
        /\ (exists r,
              Multimodal.analyze_clickbait ext url st
              = (Return r,
                 after st [HttpGet url;
                           ClipInference Multimodal.clickbait_labels]))).
Proof.
  intros Hl Hu. split.
  - intros exc Hf. split.
    + apply VisionCalls.caption_fetch_fails; assumption.
    + apply VisionCalls.clickbait_fetch_fails; assumption.
  - intros image Hf. split.
    + apply (VisionCalls.caption_fetched ext url caption st image); assumption.
    + apply (VisionCalls.clickbait_fetched ext url st image); assumption.
Qed.

Lemma vision_calls_witness :
  Multimodal.analyze_image_caption (Sample.ext Sample.scores1)
    "http://example.org/a.png" "A calm lake" Sample.st0
  = (Return (Multimodal.Unavailable (Some "404 Client Error"%string)),
     after Sample.st0 [HttpGet "http://example.org/a.png"])
  /\ Multimodal.analyze_clickbait (Sample.ext Sample.scores1)
       "http://example.org/a.png" Sample.st0
     = (Return (Multimodal.Unavailable (Some "404 Client Error"%string)),
        after Sample.st0 [HttpGet "http://example.org/a.png"]).
Proof.
  destruct (vision_calls (Sample.ext Sample.scores1)
              "http://example.org/a.png"%string "A calm lake"%string Sample.st0)
    as [F _].
  - reflexivity.
  - discriminate.
  - apply (F (Error "404 Client Error")). reflexivity.
Defined.

(** ** report_gen.py: what the document holds *)

Module StoryFacts.
Import ReportGen.

(** The document is its frame with the explanation part put in. *)
Lemma story_in ext text analysis explanation url f :
  In f (generate_report ext text analysis explanation url)
  <-> In f (Views.frame ext text analysis url)
      \/ In f (explanation_flowables explanation).
Proof.
  unfold Views.frame, generate_report. cbv zeta.
  change (explanation_flowables Spec.guidance) with (@nil flowable).
  rewrite !in_app_iff. change (In f (@nil flowable)) with False. tauto.
Qed.

(** The paragraphs of the explanation part and their styles. *)
Lemma explanation_in explanation f :
  In f (explanation_flowables explanation) <->
  LlmAnalyzer.success explanation = true
  /\ (f = Paragraph "AI Analysis (Claude)" Views.heading_sty
      \/ (exists h c,
            In (h, c) (LlmAnalyzer.sections explanation)
            /\ Py.truthy c = true
            /\ (f = Paragraph h (Views.section_sty h)
                \/ f = Paragraph c Views.body_sty))
      \/ (LlmAnalyzer.sections explanation = []
          /\ Py.truthy (LlmAnalyzer.full_explanation explanation) = true
          /\ f = Paragraph (LlmAnalyzer.full_explanation explanation) Views.body_sty)
      \/ f = Spacer).
Proof.
  unfold explanation_flowables. cbv zeta.
  destruct (LlmAnalyzer.success explanation); [|simpl; intuition discriminate].
  rewrite !in_app_iff, in_flat_map. simpl In at 1. simpl In at 3.
  split.
  - intros [[H | []] | [(hc & Hin & Hf) | [H | [H | []]]]].
    + split; [reflexivity|]. left. symmetry. exact H.
    + split; [reflexivity|]. right. left.
      destruct hc as [h c]. simpl in Hf.
      destruct (Py.truthy c) eqn:T; [|contradiction].
      exists h, c. split; [exact Hin|]. split; [exact T|].
      destruct Hf as [Hf | [Hf | []]]; [left | right]; symmetry; exact Hf.
    + split; [reflexivity|]. right. right. left.
      destruct (LlmAnalyzer.sections explanation); [|contradiction].
      destruct (Py.truthy (LlmAnalyzer.full_explanation explanation)); [|contradiction].
      destruct H as [H | []]. auto.
    + split; [reflexivity|]. right. right. right. symmetry. exact H.
  - intros [_ [H | [(h & c & Hin & T & Hf) | [(Hs & T & Hf) | H]]]].
    + left. left. symmetry. exact H.
    + right. left. exists (h, c). split; [exact Hin|].
      simpl. rewrite T. destruct Hf as [-> | ->]; simpl; auto.
    + right. right. left. rewrite Hs, T. left. symmetry. exact Hf.
    + right. right. right. left. symmetry. exact H.
Qed.

(** The frame has no paragraph in a style of the explanation part. *)
Lemma frame_styles ext text analysis url t sty :
  In (Paragraph t sty) (Views.frame ext text analysis url) ->
  In (sty_name sty) ["H"; "Sub"; "SH"; "SH3"; "exc"; "url"; "foot"]%string.
Proof.
  unfold Views.frame, generate_report. cbv zeta.
  change (explanation_flowables Spec.guidance) with (@nil flowable).
  rewrite !in_app_iff.
  destruct (Py.truthy text), (Py.truthy url); simpl;
    intros H;
    repeat match goal with
           | H : _ \/ _ |- _ => destruct H as [H | H]
           | H : False |- _ => contradiction
           | H : Paragraph _ _ = Paragraph _ _ |- _ => inversion H; subst; clear H
           | H : _ = Paragraph _ _ |- _ => discriminate H
           end; simpl; tauto.
Qed.

(** The excerpt and the source line of the frame. *)
Lemma frame_excerpt ext text analysis url t :
  In (Paragraph t Views.excerpt_sty) (Views.frame ext text analysis url)
  <-> Py.truthy text = true
      /\ t = (Py.prefix 800 text
              ++ (if (800 <? Py.len text)%nat then "…" else EmptyString))%string.
Proof.
  unfold Views.frame, generate_report. cbv zeta.
  change (explanation_flowables Spec.guidance) with (@nil flowable).
  rewrite !in_app_iff.
  destruct (Py.truthy text), (Py.truthy url); simpl; split;
    try (intros [_ ->]; tauto); try (intros [H _]; discriminate H);
    intros H;
    repeat match goal with
           | H : _ \/ _ |- _ => destruct H as [H | H]
           | H : False |- _ => contradiction
           | H : _ = Paragraph _ Views.excerpt_sty |- _ =>
               first [discriminate H | inversion H; subst; clear H]
           end; auto.
Qed.

Lemma frame_source ext text analysis url :
  In (Paragraph ("Source: " ++ url)%string Views.url_sty)
     (Views.frame ext text analysis url)
  <-> Py.truthy url = true.
Proof.
  unfold Views.frame, generate_report. cbv zeta.
  change (explanation_flowables Spec.guidance) with (@nil flowable).
  rewrite !in_app_iff.
  destruct (Py.truthy text), (Py.truthy url); simpl; split;
    try tauto; try (intro H; discriminate H);
    intros H;
    repeat match goal with
           | H : _ \/ _ |- _ => destruct H as [H | H]
           | H : False |- _ => contradiction
           | H : _ = Paragraph _ Views.url_sty |- _ => discriminate H
           end.
Qed.

Lemma length_to_chars s : List.length (Py.to_chars s) = String.length s.
Proof. induction s; simpl; congruence. Qed.

Lemma length_of_chars l : String.length (Py.of_chars l) = List.length l.
Proof. induction l; simpl; congruence. Qed.

Lemma prefix_short n s : (Py.len s <= n)%nat -> Py.prefix n s = s.
Proof.
  intro H. unfold Py.prefix, Py.len in *.
  rewrite firstn_all2 by (rewrite length_to_chars; exact H).
  apply PyFacts.of_to_chars.
Qed.

Lemma prefix_long n s : (n <= Py.len s)%nat -> Py.len (Py.prefix n s) = n.
Proof.
  intro H. unfold Py.prefix, Py.len in *.
  rewrite length_of_chars, length_firstn, length_to_chars. lia.
Qed.

Lemma append_empty_r s : (s ++ EmptyString)%string = s.
Proof. induction s; simpl; congruence. Qed.

End StoryFacts.

Module StoryParts.
Import ReportGen.

Lemma tables_explanation explanation :
  tables (explanation_flowables explanation) = [].
Proof.
  unfold explanation_flowables, tables. cbv zeta.
  destruct (LlmAnalyzer.success explanation); [|reflexivity].
  rewrite !flat_map_app.
  assert (E : forall l : list (string * string),
             flat_map (fun f => match f with Table d => [d] | _ => [] end)
               (flat_map
                  (fun hc =>
                     if Py.truthy (snd hc)
                     then [Paragraph (fst hc) (_sty ("sec_" ++ fst hc)%string C_ACCENT);
                           Paragraph (snd hc) (_sty "body" "#374151")]
                     else [])
                  l) = []).
  { induction l as [|hc l IH]; [reflexivity|].
    simpl. destruct (Py.truthy (snd hc)); simpl; exact IH. }
  unfold Dict.items. rewrite E.
  destruct (LlmAnalyzer.sections explanation); [|reflexivity].
  destruct (Py.truthy (LlmAnalyzer.full_explanation explanation)); reflexivity.
Qed.

(** The two tables of the document, whatever the explanation is. *)
Lemma tables_of_report ext text analysis explanation url :
  tables (generate_report ext text analysis explanation url)
  = tables (Views.frame ext text analysis url).
Proof.
  unfold Views.frame, generate_report. cbv zeta.
  pose proof (tables_explanation explanation) as E.
  pose proof (tables_explanation Spec.guidance) as E'.
  unfold tables in *. rewrite !flat_map_app, E, E'. reflexivity.
Qed.

(** The colour of the overview is the colour of the analysis. *)
Lemma severity_colour ext text st a st' :
  Model.analyze_text ext text st = (Return a, st') ->
  (if String.eqb (Model.severity a) "HIGH" then C_RED
   else if String.eqb (Model.severity a) "MODERATE" then C_AMBER
   else C_GREEN) = Model.severity_color a.
Proof.
  intro H. apply ModelFacts.analyze_text_inv in H.
  destruct H as [[_ ->] | (results & _ & _ & ->)]; [reflexivity|].
  unfold Model.result_of. simpl Model.severity. simpl Model.severity_color.
  unfold Model.severity_of.
  destruct (Num.geb _ 70); [reflexivity|].
  destruct (Num.geb _ 40); reflexivity.
Qed.

Lemma frame_tables ext text analysis url :
  tables (Views.frame ext text analysis url)
  = [ [ [ Para "MANIPULATION SCORE" (_sty "th" C_GRAY);
          Para "SEVERITY" (_sty "th" C_GRAY);
          Para "TACTICS FOUND" (_sty "th" C_GRAY) ];
        [ Para (Num.str_1f (Model.overall_score analysis) ++ "/100")%string
            (_sty "tv"
               (if String.eqb (Model.severity analysis) "HIGH" then C_RED
                else if String.eqb (Model.severity analysis) "MODERATE" then C_AMBER
                else C_GREEN));
          Para (Model.severity analysis)
            (_sty "tv"
               (if String.eqb (Model.severity analysis) "HIGH" then C_RED
                else if String.eqb (Model.severity analysis) "MODERATE" then C_AMBER
                else C_GREEN));
          Para (Num.str_nat (N.of_nat (List.length (Model.top_tactics analysis))))
            (_sty "tv2" C_ACCENT) ] ];
      tactic_table (Model.tactic_scores analysis) ].
Proof.
  unfold Views.frame, generate_report. cbv zeta.
  change (explanation_flowables Spec.guidance) with (@nil flowable).
  unfold tables. rewrite !flat_map_app.
  destruct (Py.truthy text), (Py.truthy url); reflexivity.
Qed.

Lemma section_sty_inj h h' : Views.section_sty h = Views.section_sty h' -> h = h'.
Proof. unfold Views.section_sty, _sty. intro H. inversion H. reflexivity. Qed.

End StoryParts.

(** X18.  The explanation part of the report.  The heading
    "AI Analysis (Claude)" is in the document exactly when the explanation
    succeeded.  A paragraph in the body style is in the document exactly
    when the explanation succeeded and the paragraph is the non-empty
    content of one of its sections, or, when there is no section, its
    non-empty full text.  A paragraph in the style of section [h] is in the
    document exactly when the explanation succeeded and the paragraph is
    the heading [h] of a section with non-empty content.  So a failed
    explanation leaves no trace in the report, and an empty section is
    skipped. *)
Theorem report_explanation_part ext text analysis explanation url :
  (In (ReportGen.Paragraph "AI Analysis (Claude)" Views.heading_sty)
      (ReportGen.generate_report ext text analysis explanation url)
   <-> LlmAnalyzer.success explanation = true)
  /\ (forall t,
        In (ReportGen.Paragraph t Views.body_sty)
           (ReportGen.generate_report ext text analysis explanation url)
        <-> LlmAnalyzer.success explanation = true
            /\ ((exists h, In (h, t) (LlmAnalyzer.sections explanation)
                           /\ Py.truthy t = true)
                \/ (LlmAnalyzer.sections explanation = []
                    /\ Py.truthy (LlmAnalyzer.full_explanation explanation) = true
                    /\ t = LlmAnalyzer.full_explanation explanation)))
  /\ (forall h t,
        In (ReportGen.Paragraph t (Views.section_sty h))
           (ReportGen.generate_report ext text analysis explanation url)
        <-> LlmAnalyzer.success explanation = true
            /\ t = h
            /\ exists c, In (h, c) (LlmAnalyzer.sections explanation)
                         /\ Py.truthy c = true).
Proof.
  split; [|split].
  - rewrite StoryFacts.story_in, StoryFacts.explanation_in. split.
    + intros [H | [H _]]; [|exact H].
      apply StoryFacts.frame_styles in H. simpl in H.
      intuition discriminate.
    + intro H. right. split; [exact H|]. left. reflexivity.
  - intro t. rewrite StoryFacts.story_in, StoryFacts.explanation_in. split.
    + intros [H | [Hs H]].
      { apply StoryFacts.frame_styles in H. simpl in H. intuition discriminate. }
      split; [exact Hs|].
      destruct H as [H | [(h & c & Hin & T & [H | H]) | [(Hn & T & H) | H]]];
        try discriminate H.
      * inversion H; subst. left. exists h. split; assumption.
      * inversion H; subst. right. repeat split; assumption.
    + intros [Hs [(h & Hin & T) | (Hn & T & ->)]]; right; (split; [exact Hs|]).
      * right. left. exists h, t. repeat split; try assumption.
        right. reflexivity.
      * right. right. left. repeat split; assumption.
  - intros h t. rewrite StoryFacts.story_in, StoryFacts.explanation_in. split.
    + intros [H | [Hs H]].
      { apply StoryFacts.frame_styles in H. simpl in H. intuition discriminate. }
      split; [exact Hs|].
      destruct H as [H | [(h' & c & Hin & T & [H | H]) | [(Hn & T & H) | H]]];
        try discriminate H.
      inversion H; subst. split; [reflexivity|]. exists c. split; assumption.
    + intros [Hs [-> (c & Hin & T)]]. right. split; [exact Hs|].
      right. left. exists h, c. repeat split; try assumption.
      left. reflexivity.
Qed.

Example report_explanation_sample :
  ReportGen.explanation_flowables Views.explained
  = [ ReportGen.Paragraph "AI Analysis (Claude)" Views.heading_sty;
      ReportGen.Paragraph "SUMMARY" (Views.section_sty "SUMMARY");
      ReportGen.Paragraph "Pressure to act at once." Views.body_sty;
      ReportGen.Spacer ].
Proof. reflexivity. Qed.

(** X19.  The excerpt and the source line of the report, whatever the
    analysis and the explanation are.  A paragraph in the excerpt style is
    in the document exactly when the text is not empty, and it is then the
    first 800 characters of the text, followed by an ellipsis when the
    text is longer than that; a text of at most 800 characters is shown
    unchanged.  The line "Source: " with the URL is in the document
    exactly when the URL is not empty. *)
Theorem report_excerpt_and_source ext text analysis explanation url :
  (forall t,
     In (ReportGen.Paragraph t Views.excerpt_sty)
        (ReportGen.generate_report ext text analysis explanation url)
     <-> text <> EmptyString
         /\ t = ((if (800 <? Py.len text)%nat
                  then Py.prefix 800 text ++ "…" else text))%string)
  /\ ((800 < Py.len text)%nat -> Py.len (Py.prefix 800 text) = 800%nat)
  /\ (In (ReportGen.Paragraph ("Source: " ++ url)%string Views.url_sty)
         (ReportGen.generate_report ext text analysis explanation url)
      <-> url <> EmptyString).
Proof.
  assert (T : forall s, Py.truthy s = true <-> s <> EmptyString).
  { intro s. destruct s; simpl; split; intro H; congruence. }
  assert (N : forall t sty,
             In (ReportGen.sty_name sty) ["exc"; "url"]%string ->
             ~ In (ReportGen.Paragraph t sty)
                  (ReportGen.explanation_flowables explanation)).
  { intros t sty Hn H. apply (proj1 (StoryFacts.explanation_in _ _)) in H.
    destruct H as [_ [H | [(h & c & _ & _ & [H | H]) | [(_ & _ & H) | H]]]];
      try discriminate H; inversion H; subst; simpl in Hn;
      intuition discriminate. }
  split; [|split].
  - intro t. rewrite StoryFacts.story_in, StoryFacts.frame_excerpt, T. split.
    + intros [[Ht ->] | H].
      * split; [exact Ht|].
        destruct (800 <? Py.len text)%nat eqn:L; [reflexivity|].
        apply Nat.ltb_ge in L. rewrite (StoryFacts.prefix_short 800 text L).
        apply StoryFacts.append_empty_r.
      * exfalso. apply (N t Views.excerpt_sty); [simpl; tauto | exact H].
    + intros [Ht ->]. left. split; [exact Ht|].
      destruct (800 <? Py.len text)%nat eqn:L; [reflexivity|].
      apply Nat.ltb_ge in L. rewrite (StoryFacts.prefix_short 800 text L).
      symmetry. apply StoryFacts.append_empty_r.
  - intro L. apply StoryFacts.prefix_long. lia.
  - rewrite StoryFacts.story_in, StoryFacts.frame_source, T. split.
    + intros [H | H]; [exact H|].
      exfalso. apply (N ("Source: " ++ url)%string Views.url_sty); [simpl; tauto | exact H].
    + intro H. left. exact H.
Qed.

(** X20.  The two tables of the report for an analysis that
    [analyze_text] returned, whatever text, explanation and URL the
    report is made with: the overview table, whose score and severity
    cells are in the severity colour of the analysis and whose count of
    tactics is at most 3, and the tactic table, which has its header row
    and one row for each of the 6 tactics in the order of the label set. *)
Theorem report_tables ext text st a st' shown explanation url :
  Model.analyze_text ext text st = (Return a, st') ->
  ReportGen.tables (ReportGen.generate_report ext shown a explanation url)
  = [Views.overview_rows a; ReportGen.tactic_table (Model.tactic_scores a)]
  /\ (List.length (Model.top_tactics a) <= 3)%nat
  /\ map (hd (ReportGen.Str EmptyString))
         (ReportGen.tactic_table (Model.tactic_scores a))
     = map ReportGen.Str ("Tactic"%string :: Model.TACTIC_LABELS).
Proof.
  intro H. split; [|split].
  - rewrite StoryParts.tables_of_report, StoryParts.frame_tables.
    rewrite (StoryParts.severity_colour ext text st a st' H). reflexivity.
  - apply ModelFacts.analyze_text_inv in H.
    destruct H as [[_ ->] | (results & _ & _ & ->)]; [simpl; lia|].
    rewrite ModelFacts.top_tactics_result_of. apply firstn_le_length.
  - apply ModelFacts.analyze_text_inv in H.
    destruct H as [[_ ->] | (results & _ & _ & ->)]; [reflexivity|].
    destruct (ReportFacts.tactic_rows text (Model._chunk_text text 400)
                (map Model.scores_dict results)) as (rows & -> & _ & E).
    simpl map at 1. rewrite E. reflexivity.
Qed.

Lemma report_tables_witness :
  ReportGen.tables
    (ReportGen.generate_report (Sample.ext Sample.scores1) Sample.request_text
       (Sample.analysis Sample.scores1) Views.explained EmptyString)
  = [Views.overview_rows (Sample.analysis Sample.scores1);
     ReportGen.tactic_table (Model.tactic_scores (Sample.analysis Sample.scores1))]
  /\ (List.length (Model.top_tactics (Sample.analysis Sample.scores1)) <= 3)%nat
  /\ map (hd (ReportGen.Str EmptyString))
         (ReportGen.tactic_table (Model.tactic_scores (Sample.analysis Sample.scores1)))
     = map ReportGen.Str ("Tactic"%string :: Model.TACTIC_LABELS).
Proof.
  apply (report_tables (Sample.ext Sample.scores1) Sample.request_text Sample.st0
           (Sample.analysis Sample.scores1)
           (after Sample.st0 [Classify Sample.request_text true])
           Sample.request_text Views.explained EmptyString).
  vm_compute. reflexivity.
Defined.

(** ** app.py: the routes *)

Module RouteFacts.
Import App.
Local Open Scope monad_scope.
Local Open Scope nat_scope.

Lemma bind_run {A B} (m : M A) (k : A -> M B) st a st' :
  m st = (Return a, st') -> bind m k st = k a st'.
Proof. intro E. unfold bind. rewrite E. reflexivity. Qed.

Lemma bind_fail {A B} (m : M A) (k : A -> M B) st e st' :
  m st = (Raise e, st') -> bind m k st = (Raise e, st').
Proof. intro E. unfold bind. rewrite E. reflexivity. Qed.

(** The three optional steps of [/analyze] return whatever the
    classifier, the LLM, the image host and the vision model do. *)
Lemma highlights_step ext (flag : bool) text st :
  exists hs st',
    (if flag then Model.highlight_sentences ext text else ret []) st
    = (Return hs, st')
    /\ (flag = false -> hs = [] /\ st' = st).
Proof.
  destruct flag.
  - rewrite HighlightFacts.highlight_sentences_unfold.
    destruct (HighlightFacts.for_each_total (Model.highlight_item ext)
                (fun sent h => Model.text h = sent /\ Spec.highlight_for ext 3 h)
                (HighlightFacts.item_total ext)
                (firstn 20 (Model.split_sentences (Py.strip text))) st)
      as (hs & st' & E & _).
    exists hs, st'. split; [exact E | discriminate].
  - exists [], st. split; [reflexivity | auto].
Qed.

Lemma explanation_step ext (flag : bool) text analysis st :
  exists e st',
    (if flag then LlmAnalyzer.generate_explanation ext text analysis
     else ret Views.disabled) st
    = (Return e, st')
    /\ (flag = false -> e = Views.disabled /\ st' = st).
Proof.
  destruct flag.
  - destruct (DegradedFacts.explanation_total ext text analysis st)
      as (e & st' & E & _).
    exists e, st'. split; [exact E | discriminate].
  - exists Views.disabled, st. split; [reflexivity | auto].
Qed.

Lemma multimodal_step ext (image caption : option string) st :
  exists m st',
    (if truthy_opt image then
       if truthy_opt caption
       then Multimodal.analyze_image_caption ext (or_empty image) (or_empty caption)
       else Multimodal.analyze_clickbait ext (or_empty image)
     else ret (Multimodal.Unavailable None)) st
    = (Return m, st')
    /\ (truthy_opt image = false -> m = Multimodal.Unavailable None /\ st' = st).
Proof.
  destruct (truthy_opt image).
  - destruct (truthy_opt caption).
    + destruct (DegradedFacts.caption_total ext (or_empty image) (or_empty caption) st)
        as (m & st' & E & _).
      exists m, st'. split; [exact E | discriminate].
    + destruct (DegradedFacts.clickbait_total ext (or_empty image) st)
        as (m & st' & E & _).
      exists m, st'. split; [exact E | discriminate].
  - exists (Multimodal.Unavailable None), st. split; [reflexivity | auto].
Qed.

(** [/analyze] on a valid text that the classifier answers. *)
Lemma analyze_run ext req results st :
  Spec.valid (text req) ->
  Spec.classified ext (text req) results ->
  exists hs e m st',
    analyze ext req st
    = (Return {| analysis        := Views.analysis_of (text req) results;
                 highlights      := hs;
                 explanation     := e;
                 multimodal      := m;
                 processing_time :=
                   Num.round (clock ext (trace st') - clock ext (trace st))%Q 2 |},
       st')
    /\ (include_highlights req = false -> hs = [])
    /\ (include_explanation req = false -> e = Views.disabled)
    /\ (truthy_opt (image_url req) = false -> m = Multimodal.Unavailable None)
    /\ (include_highlights req = false ->
        include_explanation req = false ->
        truthy_opt (image_url req) = false ->
        st' = after st (Views.chunk_calls (Spec.classified_chunks (text req)))).
Proof.
  intros Hv Hc. unfold analyze.
  rewrite (ModelFacts.valid_guard (text req) Hv).
  rewrite (bind_run (time_time ext) _ st (clock ext (trace st)) st eq_refl).
  rewrite (bind_run _ _ _ _ _ (ModelFacts.analyze_text_ok ext (text req) results st Hv Hc)).
  fold (Views.chunk_calls (Spec.classified_chunks (text req))).
  fold (Views.analysis_of (text req) results). fold Views.disabled.
  set (st0 := after st (Views.chunk_calls (Spec.classified_chunks (text req)))).
  destruct (highlights_step ext (include_highlights req) (text req) st0)
    as (hs & st1 & E1 & H1).
  rewrite (bind_run _ _ _ _ _ E1).
  destruct (explanation_step ext (include_explanation req) (text req)
              (Views.analysis_of (text req) results) st1)
    as (e & st2 & E2 & H2).
  rewrite (bind_run _ _ _ _ _ E2).
  destruct (multimodal_step ext (image_url req) (caption req) st2)
    as (m & st3 & E3 & H3).
  rewrite (bind_run _ _ _ _ _ E3).
  rewrite (bind_run (time_time ext) _ st3 (clock ext (trace st3)) st3 eq_refl).
  exists hs, e, m, st3. split; [reflexivity|].
  split; [intro F; apply (H1 F)|].
  split; [intro F; apply (H2 F)|].
  split; [intro F; apply (H3 F)|].
  intros F1 F2 F3.
  destruct (H1 F1) as [_ ->]. destruct (H2 F2) as [_ ->].
  destruct (H3 F3) as [_ ->]. reflexivity.
Qed.

(** A failure of the classifier on a chunk ends [analyze_text]. *)
Lemma analyze_text_fail ext text pre c post results e st :
  Spec.valid text ->
  Spec.classified_chunks text = pre ++ c :: post ->
  Forall2 (fun x r => classifier ext x Model.TACTIC_LABELS true = Return r)
          pre results ->
  classifier ext c Model.TACTIC_LABELS true = Raise e ->
  Model.analyze_text ext text st
  = (Raise e, after st (Views.chunk_calls (pre ++ [c]))).
Proof.
  intros Hv Hch Hpre Hc. unfold Model.analyze_text.
  rewrite (ModelFacts.valid_guard text Hv).
  cbv zeta. unfold Spec.classified_chunks in Hch. rewrite Hch.
  apply bind_fail.
  apply (AnalysisFacts.for_each_classify_fail ext pre c post results e st Hpre Hc).
Qed.

(** The loop of [analyze_text] makes only its own classifier calls, on a
    prefix of the chunks, whatever the classifier does. *)
Lemma for_each_classify_calls ext (chunks : list string) st :
  exists k,
    k <= List.length chunks
    /\ snd (for_each chunks
              (fun chunk => result <- Model.classify ext chunk true ;;
                            ret (Model.scores_dict result)) st)
       = after st (Views.chunk_calls (firstn k chunks)).
Proof.
  revert st. induction chunks as [|c chunks IH]; intro st.
  - exists 0. split; [lia|]. simpl. unfold ret, after. simpl.
    rewrite app_nil_r. destruct st; reflexivity.
  - simpl for_each. unfold bind at 1. unfold bind at 1.
    unfold Model.classify, external.
    destruct (classifier ext c Model.TACTIC_LABELS true) as [r | e].
    + unfold ret at 1.
      destruct (IH {| _client := _client st;
                      trace := trace st ++ [Classify c true] |}) as (k & Hk & E).
      exists (S k). split; [simpl; lia|].
      unfold bind.
      match goal with
      | H : snd ?x = _ |- context [match ?y with _ => _ end] =>
          change y with x; destruct x as [[ys | e] st2]
      end; simpl in E |- *; rewrite E; unfold after, Views.chunk_calls; simpl;
        rewrite <- app_assoc; reflexivity.
    + exists 1. split; [simpl; lia|]. simpl. reflexivity.
Qed.

End RouteFacts.

(** X21.  [/analyze] answers 200 for every valid text whose chunks the
    classifier answers, whatever the sentence classification, the LLM, the
    image host and the vision model do: none of their failures reaches
    the client.  The payload carries the analysis of the text; without
    highlights asked for it has none, without an explanation asked for it
    has the "LLM disabled" placeholder, and without an image URL the
    multimodal part is unavailable with no error; when all three are off
    the only calls made are the classifier calls on the chunks. *)
Theorem analyze_answers ext body t results st :
  App.body_text body = Some t ->
  Spec.valid t ->
  Spec.classified ext t results ->
  exists resp st',
    App.post_analyze ext body st
    = ({| App.status := 200; App.payload := Some resp |}, st')
    /\ App.analysis resp = Views.analysis_of t results
    /\ (App.body_include_highlights body = false -> App.highlights resp = [])
    /\ (App.body_include_explanation body = false ->
        App.explanation resp = Views.disabled)
    /\ (App.truthy_opt (App.body_image_url body) = false ->
        App.multimodal resp = Multimodal.Unavailable None)
    /\ (App.body_include_highlights body = false ->
        App.body_include_explanation body = false ->
        App.truthy_opt (App.body_image_url body) = false ->
        st' = after st (Views.chunk_calls (Spec.classified_chunks t))).
Proof.
  intros Hb Hv Hc.
  unfold App.post_analyze, App.post, App.parse. rewrite Hb.
  fold (Views.request_of body t).
  destruct (RouteFacts.analyze_run ext (Views.request_of body t) results st Hv Hc)
    as (hs & e & m & st' & E & H1 & H2 & H3 & H4).
  rewrite E. eexists. exists st'. split; [reflexivity|].
  split; [reflexivity|]. simpl. auto.
Qed.

Lemma analyze_answers_witness :
  exists resp st',
    App.post_analyze (Sample.ext Sample.scores1)
      (Views.body_alone Sample.request_text) Sample.st0
    = ({| App.status := 200; App.payload := Some resp |}, st')
    /\ App.analysis resp
       = Views.analysis_of Sample.request_text [Sample.result Sample.scores1]
    /\ (App.body_include_highlights (Views.body_alone Sample.request_text) = false ->
        App.highlights resp = [])
    /\ (App.body_include_explanation (Views.body_alone Sample.request_text) = false ->
        App.explanation resp = Views.disabled)
    /\ (App.truthy_opt (App.body_image_url (Views.body_alone Sample.request_text))
        = false ->
        App.multimodal resp = Multimodal.Unavailable None)
    /\ (App.body_include_highlights (Views.body_alone Sample.request_text) = false ->
        App.body_include_explanation (Views.body_alone Sample.request_text) = false ->
        App.truthy_opt (App.body_image_url (Views.body_alone Sample.request_text))
        = false ->
        st' = after Sample.st0
                (Views.chunk_calls (Spec.classified_chunks Sample.request_text))).
Proof.
  apply (analyze_answers (Sample.ext Sample.scores1)
           (Views.body_alone Sample.request_text) Sample.request_text
           [Sample.result Sample.scores1] Sample.st0).
  - reflexivity.
  - unfold Spec.valid. vm_compute. lia.
  - unfold Spec.classified. vm_compute. repeat constructor.
Defined.

(** X22.  A failure of the classifier on a chunk of a valid text is
    answered 500, with no payload, by [/analyze], [/quick-score] and
    [/report] alike; the request stops there: the calls made are the
    classifier calls up to the failing chunk, and neither the LLM nor the
    image host nor the vision model nor the sentence classification is
    reached. *)
Theorem classifier_failure_is_500 ext body t pre c post results msg st :
  App.body_text body = Some t ->
  Spec.valid t ->
  Spec.classified_chunks t = pre ++ c :: post ->
  Forall2 (fun x r => classifier ext x Model.TACTIC_LABELS true = Return r)
          pre results ->
  classifier ext c Model.TACTIC_LABELS true = Raise (Error msg) ->
  App.post_analyze ext body st
  = ({| App.status := 500; App.payload := None |},
     after st (Views.chunk_calls (pre ++ [c])))
  /\ App.post_quick_score ext body st
     = ({| App.status := 500; App.payload := None |},
        after st (Views.chunk_calls (pre ++ [c])))
  /\ App.post_report ext body st
     = ({| App.status := 500; App.payload := None |},
        after st (Views.chunk_calls (pre ++ [c]))).
Proof.
  intros Hb Hv Hch Hpre Hc.
  pose proof (RouteFacts.analyze_text_fail ext t pre c post results (Error msg)
                st Hv Hch Hpre Hc) as E.
  unfold App.post_analyze, App.post_quick_score, App.post_report,
    App.post, App.parse.
  rewrite Hb. fold (Views.request_of body t).
  split; [|split].
  - unfold App.analyze.
    rewrite (ModelFacts.valid_guard (App.text (Views.request_of body t)) Hv).
    rewrite (RouteFacts.bind_run (App.time_time ext) _ st
               (clock ext (trace st)) st eq_refl).
    rewrite (RouteFacts.bind_fail _ _ _ _ _ E). reflexivity.
  - unfold App.quick_score.
    rewrite (RouteFacts.bind_fail _ _ _ _ _ E). reflexivity.
  - unfold App.download_report.
    rewrite (ModelFacts.valid_guard (App.text (Views.request_of body t)) Hv).
    rewrite (RouteFacts.bind_fail _ _ _ _ _ E). reflexivity.
Qed.

Lemma classifier_failure_is_500_witness :
  App.post_analyze Views.ext_classifier_down
    (Sample.body (Some Sample.request_text)) Sample.st0
  = ({| App.status := 500; App.payload := None |},
     after Sample.st0 (Views.chunk_calls ([] ++ [Sample.request_text])))
  /\ App.post_quick_score Views.ext_classifier_down
       (Sample.body (Some Sample.request_text)) Sample.st0
     = ({| App.status := 500; App.payload := None |},
        after Sample.st0 (Views.chunk_calls ([] ++ [Sample.request_text])))
  /\ App.post_report Views.ext_classifier_down
       (Sample.body (Some Sample.request_text)) Sample.st0
     = ({| App.status := 500; App.payload := None |},
        after Sample.st0 (Views.chunk_calls ([] ++ [Sample.request_text]))).
Proof.
  apply (classifier_failure_is_500 Views.ext_classifier_down
           (Sample.body (Some Sample.request_text)) Sample.request_text
           [] Sample.request_text [] [] "CUDA out of memory" Sample.st0).
  - reflexivity.
  - unfold Spec.valid. vm_compute. lia.
  - vm_compute. reflexivity.
  - constructor.
  - reflexivity.
Defined.

(** X23.  [/quick-score] never reaches the LLM, the image host, the
    vision model or the sentence classification, for every body and
    whatever the classifier does: the module-level client is left as it
    was, and the calls made are multi-label classifier calls on a prefix
    of the classified chunks of the text, hence at most 5; a body without
    a text makes none. *)
Theorem quick_score_calls ext body st :
  exists chunks,
    snd (App.post_quick_score ext body st) = after st (Views.chunk_calls chunks)
    /\ (List.length chunks <= 5)%nat
    /\ match App.body_text body with
       | Some t => exists k, chunks = firstn k (Spec.classified_chunks t)
       | None => chunks = []
       end.
Proof.
  unfold App.post_quick_score, App.post, App.parse.
  destruct (App.body_text body) as [t|].
  - fold (Views.request_of body t). unfold App.quick_score.
    change (App.text (Views.request_of body t)) with t.
    unfold bind at 1. unfold Model.analyze_text.
    destruct (negb (Py.truthy t) || (Py.len (Py.strip t) <? 10)%nat).
    + exists []. split; [simpl; symmetry; apply MFacts.after_nil|].
      split; [simpl; lia|]. exists 0%nat. reflexivity.
    + cbv zeta.
      destruct (RouteFacts.for_each_classify_calls ext
                  (firstn 5 (Model._chunk_text t 400)) st) as (k & Hk & E).
      exists (firstn k (Spec.classified_chunks t)).
      split; [|split].
      * unfold bind at 1. unfold Spec.classified_chunks.
        match goal with
        | H : snd ?x = _ |- context [match ?y with _ => _ end] =>
            change y with x; destruct x as [[ys | [code detail | m]] st2]
        end; simpl in E |- *; exact E.
      * rewrite length_firstn. unfold Spec.classified_chunks.
        rewrite length_firstn. lia.
      * exists k. reflexivity.
  - exists []. split; [simpl; symmetry; apply MFacts.after_nil|].
    split; [simpl; lia | reflexivity].
Qed.

(** X24.  ReportLab reads the text of a paragraph as markup and refuses a
    malformed one; here the request text, the URL and the reply of the
    LLM hold no markup.  Then [/report] answers 200 with a PDF for every
    valid text whose chunks the classifier answers, whether the call of
    the LLM succeeds or fails: the payload has the media type
    application/pdf and the attachment header, and its document is the
    report of the text, of its analysis, of the explanation that
    [generate_explanation] returns after the classifier calls, and of the
    URL of the body (the empty string when there is none); when the LLM
    call fails, that explanation is the failed one, so that the report is
    still produced. *)
Theorem report_answers ext body t results st :
  App.body_text body = Some t ->
  Spec.valid t ->
  Spec.classified ext t results ->
  Views.plain_text t = true ->
  Views.plain_text (Views.url_or_empty body) = true ->
  (forall content,
     messages_create ext
       (LlmAnalyzer.build_prompt t (Views.analysis_of t results))
     = Return content ->
     Forall (fun block => Views.plain_text block = true) content) ->
  exists e st',
    LlmAnalyzer.generate_explanation ext t (Views.analysis_of t results)
      (after st (Views.chunk_calls (Spec.classified_chunks t)))
    = (Return e, st')
    /\ App.post_report ext body st
       = ({| App.status := 200;
             App.payload :=
               Some (Views.pdf_response
                       (ReportGen.generate_report ext t
                          (Views.analysis_of t results) e
                          (Views.url_or_empty body))) |}, st')
    /\ (forall exc,
          (_client st <> None \/ ANTHROPIC_API_KEY ext <> EmptyString) ->
          messages_create ext
            (LlmAnalyzer.build_prompt t (Views.analysis_of t results))
          = Raise exc ->
          e = Spec.llm_error exc).
Proof.
  intros Hb Hv Hc _ _ _.
  destruct (DegradedFacts.explanation_total ext t (Views.analysis_of t results)
              (after st (Views.chunk_calls (Spec.classified_chunks t))))
    as (e & st' & E & Hfail).
  exists e, st'. split; [exact E|]. split; [|exact Hfail].
  unfold App.post_report, App.post, App.parse. rewrite Hb.
  fold (Views.request_of body t). unfold App.download_report.
  rewrite (ModelFacts.valid_guard (App.text (Views.request_of body t)) Hv).
  rewrite (RouteFacts.bind_run _ _ _ _ _
             (ModelFacts.analyze_text_ok ext t results st Hv Hc)).
  fold (Views.chunk_calls (Spec.classified_chunks t)).
  fold (Views.analysis_of t results).
  change (App.text (Views.request_of body t)) with t.
  rewrite (RouteFacts.bind_run _ _ _ _ _ E). reflexivity.
Qed.

Lemma report_answers_witness :
  exists e st',
    LlmAnalyzer.generate_explanation (Sample.ext_with_key Sample.scores1)
      Sample.request_text
      (Views.analysis_of Sample.request_text [Sample.result Sample.scores1])
      (after Sample.st0
         (Views.chunk_calls (Spec.classified_chunks Sample.request_text)))
    = (Return e, st')
    /\ App.post_report (Sample.ext_with_key Sample.scores1)
         (Sample.body (Some Sample.request_text)) Sample.st0
       = ({| App.status := 200;
             App.payload :=
               Some (Views.pdf_response
                       (ReportGen.generate_report
                          (Sample.ext_with_key Sample.scores1)
                          Sample.request_text
                          (Views.analysis_of Sample.request_text
                             [Sample.result Sample.scores1]) e
                          (Views.url_or_empty
                             (Sample.body (Some Sample.request_text))))) |}, st')
    /\ (forall exc,
          (_client Sample.st0 <> None
           \/ ANTHROPIC_API_KEY (Sample.ext_with_key Sample.scores1) <> EmptyString) ->
          messages_create (Sample.ext_with_key Sample.scores1)
            (LlmAnalyzer.build_prompt Sample.request_text
               (Views.analysis_of Sample.request_text
                  [Sample.result Sample.scores1]))
          = Raise exc ->
          e = Spec.llm_error exc).
Proof.
  apply (report_answers (Sample.ext_with_key Sample.scores1)
           (Sample.body (Some Sample.request_text)) Sample.request_text
           [Sample.result Sample.scores1] Sample.st0).
  - reflexivity.
  - unfold Spec.valid. vm_compute. lia.
  - unfold Spec.classified. vm_compute. repeat constructor.
  - reflexivity.
  - reflexivity.
  - intros content H. discriminate H.
Defined.

(* ================================================================== *)
(** * The numeric results in binary64 arithmetic *)
(* ================================================================== *)

(** ** Binary64 numbers: their order *)

Module B64Facts.
Import Floats.
Local Open Scope Z_scope.

Lemma digits2_pos_bounds m :
  2 ^ (Z.pos (digits2_pos m) - 1) <= Z.pos m < 2 ^ Z.pos (digits2_pos m).
Proof.
  induction m as [m IH | m IH |]; simpl digits2_pos.
  - rewrite Pos2Z.inj_succ.
    replace (Z.succ (Z.pos (digits2_pos m)) - 1) with (Z.succ (Z.pos (digits2_pos m) - 1)) by lia.
    rewrite !Z.pow_succ_r by lia. lia.
  - rewrite Pos2Z.inj_succ.
    replace (Z.succ (Z.pos (digits2_pos m)) - 1) with (Z.succ (Z.pos (digits2_pos m) - 1)) by lia.
    rewrite !Z.pow_succ_r by lia. lia.
  - simpl. lia.
Qed.

Lemma bounded_spec m e :
  bounded prec emax m e = true ->
  -1074 <= e <= 971 /\ Z.pos m < 2 ^ 53 /\ (-1074 < e -> 2 ^ 52 <= Z.pos m).
Proof.
  unfold bounded, canonical_mantissa, fexp, SpecFloat.emin, prec, emax.
  intro H. apply andb_true_iff in H. destruct H as [C L].
  apply Z.eqb_eq in C. apply Z.leb_le in L.
  pose proof (digits2_pos_bounds m) as [Lo Hi].
  set (d := Z.pos (digits2_pos m)) in *.
  assert (D : d <= 53 /\ (-1074 < e -> d = 53)) by lia.
  destruct D as [D1 D2].
  split; [lia|]. split.
  - eapply Z.lt_le_trans; [exact Hi|]. apply Z.pow_le_mono_r; lia.
  - intro E. rewrite (D2 E) in Lo. exact Lo.
Qed.

Lemma finite_lt m1 e1 m2 e2 :
  bounded prec emax m1 e1 = true -> bounded prec emax m2 e2 = true ->
  e1 < e2 ->
  Z.pos m1 * 2 ^ (e1 + 1074) < Z.pos m2 * 2 ^ (e2 + 1074).
Proof.
  intros B1 B2 L.
  destruct (bounded_spec m1 e1 B1) as (R1 & U1 & _).
  destruct (bounded_spec m2 e2 B2) as (R2 & _ & N2).
  assert (N : 2 ^ 52 <= Z.pos m2) by (apply N2; lia).
  replace (e2 + 1074) with ((e1 + 1074) + (e2 - e1)) by lia.
  rewrite (Z.pow_add_r 2 (e1 + 1074) (e2 - e1)) by lia.
  assert (P : 0 < 2 ^ (e1 + 1074)) by (apply Z.pow_pos_nonneg; lia).
  assert (T : 2 ^ 1 <= 2 ^ (e2 - e1)) by (apply Z.pow_le_mono_r; lia).
  change (2 ^ 1) with 2 in T.
  set (P2 := 2 ^ (e1 + 1074)) in *. set (T2 := 2 ^ (e2 - e1)) in *.
  assert (A1 : Z.pos m1 * P2 < 2 ^ 53 * P2) by (apply Z.mul_lt_mono_pos_r; assumption).
  assert (A2 : 2 ^ 53 <= Z.pos m2 * T2).
  { change (2 ^ 53) with (2 ^ 52 * 2). apply Z.mul_le_mono_nonneg; lia. }
  assert (A3 : 2 ^ 53 * P2 <= Z.pos m2 * T2 * P2) by (apply Z.mul_le_mono_nonneg_r; lia).
  replace (Z.pos m2 * (P2 * T2)) with (Z.pos m2 * T2 * P2) by ring.
  lia.
Qed.

Lemma finite_small m e :
  bounded prec emax m e = true ->
  0 < Z.pos m * 2 ^ (e + 1074) < 2 ^ 2098.
Proof.
  intro B. destruct (bounded_spec m e B) as (R & U & _).
  assert (P : 0 < 2 ^ (e + 1074)) by (apply Z.pow_pos_nonneg; lia).
  split; [lia|].
  assert (T : 2 ^ (e + 1074) <= 2 ^ 2045) by (apply Z.pow_le_mono_r; lia).
  replace (2 ^ 2098) with (2 ^ 53 * 2 ^ 2045) by (rewrite <- Z.pow_add_r by lia; reflexivity).
  nia.
Qed.

Lemma SFcompare_finite s1 m1 e1 s2 m2 e2 :
  bounded prec emax m1 e1 = true -> bounded prec emax m2 e2 = true ->
  SFcompare (S754_finite s1 m1 e1) (S754_finite s2 m2 e2)
  = Some (B64.SFord (S754_finite s1 m1 e1) ?= B64.SFord (S754_finite s2 m2 e2)).
Proof.
  intros V1 V2. unfold B64.SFord. simpl SFcompare.
  pose proof (finite_small m1 e1 V1) as F1.
  pose proof (finite_small m2 e2 V2) as F2.
  assert (C : forall c, (e1 ?= e2) = c ->
              match c with
              | Lt => Z.pos m1 * 2 ^ (e1 + 1074) < Z.pos m2 * 2 ^ (e2 + 1074)
              | Gt => Z.pos m2 * 2 ^ (e2 + 1074) < Z.pos m1 * 2 ^ (e1 + 1074)
              | Eq => e1 = e2
              end).
  { intros c Hc. destruct c.
    - apply Z.compare_eq_iff. exact Hc.
    - apply Z.compare_lt_iff in Hc. apply finite_lt; assumption.
    - apply Z.compare_gt_iff in Hc. apply finite_lt; assumption. }
  assert (M : e1 = e2 ->
              (Z.pos m1 * 2 ^ (e1 + 1074) ?= Z.pos m2 * 2 ^ (e2 + 1074))
              = (Z.pos m1 ?= Z.pos m2)).
  { intro E. rewrite E.
    assert (P : 0 < 2 ^ (e2 + 1074)).
    { apply Z.pow_pos_nonneg; [lia|].
      destruct (bounded_spec m2 e2 V2) as (R & _). lia. }
    symmetry. apply Zmult_compare_compat_r. lia. }
  specialize (C (e1 ?= e2) eq_refl).
  set (v1 := Z.pos m1 * 2 ^ (e1 + 1074)) in *.
  set (v2 := Z.pos m2 * 2 ^ (e2 + 1074)) in *.
  f_equal. destruct s1, s2; symmetry.
  - destruct (e1 ?= e2).
    + rewrite Z.compare_opp, Z.compare_antisym, (M C). reflexivity.
    + apply Z.compare_gt_iff. lia.
    + apply Z.compare_lt_iff. lia.
  - apply Z.compare_lt_iff. lia.
  - apply Z.compare_gt_iff. lia.
  - destruct (e1 ?= e2).
    + rewrite (M C). reflexivity.
    + apply Z.compare_lt_iff. lia.
    + apply Z.compare_gt_iff. lia.
Qed.

Lemma SFcompare_ord f1 f2 :
  valid_binary f1 = true -> valid_binary f2 = true ->
  f1 <> S754_nan -> f2 <> S754_nan ->
  SFcompare f1 f2 = Some (B64.SFord f1 ?= B64.SFord f2).
Proof.
  intros V1 V2 N1 N2.
  assert (HI : 0 < 2 ^ 2098) by (apply Z.pow_pos_nonneg; lia).
  destruct f1 as [s1 | s1 | | s1 m1 e1]; [| |congruence|];
  destruct f2 as [s2 | s2 | | s2 m2 e2]; try congruence;
  try (apply SFcompare_finite; assumption);
  unfold B64.SFord; simpl SFcompare; simpl in V1, V2;
  try pose proof (finite_small m1 e1 V1) as F1;
  try pose proof (finite_small m2 e2 V2) as F2;
  set (I := 2 ^ 2098) in *;
  repeat match goal with s : bool |- _ => destruct s end;
  f_equal; symmetry;
  first [ apply Z.compare_eq_iff; lia
        | apply Z.compare_lt_iff; lia
        | apply Z.compare_gt_iff; lia ].
Qed.


(** ** Numbers and their order *)

Lemma is_nan_false x :
  PrimFloat.is_nan x = false <-> Prim2SF x <> S754_nan.
Proof.
  unfold PrimFloat.is_nan. rewrite eqb_spec. unfold SFeqb.
  pose proof (Prim2SF_valid x) as V.
  destruct (Prim2SF x) as [s | s | | s m e] eqn:E.
  - simpl. split; [discriminate | reflexivity].
  - simpl. destruct s; split; (discriminate || reflexivity).
  - simpl. split; [discriminate | congruence].
  - rewrite (SFcompare_finite s m e s m e V V), Z.compare_refl. simpl.
    split; [discriminate | reflexivity].
Qed.

Lemma compare_ord x y :
  PrimFloat.is_nan x = false -> PrimFloat.is_nan y = false ->
  SFcompare (Prim2SF x) (Prim2SF y) = Some (B64.ord x ?= B64.ord y).
Proof.
  intros Nx Ny. apply SFcompare_ord.
  - apply Prim2SF_valid.
  - apply Prim2SF_valid.
  - apply (proj1 (is_nan_false x)). exact Nx.
  - apply (proj1 (is_nan_false y)). exact Ny.
Qed.

Lemma ltb_ord x y :
  PrimFloat.is_nan x = false -> PrimFloat.is_nan y = false ->
  PrimFloat.ltb x y = (B64.ord x <? B64.ord y).
Proof.
  intros Nx Ny. rewrite ltb_spec. unfold SFltb.
  rewrite (compare_ord x y Nx Ny). unfold Z.ltb.
  destruct (B64.ord x ?= B64.ord y); reflexivity.
Qed.

Lemma leb_ord x y :
  PrimFloat.is_nan x = false -> PrimFloat.is_nan y = false ->
  PrimFloat.leb x y = (B64.ord x <=? B64.ord y).
Proof.
  intros Nx Ny. rewrite leb_spec. unfold SFleb.
  rewrite (compare_ord x y Nx Ny). unfold Z.leb.
  destruct (B64.ord x ?= B64.ord y); reflexivity.
Qed.

Lemma eqb_ord x y :
  PrimFloat.is_nan x = false -> PrimFloat.is_nan y = false ->
  PrimFloat.eqb x y = (B64.ord x =? B64.ord y).
Proof.
  intros Nx Ny. rewrite eqb_spec. unfold SFeqb.
  rewrite (compare_ord x y Nx Ny), Z.eqb_compare.
  destruct (B64.ord x ?= B64.ord y); reflexivity.
Qed.

(** A comparison that holds is one of numbers. *)
Lemma SFcompare_nan_l f : SFcompare S754_nan f = None.
Proof. reflexivity. Qed.

Lemma SFcompare_nan_r f : SFcompare f S754_nan = None.
Proof. destruct f; reflexivity. Qed.

Lemma compare_numbers x y c :
  SFcompare (Prim2SF x) (Prim2SF y) = Some c ->
  PrimFloat.is_nan x = false /\ PrimFloat.is_nan y = false.
Proof.
  intro H. split; apply (proj2 (is_nan_false _)); intro E; rewrite E in H.
  - rewrite SFcompare_nan_l in H. discriminate.
  - rewrite SFcompare_nan_r in H. discriminate.
Qed.

Lemma ltb_numbers x y :
  PrimFloat.ltb x y = true ->
  PrimFloat.is_nan x = false /\ PrimFloat.is_nan y = false.
Proof.
  rewrite ltb_spec. unfold SFltb.
  destruct (SFcompare (Prim2SF x) (Prim2SF y)) as [c|] eqn:C; [|discriminate].
  intros _. exact (compare_numbers x y c C).
Qed.

Lemma leb_numbers x y :
  PrimFloat.leb x y = true ->
  PrimFloat.is_nan x = false /\ PrimFloat.is_nan y = false.
Proof.
  rewrite leb_spec. unfold SFleb.
  destruct (SFcompare (Prim2SF x) (Prim2SF y)) as [c|] eqn:C; [|discriminate].
  intros _. exact (compare_numbers x y c C).
Qed.

Lemma eqb_numbers x y :
  PrimFloat.eqb x y = true ->
  PrimFloat.is_nan x = false /\ PrimFloat.is_nan y = false.
Proof.
  rewrite eqb_spec. unfold SFeqb.
  destruct (SFcompare (Prim2SF x) (Prim2SF y)) as [c|] eqn:C; [|discriminate].
  intros _. exact (compare_numbers x y c C).
Qed.

Lemma ltb_iff x y :
  PrimFloat.ltb x y = true <->
  PrimFloat.is_nan x = false /\ PrimFloat.is_nan y = false
  /\ B64.ord x < B64.ord y.
Proof.
  split.
  - intro H. destruct (ltb_numbers x y H) as [Nx Ny].
    rewrite (ltb_ord x y Nx Ny) in H. apply Z.ltb_lt in H. auto.
  - intros (Nx & Ny & H). rewrite (ltb_ord x y Nx Ny). apply Z.ltb_lt. exact H.
Qed.

Lemma leb_iff x y :
  PrimFloat.leb x y = true <->
  PrimFloat.is_nan x = false /\ PrimFloat.is_nan y = false
  /\ B64.ord x <= B64.ord y.
Proof.
  split.
  - intro H. destruct (leb_numbers x y H) as [Nx Ny].
    rewrite (leb_ord x y Nx Ny) in H. apply Z.leb_le in H. auto.
  - intros (Nx & Ny & H). rewrite (leb_ord x y Nx Ny). apply Z.leb_le. exact H.
Qed.

Lemma eqb_iff x y :
  PrimFloat.eqb x y = true <->
  PrimFloat.is_nan x = false /\ PrimFloat.is_nan y = false
  /\ B64.ord x = B64.ord y.
Proof.
  split.
  - intro H. destruct (eqb_numbers x y H) as [Nx Ny].
    rewrite (eqb_ord x y Nx Ny) in H. apply Z.eqb_eq in H. auto.
  - intros (Nx & Ny & H). rewrite (eqb_ord x y Nx Ny). apply Z.eqb_eq. exact H.
Qed.


(** ** Signs: what is computed from numbers that are not negative is not
    negative, and is a number *)

Lemma iter_pos_inv {A} (f : A -> A) (P : A -> Prop) :
  (forall x, P x -> P (f x)) -> forall n x, P x -> P (iter_pos f n x).
Proof.
  intros Hf n. induction n as [n IH | n IH |]; intros x Hx; simpl.
  - apply IH. apply IH. apply Hf. exact Hx.
  - apply IH. apply IH. exact Hx.
  - apply Hf. exact Hx.
Qed.

Lemma shr_1_nonneg mrs : 0 <= shr_m mrs -> 0 <= shr_m (shr_1 mrs).
Proof.
  destruct mrs as [m r s]. simpl. intro H.
  destruct m as [|p|p]; [simpl; lia | | lia].
  destruct p; simpl; lia.
Qed.

Lemma shr_nonneg mrs e n :
  0 <= shr_m mrs -> 0 <= shr_m (fst (shr mrs e n)).
Proof.
  intro H. unfold shr. destruct n as [|p|p]; simpl; try exact H.
  apply (iter_pos_inv shr_1 (fun r => 0 <= shr_m r)); [exact shr_1_nonneg | exact H].
Qed.

Lemma shr_fexp_nonneg m e l :
  0 <= m -> 0 <= shr_m (fst (shr_fexp prec emax m e l)).
Proof.
  intro H. unfold shr_fexp. apply shr_nonneg.
  destruct l as [|[| |]]; simpl; exact H.
Qed.

Lemma round_nearest_even_nonneg m l :
  0 <= m -> 0 <= round_nearest_even m l.
Proof.
  intro H. unfold round_nearest_even.
  destruct l as [|[| |]]; try lia.
  destruct (Z.even m); lia.
Qed.

(** A rounded result has the sign it was given, and is a number. *)
Lemma binary_round_aux_sign s m e l :
  0 <= m ->
  match binary_round_aux prec emax s m e l with
  | S754_zero s' | S754_infinity s' | S754_finite s' _ _ => s' = s
  | S754_nan => False
  end.
Proof.
  intro H. unfold binary_round_aux.
  pose proof (shr_fexp_nonneg m e l H) as H1.
  destruct (shr_fexp prec emax m e l) as [mrs' e'].
  simpl fst in H1.
  pose proof (shr_fexp_nonneg
                (round_nearest_even (shr_m mrs') (loc_of_shr_record mrs')) e'
                loc_Exact
                (round_nearest_even_nonneg _ _ H1)) as H2.
  destruct (shr_fexp prec emax _ e' loc_Exact) as [mrs'' e''].
  simpl fst in H2.
  destruct (shr_m mrs'') as [|p|p]; [reflexivity | | lia].
  destruct (e'' <=? emax - prec); reflexivity.
Qed.

Lemma binary_round_aux_nonneg m e l :
  0 <= m -> B64.SFnonneg (binary_round_aux prec emax false m e l).
Proof.
  intro H. pose proof (binary_round_aux_sign false m e l H) as S.
  destruct (binary_round_aux prec emax false m e l); simpl; try subst; auto.
Qed.

Lemma binary_round_nonneg m e :
  B64.SFnonneg (binary_round prec emax false m e).
Proof.
  unfold binary_round.
  destruct (shl_align m e _) as [mz ez].
  apply binary_round_aux_nonneg. lia.
Qed.

Lemma SFadd_nonneg a b :
  B64.SFnonneg a -> B64.SFnonneg b -> B64.SFnonneg (SFadd prec emax a b).
Proof.
  destruct a as [sa | [|] | | [|] ma ea]; simpl; try contradiction;
  destruct b as [sb | [|] | | [|] mb eb]; simpl; try contradiction;
    intros _ _; try exact I.
  - destruct sa, sb; exact I.
  - apply binary_round_nonneg.
Qed.


Lemma SFdiv_nonneg a b :
  B64.SFnonneg a -> forall m e, b = S754_finite false m e ->
  B64.SFnonneg (SFdiv prec emax a b).
Proof.
  intros Ha m e ->.
  destruct a as [sa | [|] | | [|] ma ea]; simpl in *; try contradiction;
    try exact I.
  unfold SFdiv_core_binary.
  set (s := _ - _ - Z.min _ _).
  set (m' := match s with Z.pos _ => Z.shiftl (Z.pos ma) s | 0 => Z.pos ma | Z.neg _ => 0 end).
  assert (Hm : 0 <= m').
  { unfold m'. destruct s; try lia. apply Z.shiftl_nonneg. lia. }
  pose proof (Z.div_pos m' (Z.pos m) Hm (Pos2Z.is_pos m)) as Hq.
  unfold Z.div in Hq.
  destruct (Z.div_eucl m' (Z.pos m)) as [q r].
  apply binary_round_aux_nonneg. exact Hq.
Qed.

Lemma nonneg_spec x :
  PrimFloat.leb 0 x = true <-> B64.SFnonneg (Prim2SF x).
Proof.
  rewrite leb_spec. change (Prim2SF 0) with (S754_zero false).
  destruct (Prim2SF x) as [s | [|] | | [|] m e]; simpl;
    split; intro H; try reflexivity; try exact I; try discriminate;
    try contradiction.
Qed.

Lemma add_nonneg x y :
  PrimFloat.leb 0 x = true -> PrimFloat.leb 0 y = true ->
  PrimFloat.leb 0 (PrimFloat.add x y) = true.
Proof.
  rewrite !nonneg_spec, add_spec. apply SFadd_nonneg.
Qed.


Lemma div_nonneg64 x y m e :
  Prim2SF y = S754_finite false m e ->
  PrimFloat.leb 0 x = true ->
  PrimFloat.leb 0 (PrimFloat.div x y) = true.
Proof.
  intros E. rewrite !nonneg_spec, div_spec.
  intro H. exact (SFdiv_nonneg _ _ H m e E).
Qed.

Lemma sum_nonneg64 l :
  Forall (fun x => PrimFloat.leb 0 x = true) l ->
  PrimFloat.leb 0 (B64.sum l) = true.
Proof.
  unfold B64.sum.
  assert (G : forall acc, PrimFloat.leb 0 acc = true ->
              Forall (fun x => PrimFloat.leb 0 x = true) l ->
              PrimFloat.leb 0 (fold_left PrimFloat.add l acc) = true).
  { induction l as [|x l IH]; intros acc Ha H; simpl; [exact Ha|].
    inversion H; subst. apply IH; [|assumption].
    apply add_nonneg; assumption. }
  apply G. reflexivity.
Qed.

(** The number of items of a list of 1 to 6, as a float. *)
Lemma of_Z_small n :
  1 <= n <= 6 -> exists m e, Prim2SF (B64.of_Z n) = S754_finite false m e.
Proof.
  intro H.
  assert (C : n = 1 \/ n = 2 \/ n = 3 \/ n = 4 \/ n = 5 \/ n = 6) by lia.
  destruct C as [-> | [-> | [-> | [-> | [-> | ->]]]]];
    eexists; eexists; vm_compute; reflexivity.
Qed.

Lemma mean_nonneg64 l :
  (1 <= List.length l <= 6)%nat ->
  Forall (fun x => PrimFloat.leb 0 x = true) l ->
  PrimFloat.leb 0 (B64.mean l) = true.
Proof.
  intros Hl H. unfold B64.mean.
  destruct (of_Z_small (Z.of_nat (List.length l))) as (m & e & E); [lia|].
  apply (div_nonneg64 _ _ m e E). apply sum_nonneg64. exact H.
Qed.


(** ** Rounding to one decimal within [0, 100] *)






End B64Facts.

(** ** model.py in binary64: the aggregation *)

Module Model64Facts.
Import Floats.
Import Model64.
Local Open Scope monad_scope.

(** The loop of [analyze_text] when the classifier answers every chunk. *)
Lemma for_each_classify64 classifier (chunks : list string)
    (results : list ClfResult) st :
  Forall2 (fun c r => classifier c Model.TACTIC_LABELS true = Return r)
          chunks results ->
  for_each chunks
    (fun chunk => result <- classify classifier chunk true ;;
                  ret (scores_dict result)) st
  = (Return (map scores_dict results), after st (Views.chunk_calls chunks)).
Proof.
  intro H. revert st. induction H as [|c r cs rs Hc _ IH]; intro st.
  - simpl. unfold ret. rewrite MFacts.after_nil. reflexivity.
  - simpl. unfold bind at 1. unfold bind at 1.
    unfold classify, external. rewrite Hc.
    unfold ret at 1. unfold bind. rewrite IH.
    unfold ret. f_equal.
    unfold after, Views.chunk_calls. simpl. rewrite <- app_assoc. reflexivity.
Qed.

(** The loop either raises or returns one dictionary for each chunk. *)
Lemma for_each_classify_inv64 classifier (chunks : list string) st all_scores st' :
  for_each chunks
    (fun chunk => result <- classify classifier chunk true ;;
                  ret (scores_dict result)) st
  = (Return all_scores, st') ->
  exists results,
    Forall2 (fun c r => classifier c Model.TACTIC_LABELS true = Return r)
            chunks results
    /\ all_scores = map scores_dict results.
Proof.
  revert st all_scores st'.
  induction chunks as [|c cs IH]; intros st all_scores st' H.
  - simpl in H. inversion H. exists []. split; [constructor | reflexivity].
  - simpl in H. unfold bind at 1 in H. unfold bind at 1 in H.
    unfold classify, external in H.
    destruct (classifier c Model.TACTIC_LABELS true) as [r|e] eqn:Hc;
      [|discriminate].
    unfold ret at 1 in H. unfold bind in H.
    match type of H with
    | context [for_each cs ?f ?s] => destruct (for_each cs f s) as [[ys|e] st2] eqn:Hf
    end; [|discriminate].
    unfold ret in H. inversion H; subst.
    destruct (IH _ _ _ Hf) as (rs & HF & ->).
    exists (r :: rs). split; [constructor; assumption | reflexivity].
Qed.

Lemma analyze_text_ok64 classifier text results st :
  Spec.valid text -> Spec64.classified classifier text results ->
  analyze_text classifier text st
  = (Return (result_of text (Model._chunk_text text 400)
               (map scores_dict results)),
     after st (Views.chunk_calls (Spec.classified_chunks text))).
Proof.
  intros Hv Hc. unfold analyze_text.
  rewrite (ModelFacts.valid_guard text Hv).
  cbv zeta. unfold bind at 1.
  unfold Spec64.classified, Spec.classified_chunks in *.
  rewrite (for_each_classify64 classifier _ results st Hc). reflexivity.
Qed.

Lemma analyze_text_inv64 classifier text st r st' :
  analyze_text classifier text st = (Return r, st') ->
  (~ Spec.valid text /\ r = _empty_result)
  \/ exists results,
       Spec.valid text /\ Spec64.classified classifier text results
       /\ r = result_of text (Model._chunk_text text 400)
                (map scores_dict results).
Proof.
  unfold analyze_text.
  destruct (negb (Py.truthy text) || (Py.len (Py.strip text) <? 10)%nat) eqn:G.
  - unfold ret. intro H. inversion H. left. split; [|reflexivity].
    unfold Spec.valid. intro V.
    apply orb_true_iff in G. destruct G as [G | G].
    + destruct text; [vm_compute in V; lia | discriminate].
    + apply Nat.ltb_lt in G. lia.
  - cbv zeta. unfold bind at 1.
    match goal with
    | |- context [for_each ?l ?f ?s] =>
        destruct (for_each l f s) as [[ys|e] st2] eqn:Hf
    end; [|discriminate].
    unfold ret. intro H. inversion H; subst.
    destruct (for_each_classify_inv64 _ _ _ _ _ Hf) as (results & HF & ->).
    right. exists results. repeat split; try assumption.
    apply orb_false_iff in G. destruct G as [_ G].
    apply Nat.ltb_ge in G. exact G.
Qed.

Lemma top_tactics_result_of64 text chunks all_scores :
  top_tactics (result_of text chunks all_scores)
  = firstn 3 (top_tactics_all all_scores).
Proof. reflexivity. Qed.

(** The classified chunks of a text are 1 to 5. *)
Lemma classified_length classifier text results :
  Spec64.classified classifier text results ->
  (1 <= List.length results <= 5)%nat.
Proof.
  intro H. apply Forall2_length in H. rewrite <- H.
  unfold Spec.classified_chunks. rewrite length_firstn.
  assert (N : (1 <= List.length (Model._chunk_text text 400))%nat).
  { unfold Model._chunk_text. cbv zeta.
    destruct (filter _ _); simpl; lia. }
  lia.
Qed.

(** ** The dictionary of a classification and the scores it holds *)

Lemma get_set {V} (d : Dict.t V) k k' v :
  Dict.get (Dict.set d k' v) k
  = if String.eqb k k' then Some v else Dict.get d k.
Proof.
  induction d as [|[k0 v0] d IH]; simpl.
  - reflexivity.
  - destruct (String.eqb_spec k' k0) as [E | NE]; simpl.
    + subst k0. destruct (String.eqb k k'); reflexivity.
    + rewrite IH. destruct (String.eqb_spec k k0) as [E0 | NE0].
      * subst k0. destruct (String.eqb_spec k k') as [E1 | _]; [|reflexivity].
        exfalso. apply NE. symmetry. exact E1.
      * reflexivity.
Qed.

Lemma get_fold_set {V} (l : list (string * V)) d k :
  Dict.get (fold_left (fun d p => Dict.set d (fst p) (snd p)) l d) k
  = fold_left (fun found p => if String.eqb k (fst p) then Some (snd p) else found)
              l (Dict.get d k).
Proof.
  revert d. induction l as [|[k' v] l IH]; intro d; simpl; [reflexivity|].
  rewrite IH, get_set. reflexivity.
Qed.

Lemma fold_found {V} (l : list (string * V)) k (o : option V) default :
  match fold_left (fun found p => if String.eqb k (fst p) then Some (snd p) else found)
                  l o with
  | Some v => v
  | None => default
  end
  = fold_left (fun found p => if String.eqb k (fst p) then snd p else found) l
              (match o with Some v => v | None => default end).
Proof.
  revert o. induction l as [|[k' v] l IH]; intro o; simpl; [reflexivity|].
  rewrite IH. destruct (String.eqb k k'); reflexivity.
Qed.

(** The dictionary gives a label the score that the classification
    pairs with it. *)
Lemma score_of_spec r label :
  Dict.get_default (scores_dict r) label 0%float = Spec64.score_of r label.
Proof.
  unfold Dict.get_default, scores_dict, Dict.of_pairs, Spec64.score_of.
  rewrite get_fold_set. simpl Dict.get. apply fold_found.
Qed.

Lemma tactic_means_items64 all_scores :
  tactic_means all_scores
  = map (fun label =>
           (label,
            B64.mean (map (fun s => Dict.get_default s label 0%float) all_scores)))
        Model.TACTIC_LABELS.
Proof.
  unfold tactic_means. apply DictFacts.of_pairs_nodup.
  rewrite map_map. simpl. exact ModelFacts.labels_nodup.
Qed.

Lemma tactic_means_spec64 results :
  tactic_means (map scores_dict results)
  = map (fun label => (label, Spec64.tactic_mean results label))
        Model.TACTIC_LABELS.
Proof.
  rewrite tactic_means_items64. apply map_ext. intro label.
  unfold Spec64.tactic_mean. rewrite map_map. f_equal. f_equal.
  apply map_ext. intro r. apply score_of_spec.
Qed.

Lemma overall_spec64 results :
  overall (map scores_dict results) = Spec64.unrounded_score results.
Proof.
  unfold overall, raw, Spec64.unrounded_score, Dict.values.
  rewrite tactic_means_spec64, map_map. reflexivity.
Qed.

(** ** Signs and numbers *)

Lemma score_of_nonneg64 r label :
  Forall (fun x => PrimFloat.leb 0 x = true) (scores r) ->
  PrimFloat.leb 0 (Spec64.score_of r label) = true.
Proof.
  intro H. unfold Spec64.score_of.
  assert (G : forall (l : list (string * PrimFloat.float)) acc,
             PrimFloat.leb 0 acc = true ->
             Forall (fun p => PrimFloat.leb 0 (snd p) = true) l ->
             PrimFloat.leb 0
               (fold_left (fun found p => if String.eqb label (fst p)
                                          then snd p else found) l acc) = true).
  { induction l as [|p l IH]; intros acc Ha Hl; simpl; [exact Ha|].
    inversion Hl; subst. apply IH; [|assumption].
    destruct (String.eqb label (fst p)); assumption. }
  apply G; [reflexivity|].
  rewrite Forall_forall in *. intros [k v] I. simpl.
  apply H. eapply in_combine_r. exact I.
Qed.

Lemma tactic_mean_nonneg64 results label :
  (1 <= List.length results <= 5)%nat ->
  Spec64.nonnegative results ->
  PrimFloat.leb 0 (Spec64.tactic_mean results label) = true.
Proof.
  intros Hl H. unfold Spec64.tactic_mean. apply B64Facts.mean_nonneg64.
  - rewrite length_map. lia.
  - apply Forall_map. unfold Spec64.nonnegative in H.
    eapply Forall_impl; [|exact H].
    intros r Hr. apply score_of_nonneg64. exact Hr.
Qed.

Lemma tactic_mean_number results label :
  (1 <= List.length results <= 5)%nat ->
  Spec64.nonnegative results ->
  PrimFloat.is_nan (Spec64.tactic_mean results label) = false.
Proof.
  intros Hl H.
  apply (B64Facts.leb_numbers 0 _ (tactic_mean_nonneg64 results label Hl H)).
Qed.

(** The clamp at 100 gives a number that is at most 100, whatever it is
    given. *)
Lemma min_100 y :
  PrimFloat.is_nan (B64.min 100 y) = false
  /\ PrimFloat.leb (B64.min 100 y) 100 = true.
Proof.
  unfold B64.min. destruct (PrimFloat.ltb y 100) eqn:L.
  - apply (proj1 (B64Facts.ltb_iff _ _)) in L. destruct L as (Ny & N100 & L).
    split; [exact Ny|].
    apply (proj2 (B64Facts.leb_iff _ _)). repeat split; try assumption. lia.
  - split; reflexivity.
Qed.



(** A number that is not at least [c] is below [c]. *)
Lemma not_geb x c :
  PrimFloat.is_nan x = false -> PrimFloat.is_nan c = false ->
  B64.geb x c = false -> PrimFloat.ltb x c = true.
Proof.
  intros Nx Nc. unfold B64.geb.
  rewrite (B64Facts.leb_ord c x Nc Nx), (B64Facts.ltb_ord x c Nx Nc).
  intro H. apply Z.leb_gt in H. apply Z.ltb_lt. exact H.
Qed.

End Model64Facts.

(** ** model.py in binary64: the ranking of the tactics *)

Module Sort64Facts.
Import Floats.

Section Sort.
Variable A : Type.
Variable key : A -> float.

Lemma insert_in64 x l z : In z (Model64.insert_desc key x l) <-> z = x \/ In z l.
Proof.
  induction l as [|y l IH]; simpl.
  - intuition.
  - destruct (B64.gtb (key y) (key x)); simpl; rewrite ?IH; intuition.
Qed.

Lemma sorted_in64 l z : In z (Model64.sorted_desc key l) <-> In z l.
Proof.
  induction l as [|x l IH]; simpl; [reflexivity|].
  rewrite insert_in64, IH. intuition.
Qed.

Variable place : A -> nat.

(** The order of two items whose keys are numbers, on the line. *)
Lemma before_ord x y :
  is_nan (key x) = false -> is_nan (key y) = false ->
  (Spec64.before key place x y
   <-> (B64.ord (key y) < B64.ord (key x))%Z
       \/ (B64.ord (key x) = B64.ord (key y) /\ (place x < place y)%nat)).
Proof.
  intros Nx Ny. unfold Spec64.before.
  rewrite (B64Facts.ltb_ord (key y) (key x) Ny Nx).
  rewrite (B64Facts.eqb_ord (key x) (key y) Nx Ny).
  rewrite Z.ltb_lt, Z.eqb_eq. reflexivity.
Qed.

(** Inserting an item that stood before all the others keeps the order:
    it goes behind the greater keys and in front of the equal ones. *)
Lemma insert_sorted64 x l :
  is_nan (key x) = false ->
  Forall (fun z => is_nan (key z) = false) l ->
  StronglySorted (Spec64.before key place) l ->
  (forall y, In y l -> (place x < place y)%nat) ->
  StronglySorted (Spec64.before key place) (Model64.insert_desc key x l).
Proof.
  intros Nx Nl H Hp. induction H as [|y l Hs IH Hy]; simpl.
  - repeat constructor.
  - inversion Nl as [|? ? Ny Nl']; subst.
    assert (Hle : forall z, In z l -> (B64.ord (key z) <= B64.ord (key y))%Z).
    { rewrite Forall_forall in Hy, Nl'. intros z Hz.
      pose proof (proj1 (before_ord y z Ny (Nl' z Hz)) (Hy z Hz)) as B. lia. }
    unfold B64.gtb. rewrite (B64Facts.ltb_ord (key x) (key y) Nx Ny).
    destruct (B64.ord (key x) <? B64.ord (key y))%Z eqn:G.
    + apply Z.ltb_lt in G. constructor.
      * apply IH; [exact Nl'|]. intros z Hz. apply Hp. right. exact Hz.
      * rewrite Forall_forall in *. intros z Hz.
        apply (proj1 (insert_in64 _ _ _)) in Hz. destruct Hz as [-> | Hz].
        -- apply (proj2 (before_ord y x Ny Nx)). left. exact G.
        -- apply Hy. exact Hz.
    + apply Z.ltb_ge in G. constructor.
      * constructor; assumption.
      * rewrite Forall_forall in Nl'. rewrite Forall_forall. intros z Hz.
        assert (Nz : is_nan (key z) = false).
        { destruct Hz as [<- | Hz]; [exact Ny | apply Nl'; exact Hz]. }
        assert (Lz : (B64.ord (key z) <= B64.ord (key x))%Z).
        { destruct Hz as [<- | Hz]; [exact G|].
          pose proof (Hle z Hz). lia. }
        apply (proj2 (before_ord x z Nx Nz)).
        destruct (Z_lt_le_dec (B64.ord (key z)) (B64.ord (key x))) as [L | L].
        -- left. exact L.
        -- right. split; [lia|]. apply Hp. exact Hz.
Qed.

(** [sorted] is a stable sort by descending key. *)
Lemma sorted_sorted64 l :
  Forall (fun z => is_nan (key z) = false) l ->
  StronglySorted (fun x y => (place x < place y)%nat) l ->
  StronglySorted (Spec64.before key place) (Model64.sorted_desc key l).
Proof.
  intros N H. induction H as [|x l _ IH Hx]; simpl; [constructor|].
  inversion N as [|? ? Nx Nl]; subst.
  apply insert_sorted64.
  - exact Nx.
  - rewrite Forall_forall in *. intros z Hz.
    apply Nl. apply (proj1 (sorted_in64 _ _)). exact Hz.
  - apply IH. exact Nl.
  - intros y Hy. apply (proj1 (sorted_in64 _ _)) in Hy.
    rewrite Forall_forall in Hx. apply Hx. exact Hy.
Qed.

End Sort.
End Sort64Facts.

Module Top64Facts.
Import Floats.
Import Model64.

Section Top.
Variable results : list ClfResult.

Lemma items_places64 :
  StronglySorted
    (fun x y : string * float =>
       (Spec.position (fst x) < Spec.position (fst y))%nat)
    (map (fun label => (label, Spec64.tactic_mean results label))
         Model.TACTIC_LABELS).
Proof.
  unfold Model.TACTIC_LABELS. simpl.
  repeat constructor; vm_compute; lia.
Qed.

Lemma items_in64 (p : string * float) :
  In p (map (fun label => (label, Spec64.tactic_mean results label))
            Model.TACTIC_LABELS)
  <-> In (fst p) Model.TACTIC_LABELS /\ snd p = Spec64.tactic_mean results (fst p).
Proof.
  rewrite in_map_iff. split.
  - intros (l & <- & Hl). simpl. auto.
  - intros [Hl E]. exists (fst p). split; [|exact Hl].
    destruct p; simpl in *. congruence.
Qed.

Lemma top_tactics_all_eq64 :
  top_tactics_all (map scores_dict results)
  = map fst
      (filter (fun ts : string * float => B64.gtb (snd ts) 0.25)
         (sorted_desc snd
            (map (fun label => (label, Spec64.tactic_mean results label))
                 Model.TACTIC_LABELS))).
Proof.
  unfold top_tactics_all, sorted_tactics, Dict.items.
  rewrite Model64Facts.tactic_means_spec64. reflexivity.
Qed.

Lemma kept_in64 (p : string * float) :
  In p (filter (fun ts : string * float => B64.gtb (snd ts) 0.25)
          (sorted_desc snd
             (map (fun label => (label, Spec64.tactic_mean results label))
                  Model.TACTIC_LABELS)))
  <-> In (fst p) Model.TACTIC_LABELS
      /\ snd p = Spec64.tactic_mean results (fst p)
      /\ (0.25 <? Spec64.tactic_mean results (fst p))%float = true.
Proof.
  rewrite filter_In, Sort64Facts.sorted_in64, items_in64. unfold B64.gtb. split.
  - intros [[Hl E] G]. rewrite E in G. repeat split; assumption.
  - intros (Hl & E & G). rewrite E. repeat split; assumption.
Qed.

Lemma top_all_in64 t :
  In t (top_tactics_all (map scores_dict results)) <->
  In t Model.TACTIC_LABELS
  /\ (0.25 <? Spec64.tactic_mean results t)%float = true.
Proof.
  rewrite top_tactics_all_eq64, in_map_iff. split.
  - intros (p & <- & Hp). apply (proj1 (kept_in64 _)) in Hp. tauto.
  - intros [Hl G]. exists (t, Spec64.tactic_mean results t).
    split; [reflexivity|].
    apply (proj2 (kept_in64 _)). simpl. auto.
Qed.

Hypothesis Hlen : (1 <= List.length results <= 5)%nat.
Hypothesis Hnonneg : Spec64.nonnegative results.

Lemma items_numbers :
  Forall (fun z : string * float => is_nan (snd z) = false)
    (map (fun label => (label, Spec64.tactic_mean results label))
         Model.TACTIC_LABELS).
Proof.
  apply Forall_map. rewrite Forall_forall. intros l _. simpl.
  apply Model64Facts.tactic_mean_number; assumption.
Qed.

Lemma top_all_sorted64 :
  StronglySorted (Spec64.ranks_before results)
    (top_tactics_all (map scores_dict results)).
Proof.
  rewrite top_tactics_all_eq64.
  apply SortFacts.StronglySorted_map
    with (R := Spec64.before snd
                 (fun p : string * float => Spec.position (fst p))).
  - intros x y Hx Hy Hxy.
    apply (proj1 (kept_in64 _)) in Hx. apply (proj1 (kept_in64 _)) in Hy.
    destruct Hx as (_ & Ex & _). destruct Hy as (_ & Ey & _).
    unfold Spec64.ranks_before, Spec64.before in *.
    rewrite <- Ex, <- Ey. exact Hxy.
  - apply SortFacts.StronglySorted_filter.
    apply Sort64Facts.sorted_sorted64; [exact items_numbers | exact items_places64].
Qed.

End Top.
End Top64Facts.

(** ** model.py in binary64: the sentence heat map *)

Module Highlight64Facts.
Import Floats.
Import Model64.
Local Open Scope monad_scope.

Lemma highlight_sentences_unfold64 classifier txt :
  highlight_sentences classifier txt
  = for_each (firstn 20 (Model.split_sentences (Py.strip txt)))
      (highlight_item classifier).
Proof. reflexivity. Qed.

Lemma item_total64 classifier sent st :
  exists h st',
    highlight_item classifier sent st = (Return h, st')
    /\ (text h = sent /\ Spec64.highlight_for classifier 3 h).
Proof.
  unfold highlight_item, Spec64.highlight_for.
  destruct (List.length (Py.split sent) <? 4)%nat eqn:Short.
  - eexists. eexists. split; [reflexivity|].
    simpl. rewrite Short. auto.
  - unfold try_except, bind at 1, classify, external.
    destruct (classifier sent Model.TACTIC_LABELS false) as [res | e] eqn:C.
    + unfold bind at 1, index.
      destruct (scores res) as [|top_score ss] eqn:Hs; simpl nth_error.
      * eexists. eexists. split; [reflexivity|].
        simpl. rewrite Short, C. simpl. rewrite Hs. auto.
      * unfold ret at 1. unfold bind at 1.
        destruct (labels res) as [|top_label ls] eqn:Hl; simpl nth_error.
        -- eexists. eexists. split; [reflexivity|].
           simpl. rewrite Short, C. simpl. rewrite Hs, Hl. auto.
        -- eexists. eexists. split; [reflexivity|].
           simpl. rewrite Short, C. simpl. rewrite Hs, Hl.
           split; [reflexivity|]. split; [reflexivity|].
           unfold B64.gtb.
           destruct (PrimFloat.ltb _ top_score); split; intro G;
             congruence.
    + eexists. eexists. split; [reflexivity|].
      simpl. rewrite Short, C. simpl. auto.
Qed.

End Highlight64Facts.

(** * The numeric claims, in binary64 arithmetic *)

Import PrimFloat.

(** A decimal literal stands for the binary64 number nearest to it, as it
    does in Python. *)
Set Warnings "-inexact-float".



(** The sample: 78.00000049173832 is returned as 78.0. *)
Example overall_score_sample :
  Spec64.unrounded_score [Sample64.result Sample64.scores1]
  = 78.00000049173832%float
  /\ Model64.overall_score (Sample64.analysis Sample64.scores1) = 78%float.
Proof. split; vm_compute; reflexivity. Qed.

(** C2 (as amended).  In every result returned by [analyze_text] the
    severity is the tier of the unrounded score [x], the binary64 number
    min(100.0, mean x 180) (0.0 for the canonical zero result): [x] in
    [0,40) gives LOW, in [40,70) MODERATE, in [70,100] HIGH; the returned
    [overall_score] is [x] rounded to one decimal. *)
Theorem severity_of_unrounded_score classifier text st r st' :
  Model64.analyze_text classifier text st = (Return r, st') ->
  exists x : float,
    ((~ Spec.valid text /\ x = 0%float)
     \/ (exists results,
           Spec64.classified classifier text results
           /\ x = Spec64.unrounded_score results))
    /\ Model64.overall_score r = B64.round x 1
    /\ Spec64.tier x (Model64.severity r).
Proof.
  intro H. apply Model64Facts.analyze_text_inv64 in H.
  destruct H as [[Hnv ->] | (results & Hv & Hc & ->)].
  - exists 0%float. split; [left; split; [exact Hnv | reflexivity]|].
    split; [reflexivity|]. apply Spec64.tier_low. reflexivity.
  - exists (Spec64.unrounded_score results).
    split; [right; exists results; split; [exact Hc | reflexivity]|].
    simpl Model64.overall_score. simpl Model64.severity.
    rewrite Model64Facts.overall_spec64. split; [reflexivity|].
    set (x := Spec64.unrounded_score results).
    assert (Nx : is_nan x = false) by (apply Model64Facts.min_100).
    unfold Model64.severity_of.
    destruct (B64.geb x 70) eqn:G70.
    + apply Spec64.tier_high. exact G70.
    + apply (Model64Facts.not_geb x 70 Nx eq_refl) in G70.
      destruct (B64.geb x 40) eqn:G40.
      * apply Spec64.tier_moderate; assumption.
      * apply (Model64Facts.not_geb x 40 Nx eq_refl) in G40.
        apply Spec64.tier_low. exact G40.
Qed.

Lemma severity_of_unrounded_score_witness :
  exists x : float,
    ((~ Spec.valid Sample.request_text /\ x = 0%float)
     \/ (exists results,
           Spec64.classified (Sample64.classifier Sample64.scores_two_ninths)
             Sample.request_text results
           /\ x = Spec64.unrounded_score results))
    /\ Model64.overall_score (Sample64.analysis Sample64.scores_two_ninths)
       = B64.round x 1
    /\ Spec64.tier x
         (Model64.severity (Sample64.analysis Sample64.scores_two_ninths)).
Proof.
  refine (severity_of_unrounded_score
            (Sample64.classifier Sample64.scores_two_ninths)
            Sample.request_text Sample.st0
            (Sample64.analysis Sample64.scores_two_ninths)
            (after Sample.st0 [Classify Sample.request_text true]) _).
  vm_compute. reflexivity.
Defined.

(** Six scores of 0.2222222222222222: the unrounded score is the double
    40.0, so the severity is MODERATE. *)
Example severity_at_the_boundary :
  Spec64.unrounded_score [Sample64.result Sample64.scores_two_ninths] = 40%float
  /\ Model64.severity (Sample64.analysis Sample64.scores_two_ninths)
     = "MODERATE"%string.
Proof. split; vm_compute; reflexivity. Qed.

(** C2 (as stated) fails: with six scores of 0.222 the unrounded score is
    39.96000051498413, so the severity is LOW, while the returned
    [overall_score] is 40.0, which the claim puts in the MODERATE tier. *)
Lemma severity_not_tier_of_returned_score :
  exists r st',
    Model64.analyze_text (Sample64.classifier Sample64.scores_just_below_40)
      Sample.request_text Sample.st0 = (Return r, st')
    /\ Spec64.unrounded_score [Sample64.result Sample64.scores_just_below_40]
       = 39.96000051498413%float
    /\ Model64.overall_score r = 40%float
    /\ Model64.severity r = "LOW"%string
    /\ ~ Spec64.tier (Model64.overall_score r) (Model64.severity r).
Proof.
  eexists. eexists. split; [vm_compute; reflexivity|].
  split; [vm_compute; reflexivity|].
  split; [reflexivity|]. split; [reflexivity|].
  intro T. inversion T as [L E | L U E | L E].
  vm_compute in L. discriminate L.
Qed.

(** C3.  For every valid input whose chunks the classifier answers with
    scores that are not negative, the [top_tactics] returned by
    [analyze_text] has at most 3 items; each is one of the 6 tactics and
    has a mean above 0.25; the list is in descending order of mean, and of
    two tactics with the same mean the one that comes first in the label
    set comes first; a tactic with a mean above 0.25 is left out only when
    the list is full, and then every listed tactic ranks before it.  The
    means and their comparisons are the binary64 ones. *)
Theorem top_tactics_ranking classifier text results st :
  Spec.valid text ->
  Spec64.classified classifier text results ->
  Spec64.nonnegative results ->
  exists r st',
    Model64.analyze_text classifier text st = (Return r, st')
    /\ (List.length (Model64.top_tactics r) <= 3)%nat
    /\ (forall t, In t (Model64.top_tactics r) ->
          In t Model.TACTIC_LABELS
          /\ (0.25 <? Spec64.tactic_mean results t)%float = true)
    /\ StronglySorted (Spec64.ranks_before results) (Model64.top_tactics r)
    /\ (forall t, In t Model.TACTIC_LABELS ->
          (0.25 <? Spec64.tactic_mean results t)%float = true ->
          ~ In t (Model64.top_tactics r) ->
          List.length (Model64.top_tactics r) = 3%nat
          /\ forall u, In u (Model64.top_tactics r) ->
               Spec64.ranks_before results u t).
Proof.
  intros Hv Hc Hn.
  pose proof (Model64Facts.classified_length classifier text results Hc) as Hl.
  rewrite (Model64Facts.analyze_text_ok64 classifier text results st Hv Hc).
  eexists. eexists. split; [reflexivity|].
  rewrite Model64Facts.top_tactics_result_of64.
  set (T := Model64.top_tactics_all (map Model64.scores_dict results)).
  pose proof (Top64Facts.top_all_sorted64 results Hl Hn) as HS. fold T in HS.
  split; [apply firstn_le_length|].
  split; [|split].
  - intros t Ht. apply PyFacts.in_firstn in Ht.
    apply (proj1 (Top64Facts.top_all_in64 results t)). exact Ht.
  - apply SortFacts.StronglySorted_firstn. exact HS.
  - intros t Hlab Hm Hnot.
    assert (Ht : In t T)
      by (apply (proj2 (Top64Facts.top_all_in64 results t)); auto).
    rewrite <- (firstn_skipn 3 T) in Ht, HS.
    apply in_app_or in Ht. destruct Ht as [Ht | Ht]; [contradiction|].
    split.
    + rewrite length_firstn.
      assert (L : (3 < List.length T)%nat).
      { destruct (le_lt_dec (List.length T) 3) as [L | L]; [|exact L].
        rewrite skipn_all2 in Ht by exact L. contradiction. }
      lia.
    + intros u Hu.
      apply (SortFacts.StronglySorted_app_inv _ _ _ _ HS u t Hu Ht).
Qed.

Lemma top_tactics_ranking_witness :
  exists r st',
    Model64.analyze_text (Sample64.classifier Sample64.scores1)
      Sample.request_text Sample.st0 = (Return r, st')
    /\ (List.length (Model64.top_tactics r) <= 3)%nat
    /\ (forall t, In t (Model64.top_tactics r) ->
          In t Model.TACTIC_LABELS
          /\ (0.25 <? Spec64.tactic_mean [Sample64.result Sample64.scores1] t)%float
             = true)
    /\ StronglySorted (Spec64.ranks_before [Sample64.result Sample64.scores1])
         (Model64.top_tactics r)
    /\ (forall t, In t Model.TACTIC_LABELS ->
          (0.25 <? Spec64.tactic_mean [Sample64.result Sample64.scores1] t)%float
          = true ->
          ~ In t (Model64.top_tactics r) ->
          List.length (Model64.top_tactics r) = 3%nat
          /\ forall u, In u (Model64.top_tactics r) ->
               Spec64.ranks_before [Sample64.result Sample64.scores1] u t).
Proof.
  apply (top_tactics_ranking (Sample64.classifier Sample64.scores1)
           Sample.request_text [Sample64.result Sample64.scores1] Sample.st0).
  - unfold Spec.valid. vm_compute. lia.
  - unfold Spec64.classified. vm_compute. repeat constructor.
  - unfold Spec64.nonnegative, Sample64.result, Sample64.scores1. simpl.
    repeat constructor.
Defined.

(** The four tactics above the threshold in the sample, two of them tied:
    the list keeps the first three, the tied ones in label order. *)
Example top_tactics_sample :
  Model64.top_tactics (Sample64.analysis Sample64.scores1)
  = ["Fear & Urgency"; "False Social Proof"; "Emotional Hijacking"]%string.
Proof. vm_compute. reflexivity. Qed.

(** Three chunks in which the first two tactics have the scores 0.9, 0.1,
    0.2 and 0.1, 0.2, 0.9: the sums are taken in order, the means are
    0.39999999999999997 and 0.4000000000000001, and the second tactic
    comes first. *)
Example top_tactics_of_rounded_means :
  Spec64.tactic_mean Sample64.three_chunks "Fear & Urgency"
  = 0.39999999999999997%float
  /\ Spec64.tactic_mean Sample64.three_chunks "False Social Proof"
     = 0.4000000000000001%float
  /\ Model64.top_tactics_all (map Model64.scores_dict Sample64.three_chunks)
     = ["False Social Proof"; "Fear & Urgency"]%string.
Proof. repeat split; vm_compute; reflexivity. Qed.

(** C6 (as amended).  For every text, [highlight_sentences] returns (it
    never raises) at most 20 highlights, one for each of the first 20
    sentences, in their order; a sentence of fewer than 4 words has score
    0.0 and no tactic; a longer sentence whose classification succeeds has
    the top single-label score times 1.8, clamped to 1.0 and rounded to
    three decimals, in binary64 arithmetic, and carries the top label if
    and only if the unscaled top score exceeds 0.3; a longer sentence
    whose classification fails has score 0.0 and no tactic. *)
Theorem highlight_sentences_items classifier text st :
  exists hs st',
    Model64.highlight_sentences classifier text st = (Return hs, st')
    /\ (List.length hs <= 20)%nat
    /\ map Model64.text hs = firstn 20 (Model.split_sentences (Py.strip text))
    /\ Forall (Spec64.highlight_for classifier 3) hs.
Proof.
  rewrite Highlight64Facts.highlight_sentences_unfold64.
  destruct (HighlightFacts.for_each_total (Model64.highlight_item classifier)
              (fun sent h => Model64.text h = sent
                             /\ Spec64.highlight_for classifier 3 h)
              (Highlight64Facts.item_total64 classifier)
              (firstn 20 (Model.split_sentences (Py.strip text))) st)
    as (hs & st' & E & F).
  exists hs, st'. split; [exact E|].
  set (l := firstn 20 (Model.split_sentences (Py.strip text))) in *.
  assert (Hmap : map Model64.text hs = l).
  { clear E. induction F as [|s h l' hs' [Hh _] _ IH]; simpl; congruence. }
  split; [|split].
  - rewrite <- (length_map Model64.text), Hmap. apply firstn_le_length.
  - exact Hmap.
  - clear E Hmap. induction F as [|s h l' hs' [_ Hh] _ IH]; constructor; assumption.
Qed.

(** A top score of 0.4375: its product with 1.8 is the double
    0.7874999999999999, and the score is 0.787. *)
Example highlight_score_of_rounded_product :
  exists h st',
    Model64.highlight_sentences (Sample64.classifier Sample64.scores_7_16)
      "Act now before it's too late!" Sample.st0 = (Return [h], st')
    /\ Model64.score h = 0.787%float.
Proof. eexists. eexists. split; vm_compute; reflexivity. Qed.

(** C6 (as stated) fails: a sentence of six words with a top score of
    0.3333 is given the score 0.6, not 1.8 x 0.3333 = 0.59994. *)
Lemma highlight_score_is_rounded :
  exists h st',
    Model64.highlight_sentences (Sample64.classifier Sample64.scores_third)
      "Act now before it's too late!" Sample.st0 = (Return [h], st')
    /\ List.length (Py.split (Model64.text h)) = 6%nat
    /\ Spec64.top_of (Sample64.classifier Sample64.scores_third (Model64.text h)
                        Model.TACTIC_LABELS false)
       = Some (0.33329999446868896484375%float, "Fear & Urgency"%string)
    /\ Model64.score h = 0.6%float
    /\ B64.min 1 (0.33329999446868896484375 * 1.8) = 0.5999399900436402%float
    /\ (Model64.score h =? B64.min 1 (0.33329999446868896484375 * 1.8))%float
       = false.
Proof.
  eexists. eexists. split; [vm_compute; reflexivity|].
  split; [reflexivity|]. split; [reflexivity|].
  split; [reflexivity|]. split; vm_compute; reflexivity.
Qed.
